(** * acr-push-tui: a shallow embedding of the build-and-push workflow

    The development follows the Python sources module by module:
    [subprocess_runner], [docker], [azure], [workflow], [settings], [cli]
    and, of [tui.app.AcrPushApp], the methods that suggest versions, those
    that load registries, repositories and tags, and the one that makes
    the plan of a build.

    Conventions.
    - A Python [str] is a Rocq [string]; the character of code [n] stands
      for the Unicode code point [n], so the strings covered are those of
      the Latin-1 range.  The string methods below ([isdigit], [strip],
      [splitlines]) follow the Unicode tables on that range.
    - A Python [int] that is never negative is an [N]; a process return
      code is a [Z].
    - A computation that may raise is a [Result]; one that also acts on
      the outside world is an [M], a state-and-exception monad whose
      state survives an exception. *)

From Stdlib Require Import String Ascii List NArith ZArith Bool Lia.
From Stdlib Require Import Decimal DecimalString DecimalN.
Import ListNotations.

#[local] Open Scope string_scope.
#[local] Open Scope list_scope.

Set Implicit Arguments.

(* ===================================================================== *)
(** ** Exceptions *)

(** The exception classes the program raises or lets through.  The first
    six derive from [RuntimeError] ([typer.Exit] is click's [Exit]). *)
Inductive exn_class : Type :=
  | CommandError
  | DockerCliError
  | AzureCliError
  | WorkflowError
  | TyperExit (code : Z)
  | RuntimeError
  | ValueError
  | OSError
  | OtherException.

(** An exception value: its class and [str(exc)]. *)
Inductive exn : Type := Exn (c : exn_class) (message : string).

Definition exn_cls (e : exn) : exn_class := let 'Exn c _ := e in c.
Definition exn_str (e : exn) : string := let 'Exn _ m := e in m.

(** [isinstance(exc, RuntimeError)]. *)
Definition is_RuntimeError (c : exn_class) : bool :=
  match c with
  | CommandError | DockerCliError | AzureCliError | WorkflowError
  | TyperExit _ | RuntimeError => true
  | ValueError | OSError | OtherException => false
  end.

Definition is_CommandError (c : exn_class) : bool :=
  match c with CommandError => true | _ => false end.

Definition is_AzureCliError (c : exn_class) : bool :=
  match c with AzureCliError => true | _ => false end.

Definition is_WorkflowError (c : exn_class) : bool :=
  match c with WorkflowError => true | _ => false end.

Inductive Result (A : Type) : Type :=
  | Ok (a : A)
  | Raise (e : exn).
Arguments Ok {A} a.
Arguments Raise {A} e.

Definition rbind {A B} (r : Result A) (k : A -> Result B) : Result B :=
  match r with
  | Ok a => k a
  | Raise e => Raise e
  end.

(** [[f(x) for x in xs]] for an [f] that may raise: stops at the first
    exception. *)
Fixpoint rmap {A B} (f : A -> Result B) (xs : list A) : Result (list B) :=
  match xs with
  | [] => Ok []
  | x :: xs' =>
      rbind (f x) (fun y => rbind (rmap f xs') (fun ys => Ok (y :: ys)))
  end.

(* ===================================================================== *)
(** ** Python string methods *)

Module Py.

(** [bool(s)] of a string. *)
Definition truthy (s : string) : bool :=
  match s with
  | EmptyString => false
  | String _ _ => true
  end.

(** [sep.join(xs)]. *)
Fixpoint join (sep : string) (xs : list string) : string :=
  match xs with
  | [] => ""
  | [x] => x
  | x :: xs' => x ++ sep ++ join sep xs'
  end.

(** [s.split(c)] for a one-character separator: always at least one
    piece, empty pieces kept. *)
Fixpoint split (c : ascii) (s : string) : list string :=
  match s with
  | EmptyString => [""]
  | String a s' =>
      if Ascii.eqb a c then "" :: split c s'
      else match split c s' with
           | [] => [String a ""]
           | p :: ps => String a p :: ps
           end
  end.

Definition code (a : ascii) : N := N_of_ascii a.

(** A character with the Unicode property Numeric_Type=Decimal: on this
    range the ASCII digits only. *)
Definition is_decimal_char (a : ascii) : bool :=
  ((48 <=? code a) && (code a <=? 57))%N.

(** A character with Numeric_Type Digit or Decimal, as [str.isdigit]
    tests it: the ASCII digits and the superscripts U+00B2, U+00B3 and
    U+00B9. *)
Definition is_digit_char (a : ascii) : bool :=
  is_decimal_char a
  || (code a =? 178)%N || (code a =? 179)%N || (code a =? 185)%N.

Fixpoint all_chars (p : ascii -> bool) (s : string) : bool :=
  match s with
  | EmptyString => true
  | String a s' => p a && all_chars p s'
  end.

(** [s.isdigit()]: at least one character and all of them digits. *)
Definition isdigit (s : string) : bool :=
  truthy s && all_chars is_digit_char s.

(** The decimal digits of a non-negative integer. *)
Definition digits_of (n : N) : string :=
  NilEmpty.string_of_uint (N.to_uint n).

(** [sys.get_int_max_str_digits()], by default: the interpreter refuses to
    convert between [int] and [str] a number of more decimal digits. *)
Definition max_str_digits : N := 4300.

Definition digit_count (n : N) : N := N.of_nat (String.length (digits_of n)).

(** [str(n)] of a non-negative integer, which is also what an f-string
    makes of it: its digits, or [ValueError] when they are more than the
    limit. *)
Definition str_of_int (n : N) : Result string :=
  if (max_str_digits <? digit_count n)%N
  then Raise (Exn ValueError
                ("Exceeds the limit (4300 digits) for integer string "
                   ++ "conversion; use sys.set_int_max_str_digits() to "
                   ++ "increase the limit"))
  else Ok (digits_of n).

(** The length of the run of decimal digits a string begins with. *)
Fixpoint leading_digits (s : string) : N :=
  match s with
  | EmptyString => 0
  | String a s' => if is_decimal_char a then N.succ (leading_digits s') else 0
  end.

(** [int(s)], exact on the empty string and on the strings made of digit
    characters, the only ones the program passes to it: [ValueError] when
    the string begins with more decimal digits than the limit; otherwise
    the decimal value, or [ValueError] when the string is empty or holds a
    digit that is not a decimal digit.  (On other strings Python also
    accepts white space around the number, a sign and underscores; they
    are rejected here.) *)
Definition int (s : string) : Result N :=
  match s with
  | EmptyString =>
      Raise (Exn ValueError "invalid literal for int() with base 10: ''")
  | String _ _ =>
      if (max_str_digits <? leading_digits s)%N
      then Raise (Exn ValueError
                    ("Exceeds the limit (4300 digits) for integer string "
                       ++ "conversion: value has "
                       ++ digits_of (leading_digits s)
                       ++ " digits; use sys.set_int_max_str_digits() to "
                       ++ "increase the limit"))
      else
        match NilEmpty.uint_of_string s with
        | Some d => Ok (N.of_uint d)
        | None =>
            Raise (Exn ValueError
                     ("invalid literal for int() with base 10: '" ++ s ++ "'"))
        end
  end.

(** The characters [str.isspace] accepts, which [strip()] removes. *)
Definition is_space_char (a : ascii) : bool :=
  (((9 <=? code a) && (code a <=? 13)) || ((28 <=? code a) && (code a <=? 32))
   || (code a =? 133) || (code a =? 160))%N.

Fixpoint lstrip (s : string) : string :=
  match s with
  | EmptyString => ""
  | String a s' => if is_space_char a then lstrip s' else s
  end.

(** Right strip: a suffix made of spaces only is dropped. *)
Fixpoint rstrip (s : string) : string :=
  match s with
  | EmptyString => ""
  | String a s' =>
      match rstrip s' with
      | EmptyString => if is_space_char a then "" else String a ""
      | String _ _ as t => String a t
      end
  end.

(** [s.strip()]. *)
Definition strip (s : string) : string := rstrip (lstrip s).

End Py.

(* ===================================================================== *)
(** ** tui/app.py: the version suggestion methods of [AcrPushApp]

    The three methods read nothing of [self] but each other. *)

Module app.

Definition version : Type := (N * N * N)%type.

(** [version > max_version] on tuples of three integers. *)
Definition version_gt (v w : version) : bool :=
  let '(a, b, c) := v in
  let '(a', b', c') := w in
  ((a' <? a) || ((a' =? a) && ((b' <? b) || ((b' =? b) && (c' <? c)))))%N.

(** The text of [f"{a}.{b}.{c}"] when the three conversions succeed. *)
Definition dotted (v : version) : string :=
  let '(a, b, c) := v in
  Py.digits_of a ++ "." ++ Py.digits_of b ++ "." ++ Py.digits_of c.

(** [f"{a}.{b}.{c}"]: the fields are converted first to last. *)
Definition format_version (v : version) : Result string :=
  let '(a, b, c) := v in
  rbind (Py.str_of_int a) (fun sa =>
  rbind (Py.str_of_int b) (fun sb =>
  rbind (Py.str_of_int c) (fun sc =>
    Ok (sa ++ "." ++ sb ++ "." ++ sc)%string))).

(** One iteration of the loop of [_max_semver]: the tag is skipped
    ([continue]) unless it has three parts that all pass [isdigit]. *)
Definition max_semver_step (max_version : option version) (tag : string)
  : Result (option version) :=
  let parts := Py.split "." tag in
  match parts with
  | [p0; p1; p2] =>
      if negb (forallb Py.isdigit parts) then Ok max_version
      else
        rbind (Py.int p0) (fun a =>
        rbind (Py.int p1) (fun b =>
        rbind (Py.int p2) (fun c =>
          let version := (a, b, c) in
          match max_version with
          | None => Ok (Some version)
          | Some m =>
              if version_gt version m then Ok (Some version)
              else Ok max_version
          end)))
  | _ => Ok max_version
  end.

(** The [for tag in tags] loop, from a given [max_version]. *)
Fixpoint max_semver_loop (max_version : option version) (tags : list string)
  : Result (option version) :=
  match tags with
  | [] => Ok max_version
  | tag :: rest =>
      rbind (max_semver_step max_version tag) (fun m => max_semver_loop m rest)
  end.

Definition _max_semver (tags : list string) : Result (option string) :=
  rbind (max_semver_loop None tags) (fun max_version =>
    match max_version with
    | None => Ok None
    | Some v => rbind (format_version v) (fun s => Ok (Some s))
    end).

(** The unpacking [major, minor, patch = (int(part) for ...)] draws at most
    four items from the generator. *)
Definition _suggest_versions (base : string) : Result (list string) :=
  rbind (rmap Py.int (firstn 4 (Py.split "." base))) (fun ints =>
    match ints with
    | [major; minor; patch] =>
        rbind (format_version (major, minor, patch + 1)%N) (fun bump_patch =>
        rbind (format_version (major, minor + 1, 0)%N) (fun bump_minor =>
        rbind (format_version (major + 1, 0, 0)%N) (fun bump_major =>
          Ok [bump_patch; bump_minor; bump_major])))
    | _ :: _ :: _ :: _ :: _ =>
        Raise (Exn ValueError "too many values to unpack (expected 3)")
    | _ =>
        Raise (Exn ValueError
                 ("not enough values to unpack (expected 3, got "
                    ++ Py.digits_of (N.of_nat (length ints)) ++ ")"))
    end).

Definition _build_tag_options (tags : list string) : Result (list string) :=
  rbind (_max_semver tags) (fun latest_semver =>
    rbind
      (match latest_semver with
       | Some s =>
           if Py.truthy s then _suggest_versions s
           else Ok ["0.0.1"; "0.1.0"; "1.0.0"]
       | None => Ok ["0.0.1"; "0.1.0"; "1.0.0"]
       end)
      (fun options => Ok (options ++ ["Custom tag"]))).

End app.

(* ===================================================================== *)
(** ** pathlib: pure POSIX paths

    A [Path] is kept in the normal form [pathlib] gives it: the root and
    the components, with empty and ["."] components dropped.  Two paths
    are equal ([==]) when their normal forms are. *)

Module pathlib.

Record Path : Type := mkPath { root : string; parts : list string }.

(** [Path()]. *)
Definition empty : Path := mkPath "" [].

Definition parse_root (s : string) : string :=
  match s with
  | String "/" (String "/" (String "/" _)) => "/"
  | String "/" (String "/" _) => "//"
  | String "/" _ => "/"
  | _ => ""
  end.

Definition is_component (p : string) : bool :=
  negb (String.eqb p "" || String.eqb p ".").

(** [Path(s)]. *)
Definition of_str (s : string) : Path :=
  mkPath (parse_root s) (filter is_component (Py.split "/" s)).

(** [str(p)]. *)
Definition str (p : Path) : string :=
  match root p, parts p with
  | EmptyString, [] => "."
  | r, ps => r ++ Py.join "/" ps
  end.

Definition eqb (p q : Path) : bool :=
  String.eqb (root p) (root q)
  && (if list_eq_dec string_dec (parts p) (parts q) then true else false).

End pathlib.
Abbreviation Path := pathlib.Path.

(* ===================================================================== *)
(** ** settings.py *)

Module settings.

Record AppSettings : Type := mkAppSettings {
  acr_name : option string;
  acr_resource_group : option string;
  subscription : option string;
  tenant_id : option string;
  repo_name : option string;
  tag : option string;
  dockerfile_path : option Path;
  build_context : option Path;
  skip_latest : bool;
  platform : option string;
  log_level : string
}.

(** [AppSettings()] with nothing in the environment. *)
Definition defaults : AppSettings :=
  mkAppSettings None None None None None None None None false None "INFO".

(** The values the required attributes can hold. *)
Inductive value : Type :=
  | VNone
  | VStr (s : string)
  | VPath (p : Path).

Definition of_opt {A} (inj : A -> value) (o : option A) : value :=
  match o with
  | Some a => inj a
  | None => VNone
  end.

(** [getattr(self, name)] on the six names [require_ci_fields] asks for. *)
Definition getattr (self : AppSettings) (name : string) : value :=
  if String.eqb name "acr_name" then of_opt VStr (acr_name self)
  else if String.eqb name "acr_resource_group"
       then of_opt VStr (acr_resource_group self)
  else if String.eqb name "repo_name" then of_opt VStr (repo_name self)
  else if String.eqb name "tag" then of_opt VStr (tag self)
  else if String.eqb name "dockerfile_path"
       then of_opt VPath (dockerfile_path self)
  else if String.eqb name "build_context"
       then of_opt VPath (build_context self)
  else VNone.

(** [x == y]: a string and a path are never equal. *)
Definition value_eqb (x y : value) : bool :=
  match x, y with
  | VNone, VNone => true
  | VStr s, VStr t => String.eqb s t
  | VPath p, VPath q => pathlib.eqb p q
  | _, _ => false
  end.

(** [x in ys]. *)
Definition value_in (x : value) (ys : list value) : bool :=
  existsb (value_eqb x) ys.

Definition required_names : list string :=
  ["acr_name"; "acr_resource_group"; "repo_name"; "tag";
   "dockerfile_path"; "build_context"].

Definition is_missing (self : AppSettings) (name : string) : bool :=
  value_in (getattr self name) [VNone; VStr ""; VPath pathlib.empty].

Definition missing_names (self : AppSettings) : list string :=
  filter (is_missing self) required_names.

Definition require_ci_fields (self : AppSettings) : Result unit :=
  let missing := missing_names self in
  match missing with
  | _ :: _ =>
      Raise (Exn ValueError
               ("Missing required settings for CI: " ++ Py.join ", " missing))
  | [] => Ok tt
  end.

End settings.

(* ===================================================================== *)
(** ** workflow.py: [BuildPlan] *)

Record BuildPlan : Type := mkBuildPlan {
  registry_server : string;
  repository : string;
  tag : string;
  dockerfile_path : Path;
  build_context : Path;
  skip_latest : bool;
  platform : option string
}.

Definition versioned_ref (self : BuildPlan) : string :=
  registry_server self ++ "/" ++ repository self ++ ":" ++ tag self.

Definition latest_ref (self : BuildPlan) : string :=
  registry_server self ++ "/" ++ repository self ++ ":latest".

(* ===================================================================== *)
(** ** The machine outside the program *)

(** What [subprocess.Popen] and the reading of the output give for an
    argument list: the executable cannot be started ([OSError]); [Popen]
    refuses the arguments ([ValueError], for a null byte in one of them);
    the process runs, writes the given lines (each without its terminator,
    stderr merged into stdout) and exits with the given code; or, after
    the given lines, its output cannot be decoded ([UnicodeDecodeError],
    which is a [ValueError]). *)
Inductive popen_outcome : Type :=
  | SpawnFailed (message : string)
  | SpawnRefused (message : string)
  | Spawned (lines : list string) (returncode : Z)
  | Undecodable (lines : list string) (message : string).

(** What a path refers to once symbolic links are followed. *)
Inductive node_kind : Type := RegularFile | Directory | OtherNode.

(** What [os.stat] tells [Path.is_file] and [Path.is_dir] about a path,
    as Python 3.11 to 3.13 have them: what the path refers to, or nothing
    when nothing is there, which is also how the two methods take the
    errors [ENOENT], [ENOTDIR], [EBADF] and [ELOOP] and a path with a null
    byte; or another [OSError] (a name too long, a directory that may not
    be searched), which they let through. *)
Inductive stat_outcome : Type :=
  | Known (kind : option node_kind)
  | StatFailed (message : string).

(** The gateway operations, with their arguments. *)
Inductive gateway_call : Type :=
  | EnsureAvailable
  | BuildImage (tag : string) (dockerfile_path context_path : Path)
               (platform : option string)
  | TagImage (source_tag target_tag : string)
  | PushImage (tag : string)
  | EnsureLoggedIn
  | GetCurrentAccount
  | LoginTenant (tenant_id : string)
  | SetSubscription (subscription : option string)
  | ListRegistries
  | ShowRegistry (acr_name resource_group : string)
  | LoginRegistry (acr_name : string)
  | ListRepositories (acr_name : string)
  | ListTags (acr_name repository : string).

(** The outside world: the external tools with whatever they act on
    (engine, registry, session) and the file system; and [Heap], the
    Python objects the callbacks write to (a log widget, a list). *)
Class Host : Type := {
  World : Type;
  Heap : Type;
  popen : list string -> World -> popen_outcome * World;
  path_kind : World -> Path -> stat_outcome
}.

Section Machine.
Context {H : Host}.

(** The state a run threads: the world, the heap of the callbacks, and
    two histories kept for the proofs only, the argument list of every
    process started and every gateway operation entered. *)
Record State : Type := mkState {
  world : World;
  heap : Heap;
  spawned : list (list string);
  calls : list gateway_call
}.

Definition M (A : Type) : Type := State -> Result A * State.

Definition ret {A} (a : A) : M A := fun st => (Ok a, st).

Definition raise {A} (e : exn) : M A := fun st => (Raise e, st).

Definition bind {A B} (m : M A) (k : A -> M B) : M B :=
  fun st =>
    match m st with
    | (Ok a, st') => k a st'
    | (Raise e, st') => (Raise e, st')
    end.

Definition lift {A} (r : Result A) : M A := fun st => (r, st).

(** [try: body / except C as exc: handler(exc)], [C] given by the test
    [catches] on the class of the exception. *)
Definition try_except {A} (body : M A) (catches : exn_class -> bool)
    (handler : exn -> M A) : M A :=
  fun st =>
    match body st with
    | (Ok a, st') => (Ok a, st')
    | (Raise e, st') =>
        if catches (exn_cls e) then handler e st' else (Raise e, st')
    end.

(** A callback ([Callable[[str], None]]): a procedure that reads and
    writes the heap and may raise.  It is given no hold on the world:
    what a callback would do to the external tools is not modelled. *)
Definition callback : Type := string -> Heap -> Result unit * Heap.

Definition invoke (f : callback) (x : string) : M unit :=
  fun st =>
    let (r, h) := f x (heap st) in
    (r, mkState (world st) h (spawned st) (calls st)).

Definition entered (c : gateway_call) : M unit :=
  fun st =>
    (Ok tt, mkState (world st) (heap st) (spawned st) (calls st ++ [c])).

Definition start_process (args : list string) : M popen_outcome :=
  fun st =>
    let (out, w) := popen args (world st) in
    (Ok out, mkState w (heap st) (spawned st ++ [args]) (calls st)).

Definition stat (p : Path) : M (option node_kind) :=
  fun st =>
    match path_kind (world st) p with
    | Known kind => (Ok kind, st)
    | StatFailed message => (Raise (Exn OSError message), st)
    end.

End Machine.

Declare Scope monad_scope.
Delimit Scope monad_scope with monad.
Notation "x <- m ;; k" := (bind m (fun x => k))
  (at level 61, m at next level, right associativity) : monad_scope.
Notation "m ;; k" := (bind m (fun _ => k))
  (at level 61, right associativity) : monad_scope.
#[local] Open Scope monad_scope.

(** [for x in xs: body(x)]. *)
Fixpoint for_each {H : Host} {A} (xs : list A) (body : A -> M unit) : M unit :=
  match xs with
  | [] => ret tt
  | x :: xs' => body x ;; for_each xs' body
  end.

(** Calls an optional callback, as [if cb: cb(x)] does. *)
Definition call_if_given {H : Host} (cb : option callback) (x : string)
  : M unit :=
  match cb with
  | Some f => invoke f x
  | None => ret tt
  end.

(* ===================================================================== *)
(** ** shlex.quote *)

Module shlex.

Definition is_safe_char (a : ascii) : bool :=
  let n := Py.code a in
  (((48 <=? n) && (n <=? 57)) || ((65 <=? n) && (n <=? 90))
   || ((97 <=? n) && (n <=? 122))
   || existsb (Ascii.eqb a)
        ["_"; "@"; "%"; "+"; "="; ":"; ","; "."; "/"; "-"]%char)%N.

Definition dquote : string := String "034"%char "".

(** [s.replace("'", "'" + '"' + "'" + '"' + "'")]. *)
Fixpoint escape_quotes (s : string) : string :=
  match s with
  | EmptyString => ""
  | String a s' =>
      if Ascii.eqb a "'"%char
      then "'" ++ dquote ++ "'" ++ dquote ++ "'" ++ escape_quotes s'
      else String a (escape_quotes s')
  end.

Definition quote (s : string) : string :=
  if negb (Py.truthy s) then "''"
  else if Py.all_chars is_safe_char s then s
  else "'" ++ escape_quotes s ++ "'".

End shlex.

(* ===================================================================== *)
(** ** services/subprocess_runner.py *)

Module subprocess_runner.

Record CommandResult : Type := mkCommandResult {
  stdout : string;
  stderr : string;
  return_code : Z
}.

Definition newline : string := String "010"%char "".

Section WithHost.
Context {H : Host}.

Definition run_command (args : list string) (check : bool)
    (on_output : option callback) : M CommandResult :=
  process <- start_process args ;;
  match process with
  | SpawnFailed message => raise (Exn OSError message)
  | SpawnRefused message => raise (Exn ValueError message)
  | Spawned output_lines returncode =>
      for_each output_lines (fun clean => call_if_given on_output clean) ;;
      let stdout := Py.strip (Py.join newline output_lines) in
      let result := mkCommandResult stdout "" returncode in
      if check && negb (returncode =? 0)%Z
      then raise (Exn CommandError
                    (if Py.truthy stdout then stdout else "Command failed."))
      else ret result
  | Undecodable output_lines message =>
      for_each output_lines (fun clean => call_if_given on_output clean) ;;
      raise (Exn ValueError message)
  end.

End WithHost.

End subprocess_runner.

(* ===================================================================== *)
(** ** services/docker.py *)

Module docker.
Import subprocess_runner.

Section WithHost.
Context {H : Host}.

Definition _emit_command (args : list string)
    (on_command : option callback) : M unit :=
  let formatted := Py.join " " (map shlex.quote args) in
  call_if_given on_command formatted.

Definition ensure_available (on_output on_command : option callback)
  : M unit :=
  entered EnsureAvailable ;;
  try_except
    (let args := ["docker"; "info"] in
     _emit_command args on_command ;;
     _ <- run_command args true on_output ;;
     ret tt)
    is_CommandError
    (fun exc => raise (Exn DockerCliError "Docker daemon is not running.")).

Definition build_image (tag : string) (dockerfile_path context_path : Path)
    (platform : option string) (on_output on_command : option callback)
  : M unit :=
  entered (BuildImage tag dockerfile_path context_path platform) ;;
  let args :=
    match platform with
    | Some p =>
        if Py.truthy p
        then ["docker"; "build"; "--platform"; p; "-t"; tag; "-f";
              pathlib.str dockerfile_path; pathlib.str context_path]
        else ["docker"; "build"; "-t"; tag; "-f";
              pathlib.str dockerfile_path; pathlib.str context_path]
    | None => ["docker"; "build"; "-t"; tag; "-f";
               pathlib.str dockerfile_path; pathlib.str context_path]
    end in
  try_except
    (_emit_command args on_command ;;
     _ <- run_command args true on_output ;;
     ret tt)
    is_CommandError
    (fun exc => raise (Exn DockerCliError "Docker build failed.")).

Definition tag_image (source_tag target_tag : string)
    (on_output on_command : option callback) : M unit :=
  entered (TagImage source_tag target_tag) ;;
  try_except
    (let args := ["docker"; "tag"; source_tag; target_tag] in
     _emit_command args on_command ;;
     _ <- run_command args true on_output ;;
     ret tt)
    is_CommandError
    (fun exc => raise (Exn DockerCliError "Docker tag failed.")).

Definition push_image (tag : string)
    (on_output on_command : option callback) : M unit :=
  entered (PushImage tag) ;;
  try_except
    (let args := ["docker"; "push"; tag] in
     _emit_command args on_command ;;
     _ <- run_command args true on_output ;;
     ret tt)
    is_CommandError
    (fun exc => raise (Exn DockerCliError ("Failed to push image: " ++ tag))).

End WithHost.

End docker.

(* ===================================================================== *)
(** ** services/azure.py *)

Module azure.
Import subprocess_runner.

Record AcrRegistry : Type := mkAcrRegistry {
  name : string;
  resource_group : string;
  login_server : string
}.

Record AccountInfo : Type := mkAccountInfo {
  tenant_id : string;
  tenant_name : string;
  account_name : string
}.

Definition is_linebreak (a : ascii) : bool :=
  let n := Py.code a in
  (((10 <=? n) && (n <=? 13)) || ((28 <=? n) && (n <=? 30)) || (n =? 133))%N.

(** [s.splitlines()]; [after_cr] tells that the previous character was a
    carriage return, of which a line feed is then a part. *)
Fixpoint splitlines_from (after_cr : bool) (s : string) : list string :=
  match s with
  | EmptyString => []
  | String a s' =>
      if after_cr && Ascii.eqb a "010"%char then splitlines_from false s'
      else if is_linebreak a
      then "" :: splitlines_from (Ascii.eqb a "013"%char) s'
      else match splitlines_from false s' with
           | [] => [String a ""]
           | l :: ls => String a l :: ls
           end
  end.

Definition splitlines (s : string) : list string :=
  splitlines_from false s.

Definition _split_tsv_lines (result : CommandResult) : list (list string) :=
  filter (fun parts => match parts with [] => false | _ => true end)
    (map (fun raw =>
            map Py.strip
              (filter (fun part => Py.truthy (Py.strip part))
                 (Py.split "009"%char raw)))
       (splitlines (stdout result))).

Section WithHost.
Context {H : Host}.

Definition _emit_command (args : list string)
    (on_command : option callback) : M unit :=
  let formatted := Py.join " " (map shlex.quote args) in
  call_if_given on_command formatted.

Definition ensure_logged_in (on_output on_command : option callback)
  : M unit :=
  entered EnsureLoggedIn ;;
  try_except
    (let args := ["az"; "account"; "show"] in
     _emit_command args on_command ;;
     _ <- run_command args true on_output ;;
     ret tt)
    is_CommandError
    (fun exc => raise (Exn AzureCliError "Azure CLI is not logged in.")).

Definition get_current_account (on_output on_command : option callback)
  : M AccountInfo :=
  entered GetCurrentAccount ;;
  result <-
    try_except
      (let args := ["az"; "account"; "show"; "--query";
                    "{Tenant:tenantId,TenantName:tenantDisplayName,Account:name}";
                    "-o"; "tsv"] in
       _emit_command args on_command ;;
       run_command args true on_output)
      is_CommandError
      (fun exc =>
         raise (Exn AzureCliError "Failed to read Azure account info.")) ;;
  match _split_tsv_lines result with
  | [t; tn; a] :: _ => ret (mkAccountInfo t tn a)
  | _ => raise (Exn AzureCliError "Unexpected Azure account response.")
  end.

Definition login_tenant (tenant_id : string)
    (on_output on_command : option callback) : M unit :=
  entered (LoginTenant tenant_id) ;;
  if negb (Py.truthy tenant_id)
  then raise (Exn AzureCliError "Tenant id is required for login.")
  else
    try_except
      (let args := ["az"; "login"; "--tenant"; tenant_id] in
       _emit_command args on_command ;;
       _ <- run_command args true on_output ;;
       ret tt)
      is_CommandError
      (fun exc =>
         raise (Exn AzureCliError
                  ("Failed to login to tenant: " ++ tenant_id))).

Definition set_subscription (subscription : option string)
    (on_output on_command : option callback) : M unit :=
  entered (SetSubscription subscription) ;;
  match subscription with
  | None => ret tt
  | Some s =>
      if negb (Py.truthy s) then ret tt
      else
        try_except
          (let args := ["az"; "account"; "set"; "--subscription"; s] in
           _emit_command args on_command ;;
           _ <- run_command args true on_output ;;
           ret tt)
          is_CommandError
          (fun exc =>
             raise (Exn AzureCliError ("Failed to set subscription: " ++ s)))
  end.

Definition list_registries (on_output on_command : option callback)
  : M (list AcrRegistry) :=
  entered ListRegistries ;;
  result <-
    try_except
      (let args := ["az"; "acr"; "list"; "--query";
                    "[].{Name:name,RG:resourceGroup,LS:loginServer}";
                    "-o"; "tsv"] in
       _emit_command args on_command ;;
       run_command args true on_output)
      is_CommandError
      (fun exc => raise (Exn AzureCliError "Failed to list registries.")) ;;
  ret (flat_map
         (fun line =>
            match line with
            | [n; rg; ls] => [mkAcrRegistry n rg ls]
            | _ => []
            end)
         (_split_tsv_lines result)).

Definition show_registry (acr_name resource_group : string)
    (on_output on_command : option callback) : M AcrRegistry :=
  entered (ShowRegistry acr_name resource_group) ;;
  result <-
    try_except
      (let args := ["az"; "acr"; "show"; "--name"; acr_name;
                    "--resource-group"; resource_group; "--query";
                    "{Name:name,RG:resourceGroup,LS:loginServer}";
                    "-o"; "tsv"] in
       _emit_command args on_command ;;
       run_command args true on_output)
      is_CommandError
      (fun exc =>
         raise (Exn AzureCliError ("Registry not found: " ++ acr_name))) ;;
  match _split_tsv_lines result with
  | [n; rg; ls] :: _ => ret (mkAcrRegistry n rg ls)
  | _ => raise (Exn AzureCliError "Unexpected registry response.")
  end.

Definition login_registry (acr_name : string)
    (on_output on_command : option callback) : M unit :=
  entered (LoginRegistry acr_name) ;;
  try_except
    (let args := ["az"; "acr"; "login"; "--name"; acr_name] in
     _emit_command args on_command ;;
     _ <- run_command args true on_output ;;
     ret tt)
    is_CommandError
    (fun exc =>
       raise (Exn AzureCliError ("Failed to login to registry: " ++ acr_name))).

(** [[line[0] for line in lines if line]]. *)
Definition first_columns (lines : list (list string)) : list string :=
  flat_map (fun line => match line with [] => [] | x :: _ => [x] end) lines.

Definition list_repositories (acr_name : string)
    (on_output on_command : option callback) : M (list string) :=
  entered (ListRepositories acr_name) ;;
  let args := ["az"; "acr"; "repository"; "list"; "--name"; acr_name;
               "-o"; "tsv"] in
  _emit_command args on_command ;;
  result <- run_command args true on_output ;;
  ret (first_columns (_split_tsv_lines result)).

Definition list_tags (acr_name repository : string)
    (on_output on_command : option callback) : M (list string) :=
  entered (ListTags acr_name repository) ;;
  let args := ["az"; "acr"; "repository"; "show-tags"; "--name"; acr_name;
               "--repository"; repository; "-o"; "tsv"] in
  _emit_command args on_command ;;
  result <- run_command args true on_output ;;
  ret (first_columns (_split_tsv_lines result)).

End WithHost.

End azure.

(* ===================================================================== *)
(** ** workflow.py *)

Module workflow.

Section WithHost.
Context {H : Host}.

Definition is_file (p : Path) : M bool :=
  k <- stat p ;;
  ret (match k with Some RegularFile => true | _ => false end).

Definition is_dir (p : Path) : M bool :=
  k <- stat p ;;
  ret (match k with Some Directory => true | _ => false end).

Definition resolve_registry (acr_name resource_group : string)
  : M azure.AcrRegistry :=
  try_except
    (azure.show_registry acr_name resource_group None None)
    is_AzureCliError
    (fun exc => raise (Exn WorkflowError (exn_str exc))).

Definition validate_docker_paths (dockerfile_path build_context : Path)
  : M unit :=
  f <- is_file dockerfile_path ;;
  if negb f
  then raise (Exn WorkflowError
                ("Dockerfile not found: " ++ pathlib.str dockerfile_path))
  else
    d <- is_dir build_context ;;
    if negb d
    then raise (Exn WorkflowError
                  ("Build context not found: " ++ pathlib.str build_context))
    else ret tt.

Definition build_and_push (plan : BuildPlan)
    (on_output on_command : option callback) : M unit :=
  try_except
    (docker.ensure_available on_output on_command ;;
     docker.build_image (versioned_ref plan) (dockerfile_path plan)
       (build_context plan) (platform plan) on_output on_command ;;
     (if negb (skip_latest plan)
      then docker.tag_image (versioned_ref plan) (latest_ref plan)
             on_output on_command
      else ret tt) ;;
     docker.push_image (versioned_ref plan) on_output on_command ;;
     (if negb (skip_latest plan)
      then docker.push_image (latest_ref plan) on_output on_command
      else ret tt))
    is_RuntimeError
    (fun exc => raise (Exn WorkflowError (exn_str exc))).

End WithHost.

End workflow.

(* ===================================================================== *)
(** ** cli.py: CI mode *)

Module cli.
Import settings.

(** [x or ""] on an optional string. *)
Definition or_empty (x : option string) : string :=
  match x with
  | Some s => s
  | None => ""
  end.

(** [p or Path()] on an optional path; a path is never falsy. *)
Definition or_cwd (p : option Path) : Path :=
  match p with
  | Some q => q
  | None => pathlib.empty
  end.

Section WithHost.
Context {H : Host}.

Definition _run_ci (settings : AppSettings) : M unit :=
  lift (require_ci_fields settings) ;;
  azure.ensure_logged_in None None ;;
  azure.set_subscription (subscription settings) None None ;;
  registry <- workflow.resolve_registry (or_empty (acr_name settings))
                (or_empty (acr_resource_group settings)) ;;
  azure.login_registry (azure.name registry) None None ;;
  let dockerfile_path := or_cwd (settings.dockerfile_path settings) in
  let build_context := or_cwd (settings.build_context settings) in
  workflow.validate_docker_paths dockerfile_path build_context ;;
  let plan :=
    mkBuildPlan (azure.login_server registry)
      (or_empty (repo_name settings)) (or_empty (settings.tag settings))
      dockerfile_path build_context (settings.skip_latest settings)
      (settings.platform settings) in
  try_except
    (workflow.build_and_push plan None None)
    is_WorkflowError
    (fun exc => raise (Exn (TyperExit 1) "")).

End WithHost.

End cli.

(* ===================================================================== *)
(** ** A host to run the model on

    Processes print nothing and exit with the code [exit_code] gives for
    their argument list; [kind] is the file system.  The heap is the list
    of the lines the callbacks were given. *)

Definition sim_host (exit_code : list string -> Z)
    (kind : Path -> option node_kind) : Host :=
  {| World := unit;
     Heap := list string;
     popen := fun args w => (Spawned [] (exit_code args), w);
     path_kind := fun _ p => Known (kind p) |}.

(** Every tool succeeds; [Dockerfile] is a file, the current directory a
    directory. *)
Definition all_ok : list string -> Z := fun _ => 0%Z.

Definition small_fs (p : Path) : option node_kind :=
  if pathlib.eqb p (pathlib.of_str "Dockerfile") then Some RegularFile
  else if pathlib.eqb p pathlib.empty then Some Directory
  else None.

(** The tool fails when its second argument is [verb]. *)
Definition fails_on (verb : string) : list string -> Z :=
  fun args =>
    match args with
    | _ :: v :: _ => if String.eqb v verb then 1%Z else 0%Z
    | _ => 0%Z
    end.

(** The state before anything ran. *)
Definition sim_state (exit_code : list string -> Z)
    (kind : Path -> option node_kind) : @State (sim_host exit_code kind) :=
  @mkState (sim_host exit_code kind) tt [] [] [].

(** A callback that records what it is given, and one that raises. *)
Definition recorder {ec k} : @callback (sim_host ec k) :=
  fun x h => (Ok tt, (h ++ [x])%list).

Definition broken {ec k} : @callback (sim_host ec k) :=
  fun x h => (Raise (Exn RuntimeError "boom"), h).

Definition example_plan : BuildPlan :=
  mkBuildPlan "reg.example.com" "myrepo" "1.0.0"
    (pathlib.of_str "Dockerfile") (pathlib.of_str ".") false None.

(** The tag of the superscript two, U+00B2: a digit, not a decimal. *)
Definition superscript_two : string := String "178"%char "".

Definition odd_tag : string := "1.2." ++ superscript_two.

(** Settings complete but for a build context given as ["."], which the
    file system of [small_fs] knows as a directory. *)
Definition dot_context_settings : settings.AppSettings :=
  settings.mkAppSettings (Some "acr") (Some "rg") None None (Some "repo")
    (Some "1.0.0") (Some (pathlib.of_str "Dockerfile"))
    (Some (pathlib.of_str ".")) false None "INFO".

(* ===================================================================== *)
(** ** The version shape, in the words of the specification *)

(** A number that [str] and [int] convert: its digits are not more than
    the limit. *)
Definition within_limit (n : N) : Prop :=
  (Py.digit_count n <= Py.max_str_digits)%N.

(** [a * n], and the tag whose patch is 4300 nines, the greatest number
    that is converted. *)
Fixpoint repeated (a : ascii) (n : nat) : string :=
  match n with
  | O => ""
  | S n' => String a (repeated a n')
  end.

Definition largest_patch_tag : string := "0.0." ++ repeated "9" 4300.

(** A non-empty run of decimal digits. *)
Definition plain_component (s : string) : bool :=
  Py.truthy s && Py.all_chars Py.is_decimal_char s.

Definition decimal_value (s : string) : N :=
  match NilEmpty.uint_of_string s with
  | Some d => N.of_uint d
  | None => 0%N
  end.

(** Exactly three dot-separated non-negative integers. *)
Definition parse_semver (tag : string) : option app.version :=
  match Py.split "." tag with
  | [a; b; c] =>
      if plain_component a && plain_component b && plain_component c
      then Some (decimal_value a, decimal_value b, decimal_value c)
      else None
  | _ => None
  end.

(** A string of at most as many characters as [int] converts digits, and
    a tag whose components are such strings. *)
Definition converts (s : string) : bool :=
  (N.of_nat (String.length s) <=? Py.max_str_digits)%N.

Definition short_components (tag : string) : bool :=
  forallb converts (Py.split "." tag).

(** The tags the guard of [_max_semver] lets through although they are
    not of that shape: three components of digit characters, one of them
    with a digit that is not decimal. *)
Definition digit_but_not_decimal (tag : string) : bool :=
  match Py.split "." tag with
  | [a; b; c] =>
      Py.isdigit a && Py.isdigit b && Py.isdigit c
      && negb (plain_component a && plain_component b && plain_component c)
  | _ => false
  end.

(** [w] is at most [v], component by component from the left. *)
Definition version_le (w v : app.version) : Prop :=
  let '(a, b, c) := v in
  let '(a', b', c') := w in
  (a' < a \/ (a' = a /\ (b' < b \/ (b' = b /\ c' <= c))))%N.

(** The greater of the maximum so far and a parsed tag, if any. *)
Definition greater_of (m v : option app.version) : option app.version :=
  match v, m with
  | None, _ => m
  | Some x, None => Some x
  | Some x, Some w => if app.version_gt x w then Some x else Some w
  end.

Definition greatest (vs : list (option app.version)) : option app.version :=
  fold_left greater_of vs None.

(* ===================================================================== *)
(** ** Vocabulary of the statements *)

Section Vocabulary.
Context {H : Host}.

(** The gateway operations a run of [build_and_push] is expected to
    enter, in order. *)
Definition expected_calls (plan : BuildPlan) : list gateway_call :=
  ([EnsureAvailable;
    BuildImage (versioned_ref plan) (dockerfile_path plan)
      (build_context plan) (platform plan)]
   ++ (if skip_latest plan then []
       else [TagImage (versioned_ref plan) (latest_ref plan)])
   ++ [PushImage (versioned_ref plan)]
   ++ (if skip_latest plan then [] else [PushImage (latest_ref plan)]))%list.

(** The same sequence as computations. *)
Definition pipeline_steps (plan : BuildPlan)
    (on_output on_command : option callback) : list (M unit) :=
  ([docker.ensure_available on_output on_command;
    docker.build_image (versioned_ref plan) (dockerfile_path plan)
      (build_context plan) (platform plan) on_output on_command]
   ++ (if skip_latest plan then []
       else [docker.tag_image (versioned_ref plan) (latest_ref plan)
               on_output on_command])
   ++ [docker.push_image (versioned_ref plan) on_output on_command]
   ++ (if skip_latest plan then []
       else [docker.push_image (latest_ref plan) on_output on_command]))%list.

(** Runs the computations one after the other, up to the first that
    raises. *)
Fixpoint run_all (ms : list (M unit)) : M unit :=
  match ms with
  | [] => ret tt
  | m :: ms' => m ;; run_all ms'
  end.

(** The handler of [build_and_push]: [raise WorkflowError(str(exc))]. *)
Definition to_workflow_error (exc : exn) : M unit :=
  raise (Exn WorkflowError (exn_str exc)).

(** A callback that never raises. *)
Definition returns_normally (f : callback) : Prop :=
  forall x h, fst (f x h) = Ok tt.

(** An optional callback that is absent or never raises. *)
Definition quiet (cb : option callback) : Prop :=
  match cb with
  | Some f => returns_normally f
  | None => True
  end.

(** Two states that differ in the heap of the callbacks at most. *)
Definition same_outside (s1 s2 : State) : Prop :=
  world s1 = world s2 /\ spawned s1 = spawned s2 /\ calls s1 = calls s2.

(** Two computations that, from states that agree outside the heap,
    end alike (same value or same exception) in states that agree
    outside the heap. *)
Definition sim {A} (m1 m2 : M A) : Prop :=
  forall s1 s2, same_outside s1 s2 ->
    fst (m1 s1) = fst (m2 s2) /\ same_outside (snd (m1 s1)) (snd (m2 s2)).

(** From one and the same state the two computations end alike: same
    value or same exception, same world, same processes started in the
    same order, same gateway operations entered. *)
Definition same_run {A} (m1 m2 : M A) : Prop :=
  forall st,
    fst (m1 st) = fst (m2 st) /\ same_outside (snd (m1 st)) (snd (m2 st)).

(** A computation that leaves the history of gateway operations as it
    found it. *)
Definition keeps_calls {A} (m : M A) : Prop :=
  forall st, calls (snd (m st)) = calls st.

(** A computation that enters the gateway operation [c] and no other. *)
Definition enters {A} (c : gateway_call) (m : M A) : Prop :=
  forall st, calls (snd (m st)) = (calls st ++ [c])%list.

End Vocabulary.

(* ===================================================================== *)
(** ** More vocabulary: what the callbacks are given *)

Section CallbackVocabulary.
Context {H : Host}.

(** The heap after an optional callback was given [x]. *)
Definition given (cb : option callback) (x : string) (h : Heap) : Heap :=
  match cb with
  | Some f => snd (f x h)
  | None => h
  end.

(** The heap after an optional callback was given each of [lines], first
    to last. *)
Definition fed (cb : option callback) (lines : list string) (h : Heap)
  : Heap :=
  fold_left (fun h' line => given cb line h') lines h.

(** The command line as [_emit_command] formats it. *)
Definition command_line (args : list string) : string :=
  Py.join " " (map shlex.quote args).

(** The state after a process was started with [args] that left the world
    [w], the heap being [h]. *)
Definition after_process (st : State) (args : list string) (w : World)
    (h : Heap) : State :=
  mkState w h (spawned st ++ [args]) (calls st).

End CallbackVocabulary.

(** A host whose tools follow a script: what a process prints and how it
    exits depends on its argument list only. *)
Definition script_host (script : list string -> popen_outcome)
    (kind : Path -> option node_kind) : Host :=
  {| World := unit;
     Heap := list string;
     popen := fun args w => (script args, w);
     path_kind := fun _ p => Known (kind p) |}.

Definition script_state (script : list string -> popen_outcome)
    (kind : Path -> option node_kind) : @State (script_host script kind) :=
  @mkState (script_host script kind) tt [] [] [].

(** A callback of a scripted host that records what it is given. *)
Definition keep {script kind} : @callback (script_host script kind) :=
  fun x h => (Ok tt, (h ++ [x])%list).

(** A tool that prints two lines around an empty one and fails. *)
Definition noisy_failure : list string -> popen_outcome :=
  fun _ => Spawned ["step 1"; ""; "error: denied"] 1%Z.

(** A tool that prints nothing and fails. *)
Definition silent_failure : list string -> popen_outcome :=
  fun _ => Spawned [] 2%Z.

(* ===================================================================== *)
(** ** More vocabulary: a gateway operation that runs one tool *)

Section ToolVocabulary.
Context {H : Host}.

(** [m] echoes the command line of [args] to [on_command], starts the one
    process [args] and gives [on_output] its lines; it returns when the
    process exits with 0 and raises [failure] when it exits with another
    code, whatever it printed; when the process cannot be started the
    [OSError] passes, and so does the [ValueError] of arguments that are
    refused or of output that cannot be decoded. *)
Definition runs_tool (m : M unit) (args : list string) (failure : exn)
    (on_output on_command : option callback) : Prop :=
  forall st,
    let echoed := given on_command (command_line args) (heap st) in
    match fst (popen args (world st)) with
    | SpawnFailed message =>
        fst (m st) = Raise (Exn OSError message)
        /\ heap (snd (m st)) = echoed
    | SpawnRefused message =>
        fst (m st) = Raise (Exn ValueError message)
        /\ heap (snd (m st)) = echoed
    | Spawned lines rc =>
        fst (m st) = (if (rc =? 0)%Z then Ok tt else Raise failure)
        /\ heap (snd (m st)) = fed on_output lines echoed
    | Undecodable lines message =>
        fst (m st) = Raise (Exn ValueError message)
        /\ heap (snd (m st)) = fed on_output lines echoed
    end
    /\ world (snd (m st)) = snd (popen args (world st))
    /\ spawned (snd (m st)) = (spawned st ++ [args])%list.

(** [m] gives up, without starting a process and without touching the
    world, when the echo callback [f] raises on the command line of
    [args]: the exception of [f] passes, but a [CommandError] is turned
    into [failure]. *)
Definition echo_comes_first {A} (m : M A) (args : list string)
    (failure : exn) (f : callback) : Prop :=
  forall st e h,
    f (command_line args) (heap st) = (Raise e, h) ->
    fst (m st) = Raise (if is_CommandError (exn_cls e) then failure else e)
    /\ spawned (snd (m st)) = spawned st
    /\ world (snd (m st)) = world st
    /\ heap (snd (m st)) = h.

(** The arguments of [docker build]. *)
Definition build_args (tag : string) (dockerfile_path context_path : Path)
    (platform : option string) : list string :=
  (["docker"; "build"]
   ++ match platform with
      | Some p => if Py.truthy p then ["--platform"; p] else []
      | None => []
      end
   ++ ["-t"; tag; "-f"; pathlib.str dockerfile_path;
       pathlib.str context_path])%list.

End ToolVocabulary.

(** A callback that raises what it is told to. *)
Definition raising {script kind} (e : exn)
  : @callback (script_host script kind) :=
  fun x h => (Raise e, (h ++ [x])%list).

Definition quiet_success : list string -> popen_outcome :=
  fun _ => Spawned ["ok"] 0%Z.

(* ===================================================================== *)
(** ** More vocabulary: fields of tab-separated output *)

Definition tab_char : ascii := "009"%char.
Definition tab : string := String tab_char "".

(** A string that does not begin with white space. *)
Definition starts_clean (s : string) : bool :=
  match s with
  | EmptyString => true
  | String a _ => negb (Py.is_space_char a)
  end.

(** A string that does not end with white space. *)
Fixpoint ends_clean (s : string) : bool :=
  match s with
  | EmptyString => true
  | String a EmptyString => negb (Py.is_space_char a)
  | String _ s' => ends_clean s'
  end.

(** A field as [_split_tsv_lines] returns them: not empty, without a tab
    or a line break, without white space at either end. *)
Definition clean_field (s : string) : bool :=
  Py.truthy s
  && Py.all_chars (fun a => negb (Ascii.eqb a tab_char)) s
  && Py.all_chars (fun a => negb (azure.is_linebreak a)) s
  && starts_clean s && ends_clean s.

(** A table of such fields, no row empty. *)
Definition clean_table (rows : list (list string)) : bool :=
  forallb (fun row => match row with
                      | [] => false
                      | _ :: _ => forallb clean_field row
                      end) rows.

(** The text of a table: fields joined by tabs, rows by line feeds. *)
Definition tsv_text (rows : list (list string)) : string :=
  Py.join subprocess_runner.newline (map (Py.join tab) rows).

Definition registry_row (r : azure.AcrRegistry) : list string :=
  [azure.name r; azure.resource_group r; azure.login_server r].

(* ===================================================================== *)
(** ** More vocabulary: queries *)

Section QueryVocabulary.
Context {H : Host}.

(** [m] starts the one process [args] and returns the names it prints,
    one on a line, in order; when the process exits with another code than
    0 it raises the [CommandError] of [run_command] as it is. *)
Definition lists_names (m : M (list string)) (args : list string) : Prop :=
  forall st,
    spawned (snd (m st)) = (spawned st ++ [args])%list
    /\ match fst (popen args (world st)) with
       | SpawnFailed message => fst (m st) = Raise (Exn OSError message)
       | SpawnRefused message => fst (m st) = Raise (Exn ValueError message)
       | Spawned lines rc =>
           (rc <> 0%Z ->
            exists message,
              message <> "" /\ fst (m st) = Raise (Exn CommandError message))
           /\ (rc = 0%Z ->
               (forall n, In n lines -> clean_field n = true) ->
               fst (m st) = Ok lines)
       | Undecodable _ message =>
           fst (m st) = Raise (Exn ValueError message)
       end.

End QueryVocabulary.

(** The arguments of [az acr show]. *)
Definition show_args (a rg : string) : list string :=
  ["az"; "acr"; "show"; "--name"; a; "--resource-group"; rg; "--query";
   "{Name:name,RG:resourceGroup,LS:loginServer}"; "-o"; "tsv"].

Definition two_registries : list azure.AcrRegistry :=
  [azure.mkAcrRegistry "acr1" "rg one" "acr1.azurecr.io";
   azure.mkAcrRegistry "acr2" "rg-two" "acr2.azurecr.io"].

(** [az] prints the two registries for [az acr list], the first of them
    for [az acr show], and fails on anything else. *)
Definition registry_script : list string -> popen_outcome :=
  fun args =>
    match args with
    | _ :: _ :: verb :: _ =>
        if String.eqb verb "list"
        then Spawned
               (map (fun r => Py.join tab (registry_row r)) two_registries) 0%Z
        else if String.eqb verb "show"
        then Spawned
               [("acr1" ++ tab ++ "rg one" ++ tab ++ "acr1.azurecr.io")%string]
               0%Z
        else Spawned ["ERROR: not found"] 1%Z
    | _ => Spawned ["ERROR: not found"] 1%Z
    end.

(* ===================================================================== *)
(** ** More vocabulary: the classes of exception a computation can raise *)

Section RaiseVocabulary.
Context {H : Host}.

(** Whatever [m] raises is of a class that [ok] accepts. *)
Definition raises_only {A} (m : M A) (ok : exn_class -> bool) : Prop :=
  forall st e, fst (m st) = Raise e -> ok (exn_cls e) = true.

End RaiseVocabulary.

Definition is_OSError (c : exn_class) : bool :=
  match c with OSError => true | _ => false end.

Definition is_DockerCliError (c : exn_class) : bool :=
  match c with DockerCliError => true | _ => false end.

Definition is_ValueError (c : exn_class) : bool :=
  match c with ValueError => true | _ => false end.

(** [typer.Exit(code=1)]. *)
Definition is_Exit_1 (c : exn_class) : bool :=
  match c with TyperExit 1%Z => true | _ => false end.

Definition either (p q : exn_class -> bool) (c : exn_class) : bool :=
  p c || q c.

(** What no handler of the program catches: the [OSError] of a tool that
    cannot be started or of a path that cannot be examined, and the
    [ValueError] of an argument that [Popen] refuses or of output that
    cannot be decoded (a [UnicodeDecodeError]). *)
Definition is_OSError_or_ValueError : exn_class -> bool :=
  either is_OSError is_ValueError.

(* ===================================================================== *)
(** ** More vocabulary: CI mode *)

(** The plan [_run_ci] builds from the settings and the registry that
    [az acr show] described. *)
Definition ci_plan (s : settings.AppSettings) (registry : azure.AcrRegistry)
  : BuildPlan :=
  mkBuildPlan (azure.login_server registry)
    (cli.or_empty (settings.repo_name s)) (cli.or_empty (settings.tag s))
    (cli.or_cwd (settings.dockerfile_path s))
    (cli.or_cwd (settings.build_context s))
    (settings.skip_latest s) (settings.platform s).

(** The operations of [azure.py] a run of [_run_ci] enters, in order. *)
Definition ci_azure_calls (s : settings.AppSettings)
    (registry : azure.AcrRegistry) : list gateway_call :=
  [EnsureLoggedIn;
   SetSubscription (settings.subscription s);
   ShowRegistry (cli.or_empty (settings.acr_name s))
     (cli.or_empty (settings.acr_resource_group s));
   LoginRegistry (azure.name registry)].

(** A gateway operation of [docker.py]. *)
Definition is_docker_call (c : gateway_call) : bool :=
  match c with
  | EnsureAvailable | BuildImage _ _ _ _ | TagImage _ _ | PushImage _ => true
  | _ => false
  end.

(** What can escape [_run_ci] before the docker pipeline starts. *)
Definition ci_prelude_errors (c : exn_class) : bool :=
  is_ValueError c || is_AzureCliError c || is_WorkflowError c || is_OSError c.

(** What can escape [_run_ci] once the docker pipeline started. *)
Definition ci_pipeline_errors (c : exn_class) : bool :=
  is_Exit_1 c || is_OSError c || is_ValueError c.

(** The statements of [_run_ci] that come before [login_registry], to
    the registry that [resolve_registry] returns. *)
Definition ci_prelude {H : Host} (s : settings.AppSettings)
  : M azure.AcrRegistry :=
  lift (settings.require_ci_fields s) ;;
  azure.ensure_logged_in None None ;;
  azure.set_subscription (settings.subscription s) None None ;;
  workflow.resolve_registry (cli.or_empty (settings.acr_name s))
    (cli.or_empty (settings.acr_resource_group s)).

(** The operations a run of [_run_ci] is expected to enter, in order,
    when [az acr show] described [registry]. *)
Definition ci_calls (s : settings.AppSettings) (registry : azure.AcrRegistry)
  : list gateway_call :=
  (ci_azure_calls s registry ++ expected_calls (ci_plan s registry))%list.

(** Settings with everything CI mode requires. *)
Definition ci_settings : settings.AppSettings :=
  settings.mkAppSettings (Some "acr1") (Some "rg one") None None (Some "app")
    (Some "1.0.0") (Some (pathlib.of_str "Dockerfile"))
    (Some (pathlib.of_str "build")) false None "INFO".

(** A file system with a Dockerfile and a directory [build]. *)
Definition ci_fs (p : Path) : option node_kind :=
  if pathlib.eqb p (pathlib.of_str "Dockerfile") then Some RegularFile
  else if pathlib.eqb p (pathlib.of_str "build") then Some Directory
  else None.

(** [az] answers as in [registry_script] and logs in; [docker] works but
    cannot push. *)
Definition ci_script : list string -> popen_outcome :=
  fun args =>
    match args with
    | tool :: verb :: rest =>
        if String.eqb tool "docker"
        then if String.eqb verb "push"
             then Spawned ["denied"] 1%Z
             else Spawned [] 0%Z
        else if String.eqb verb "account" then Spawned [] 0%Z
        else match rest with
             | sub :: _ =>
                 if String.eqb sub "login" then Spawned [] 0%Z
                 else registry_script args
             | [] => registry_script args
             end
    | _ => Spawned [] 1%Z
    end.

(** [az] answers as in [ci_script], and [docker] works. *)
Definition ci_green_script : list string -> popen_outcome :=
  fun args =>
    match args with
    | "docker"%string :: _ => Spawned [] 0%Z
    | _ => ci_script args
    end.

(* ===================================================================== *)
(** ** tui/app.py: the methods of [AcrPushApp] that reach Azure and the
    file system

    The application object is the heap, with those of its attributes
    that these methods read or write: [log_widget] is the list of the
    texts written to the [RichLog], oldest first, and [loading] is
    [tree_widget.loading]. *)

Module AcrPushApp.

Record Selection : Type := mkSelection {
  acr_name : option string;
  acr_resource_group : option string;
  registry_server : option string;
  repository : option string;
  tag : option string;
  dockerfile_path : option Path;
  build_context : option Path
}.

Record App : Type := mkApp {
  settings : settings.AppSettings;
  selection : Selection;
  log_widget : list string;
  loading : bool;
  account_info : option azure.AccountInfo
}.

(** [self.log_widget.write(text)]. *)
Definition write (text : string) (app : App) : App :=
  mkApp (settings app) (selection app) (log_widget app ++ [text])%list
    (loading app) (account_info app).

(** [self.tree_widget.loading = b]. *)
Definition set_loading (b : bool) (app : App) : App :=
  mkApp (settings app) (selection app) (log_widget app) b (account_info app).

(** [self.account_info = account]. *)
Definition set_account_info (account : azure.AccountInfo) (app : App) : App :=
  mkApp (settings app) (selection app) (log_widget app) (loading app)
    (Some account).

Section WithWorld.
Context {W : Type}.
Variable tools : list string -> W -> popen_outcome * W.
Variable files : W -> Path -> stat_outcome.

Definition host : Host :=
  {| World := W; Heap := App; popen := tools; path_kind := files |}.
#[local] Existing Instance host.

(** Reads [self]. *)
Definition self : M App := fun st => (Ok (heap st), st).

(** An assignment to an attribute of [self]. *)
Definition assign (f : App -> App) : M unit :=
  fun st => (Ok tt, mkState (world st) (f (heap st)) (spawned st) (calls st)).

(** [try: body / finally: final]. *)
Definition try_finally {A} (body : M A) (final : M unit) : M A :=
  fun st =>
    let (r, st1) := body st in
    match final st1 with
    | (Ok _, st2) => (r, st2)
    | (Raise e, st2) => (Raise e, st2)
    end.

Definition _append_log : callback :=
  fun text app => (Ok tt, if Py.truthy text then write text app else app).

Definition _append_command : callback :=
  fun command app => (Ok tt, write ("$ " ++ command)%string app).

Definition _build_plan : M BuildPlan :=
  app <- self ;;
  let dockerfile := cli.or_cwd (dockerfile_path (selection app)) in
  let context := cli.or_cwd (build_context (selection app)) in
  workflow.validate_docker_paths dockerfile context ;;
  app <- self ;;
  ret (mkBuildPlan (cli.or_empty (registry_server (selection app)))
         (cli.or_empty (repository (selection app)))
         (cli.or_empty (tag (selection app)))
         dockerfile context
         (settings.skip_latest (settings app))
         (settings.platform (settings app))).

Definition _with_azure_loading {A} (action : M A) : M A :=
  assign (set_loading true) ;;
  try_finally action (assign (set_loading false)).

Definition _repo_label (repository : string) : M string :=
  attempt <-
    try_except
      (tags <- _with_azure_loading
                 (app <- self ;;
                  azure.list_tags (cli.or_empty (acr_name (selection app)))
                    repository None None) ;;
       ret (inl tags))
      is_AzureCliError
      (fun _ => ret (inr (repository ++ " - unknown")%string)) ;;
  match attempt with
  | inr label => ret label
  | inl tags =>
      latest_semver <- lift (app._max_semver tags) ;;
      let suffix :=
        match latest_semver with
        | Some s => if Py.truthy s then s else "no-tags"
        | None => "no-tags"
        end in
      ret (repository ++ " - " ++ suffix)%string
  end.

Definition _fetch_registries : M (list azure.AcrRegistry) :=
  azure.ensure_logged_in (Some _append_log) (Some _append_command) ;;
  account <- azure.get_current_account (Some _append_log)
               (Some _append_command) ;;
  assign (set_account_info account) ;;
  app <- self ;;
  azure.set_subscription (settings.subscription (settings app))
    (Some _append_log) (Some _append_command) ;;
  azure.list_registries (Some _append_log) (Some _append_command).

Definition _load_repositories (acr_name : string) : M (list string) :=
  azure.login_registry acr_name (Some _append_log) (Some _append_command) ;;
  azure.list_repositories acr_name (Some _append_log) (Some _append_command).

Definition _load_tags (acr_name repository : string) : M (list string) :=
  azure.list_tags acr_name repository (Some _append_log)
    (Some _append_command).

End WithWorld.

End AcrPushApp.

(* ===================================================================== *)
(** ** More vocabulary: the log pane *)

Section LogVocabulary.
Context {W : Type}.
Variable tools : list string -> W -> popen_outcome * W.
Variable files : W -> Path -> stat_outcome.

(** What the log gains from a command: its echo, then the lines it
    printed that are not empty. *)
Definition transcript (args : list string) (outcome : popen_outcome)
  : list string :=
  ("$ " ++ command_line args)%string
  :: match outcome with
     | Spawned lines _ | Undecodable lines _ => filter Py.truthy lines
     | SpawnFailed _ | SpawnRefused _ => []
     end.

(** The transcripts of commands run one after the other from the world
    [w], and the world they leave. *)
Fixpoint replay (w : W) (commands : list (list string)) : list string * W :=
  match commands with
  | [] => ([], w)
  | args :: rest =>
      let (outcome, w1) := tools args w in
      let (log, w2) := replay w1 rest in
      ((transcript args outcome ++ log)%list, w2)
  end.

(** A computation that adds to the log the transcript of each command it
    starts, and nothing else, and leaves the settings and the selection
    as they are. *)
Definition logs_commands {A} (m : @M (AcrPushApp.host tools files) A)
  : Prop :=
  forall st, exists commands,
    spawned (snd (m st)) = (spawned st ++ commands)%list
    /\ world (snd (m st)) = snd (replay (world st) commands)
    /\ AcrPushApp.log_widget (heap (snd (m st)))
       = (AcrPushApp.log_widget (heap st)
          ++ fst (replay (world st) commands))%list
    /\ AcrPushApp.settings (heap (snd (m st)))
       = AcrPushApp.settings (heap st)
    /\ AcrPushApp.selection (heap (snd (m st)))
       = AcrPushApp.selection (heap st).

(** The gateway operations [_fetch_registries] enters when nothing
    fails. *)
Definition fetch_calls (app : AcrPushApp.App) : list gateway_call :=
  [EnsureLoggedIn; GetCurrentAccount;
   SetSubscription (settings.subscription (AcrPushApp.settings app));
   ListRegistries].

End LogVocabulary.

(** The arguments of [az acr repository show-tags]. *)
Definition show_tags_args (acr_name repository : string) : list string :=
  ["az"; "acr"; "repository"; "show-tags"; "--name"; acr_name;
   "--repository"; repository; "-o"; "tsv"].

(** A terminal session on a scripted world, nothing selected, the log
    empty. *)
Definition scripted (script : list string -> popen_outcome)
  : list string -> unit -> popen_outcome * unit :=
  fun args w => (script args, w).

Definition on_disk (kind : Path -> option node_kind)
  : unit -> Path -> stat_outcome :=
  fun _ p => Known (kind p).

Definition fresh_app (s : settings.AppSettings) : AcrPushApp.App :=
  AcrPushApp.mkApp s
    (AcrPushApp.mkSelection None None None None None None None) [] false None.

Definition app_state (script : list string -> popen_outcome)
    (kind : Path -> option node_kind) (app : AcrPushApp.App)
  : @State (AcrPushApp.host (scripted script) (on_disk kind)) :=
  @mkState (AcrPushApp.host (scripted script) (on_disk kind)) tt app [] [].


(* ===================================================================== *)
(** ** More vocabulary: labels and a session to run *)

(** The label of a repository whose tags are [tags]. *)
Definition label_of (repository : string) (tags : list string)
  : Result string :=
  match app._max_semver tags with
  | Ok (Some latest) => Ok (repository ++ " - " ++ latest)%string
  | Ok None => Ok (repository ++ " - no-tags")%string
  | Raise e => Raise e
  end.

(** The application after [_expand_registry] has recorded [registry] in
    the selection. *)
Definition select_registry (registry : azure.AcrRegistry)
    (app : AcrPushApp.App) : AcrPushApp.App :=
  let selection := AcrPushApp.selection app in
  AcrPushApp.mkApp (AcrPushApp.settings app)
    (AcrPushApp.mkSelection (Some (azure.name registry))
       (Some (azure.resource_group registry))
       (Some (azure.login_server registry))
       (AcrPushApp.repository selection) (AcrPushApp.tag selection)
       (AcrPushApp.dockerfile_path selection)
       (AcrPushApp.build_context selection))
    (AcrPushApp.log_widget app) (AcrPushApp.loading app)
    (AcrPushApp.account_info app).

Definition acr_one : azure.AcrRegistry :=
  azure.mkAcrRegistry "acr1" "rg one" "acr1.azurecr.io".

(** [az acr repository show-tags] knows the repository [api] only; every
    other command prints a line, an empty line, and succeeds. *)
Definition tag_script (args : list string) : popen_outcome :=
  match args with
  | _ :: _ :: _ :: verb :: _ :: _ :: _ :: repository :: _ =>
      if String.eqb verb "show-tags"
      then if String.eqb repository "api"
           then Spawned ["1.2.3"; "latest"; "1.10.0"] 0%Z
           else Spawned ["ERROR: repository not found"] 1%Z
      else Spawned ["ok"; ""] 0%Z
  | _ => Spawned ["ok"; ""] 0%Z
  end.


(** [az account show] prints JSON; with a query it prints the tenant, its
    name and the account on one line; the registries are those of
    [registry_script]. *)
Definition session_script : list string -> popen_outcome :=
  fun args =>
    match args with
    | [_; _; _] => Spawned ["{"; ""; "}"] 0%Z
    | _ :: noun :: _ =>
        if String.eqb noun "account"
        then Spawned [("tenant-1" ++ tab ++ "Contoso" ++ tab ++ "dev")%string]
               0%Z
        else registry_script args
    | _ => Spawned [] 1%Z
    end.


(** The example plan with the tag [latest]. *)
Definition latest_plan : BuildPlan :=
  mkBuildPlan "reg.example.com" "myrepo" "latest"
    (pathlib.of_str "Dockerfile") (pathlib.of_str ".") false None.

(* ===================================================================== *)
(** ** More vocabulary: the processes of the gateway operations *)

(** The command lines a gateway operation starts once its command line is
    echoed. *)
Definition commands_of (c : gateway_call) : list (list string) :=
  match c with
  | EnsureAvailable => [["docker"; "info"]]
  | BuildImage t df ctx pf => [build_args t df ctx pf]
  | TagImage source target => [["docker"; "tag"; source; target]]
  | PushImage t => [["docker"; "push"; t]]
  | EnsureLoggedIn => [["az"; "account"; "show"]]
  | GetCurrentAccount =>
      [["az"; "account"; "show"; "--query";
        "{Tenant:tenantId,TenantName:tenantDisplayName,Account:name}";
        "-o"; "tsv"]]
  | LoginTenant t =>
      if Py.truthy t then [["az"; "login"; "--tenant"; t]] else []
  | SetSubscription (Some s) =>
      if Py.truthy s then [["az"; "account"; "set"; "--subscription"; s]]
      else []
  | SetSubscription None => []
  | ListRegistries =>
      [["az"; "acr"; "list"; "--query";
        "[].{Name:name,RG:resourceGroup,LS:loginServer}"; "-o"; "tsv"]]
  | ShowRegistry a rg => [show_args a rg]
  | LoginRegistry a => [["az"; "acr"; "login"; "--name"; a]]
  | ListRepositories a =>
      [["az"; "acr"; "repository"; "list"; "--name"; a; "-o"; "tsv"]]
  | ListTags a r => [show_tags_args a r]
  end.

Section ProcessVocabulary.
Context {H : Host}.

(** A computation that starts the processes [commands], in order, and no
    other, whether it returns or raises. *)
Definition starts {A} (commands : list (list string)) (m : M A) : Prop :=
  forall st, spawned (snd (m st)) = (spawned st ++ commands)%list.

(** A computation that does not raise. *)
Definition returns {A} (m : M A) : Prop :=
  forall st, exists a, fst (m st) = Ok a.

(** A computation that enters the gateway operation [c] and starts its
    processes. *)
Definition performs {A} (c : gateway_call) (m : M A) : Prop :=
  enters c m /\ starts (commands_of c) m.

End ProcessVocabulary.

(* ===================================================================== *)
(** ** Hosts on which a tool cannot be started or a path not examined *)

(** [docker] is not installed; every other tool prints nothing and
    succeeds. *)
Definition no_docker : list string -> popen_outcome :=
  fun args =>
    match args with
    | tool :: _ =>
        if String.eqb tool "docker"
        then SpawnFailed "[Errno 2] No such file or directory: 'docker'"
        else Spawned [] 0%Z
    | [] => Spawned [] 0%Z
    end.

(** [az] is not installed. *)
Definition no_az : list string -> popen_outcome :=
  fun args =>
    match args with
    | tool :: _ =>
        if String.eqb tool "az"
        then SpawnFailed "[Errno 2] No such file or directory: 'az'"
        else Spawned [] 0%Z
    | [] => Spawned [] 0%Z
    end.

(** A host whose tools follow a script and whose file system answers as
    [probe] says, also with an error. *)
Definition probe_host (script : list string -> popen_outcome)
    (probe : Path -> stat_outcome) : Host :=
  {| World := unit;
     Heap := list string;
     popen := fun args w => (script args, w);
     path_kind := fun _ p => probe p |}.

Definition probe_state (script : list string -> popen_outcome)
    (probe : Path -> stat_outcome) : @State (probe_host script probe) :=
  @mkState (probe_host script probe) tt [] [] [].

(** What [str(exc)] is for the [UnicodeDecodeError] of a first byte
    [0xff]. *)
Definition undecodable_message : string :=
  "'utf-8' codec can't decode byte 0xff in position 0: invalid start byte".

(** [docker push] prints a line and then bytes that are not UTF-8; the
    other tools print nothing and succeed. *)
Definition garbled_push : list string -> popen_outcome :=
  fun args =>
    match args with
    | _ :: "push"%string :: _ => Undecodable ["The push refers to"] undecodable_message
    | _ => Spawned [] 0%Z
    end.

(** A name of 256 characters, one more than a file name may have. *)
Definition long_name : string := repeated "a" 256.

(** The file system of [small_fs], on which a name too long cannot be
    examined. *)
Definition long_name_fs (p : Path) : stat_outcome :=
  if pathlib.eqb p (pathlib.of_str long_name)
  then StatFailed ("[Errno 36] File name too long: '" ++ long_name ++ "'")
  else Known (small_fs p).

(** The same file system under a terminal session. *)
Definition long_name_files : unit -> Path -> stat_outcome :=
  fun _ p => long_name_fs p.

Definition long_name_state (script : list string -> popen_outcome)
    (app : AcrPushApp.App)
  : @State (AcrPushApp.host (scripted script) long_name_files) :=
  @mkState (AcrPushApp.host (scripted script) long_name_files) tt app [] [].

(** The application after a Dockerfile was selected. *)
Definition select_dockerfile (dockerfile : Path) (app : AcrPushApp.App)
  : AcrPushApp.App :=
  let selection := AcrPushApp.selection app in
  AcrPushApp.mkApp (AcrPushApp.settings app)
    (AcrPushApp.mkSelection (AcrPushApp.acr_name selection)
       (AcrPushApp.acr_resource_group selection)
       (AcrPushApp.registry_server selection)
       (AcrPushApp.repository selection) (AcrPushApp.tag selection)
       (Some dockerfile) (AcrPushApp.build_context selection))
    (AcrPushApp.log_widget app) (AcrPushApp.loading app)
    (AcrPushApp.account_info app).

(* ===================================================================== *)
(** * Properties *)

#[local] Open Scope string_scope.
Unset Implicit Arguments.

(** ** Decimal strings *)

Lemma string_of_uint_decimal (d : uint) :
  Py.all_chars Py.is_decimal_char (NilEmpty.string_of_uint d) = true.
Proof.
  induction d; simpl; auto.
Qed.

Lemma to_uint_not_nil (n : N) : N.to_uint n <> Nil.
Proof.
  intros E.
  assert (Hn : n = 0%N).
  { rewrite <- (DecimalN.Unsigned.of_to n), E. reflexivity. }
  subst n. discriminate E.
Qed.

Lemma digits_of_truthy (n : N) : Py.truthy (Py.digits_of n) = true.
Proof.
  unfold Py.digits_of.
  pose proof (to_uint_not_nil n) as Hn.
  destruct (N.to_uint n); simpl; try reflexivity.
  now contradiction Hn.
Qed.

Lemma digits_of_decimal (n : N) :
  Py.all_chars Py.is_decimal_char (Py.digits_of n) = true.
Proof.
  apply string_of_uint_decimal.
Qed.

(** ** The limit on the digits of a conversion *)

Lemma leading_digits_decimal (s : string) :
  Py.all_chars Py.is_decimal_char s = true ->
  Py.leading_digits s = N.of_nat (String.length s).
Proof.
  induction s as [|a s IH]; [reflexivity|].
  cbn [Py.all_chars Py.leading_digits String.length]. intros Hs.
  apply andb_true_iff in Hs. destruct Hs as [Ha Hs].
  rewrite Ha, (IH Hs), Nat2N.inj_succ. reflexivity.
Qed.

Lemma leading_digits_of (n : N) :
  Py.leading_digits (Py.digits_of n) = Py.digit_count n.
Proof. apply leading_digits_decimal, digits_of_decimal. Qed.

(** [int(str(n)) == n], for a number that is converted. *)
Lemma int_digits_of (n : N) :
  within_limit n -> Py.int (Py.digits_of n) = Ok n.
Proof.
  unfold within_limit. intros Hn. unfold Py.int.
  pose proof (digits_of_truthy n) as Ht.
  destruct (Py.digits_of n) eqn:E; [discriminate Ht|].
  rewrite <- E, leading_digits_of.
  destruct (N.ltb_spec Py.max_str_digits (Py.digit_count n)) as [Hlt|_];
    [lia|].
  unfold Py.digits_of.
  rewrite NilEmpty.usu, DecimalN.Unsigned.of_to. reflexivity.
Qed.

Lemma str_of_int_within (n : N) :
  within_limit n -> Py.str_of_int n = Ok (Py.digits_of n).
Proof.
  unfold within_limit. intros Hn. unfold Py.str_of_int.
  destruct (N.ltb_spec Py.max_str_digits (Py.digit_count n)) as [Hlt|_];
    [lia|reflexivity].
Qed.

Lemma str_of_int_over (n : N) :
  (Py.max_str_digits < Py.digit_count n)%N ->
  exists message, Py.str_of_int n = Raise (Exn ValueError message).
Proof.
  intros Hn. unfold Py.str_of_int.
  destruct (N.ltb_spec Py.max_str_digits (Py.digit_count n)) as [_|Hle];
    [|lia].
  eexists. reflexivity.
Qed.

Lemma str_of_int_ok (n : N) (s : string) :
  Py.str_of_int n = Ok s -> s = Py.digits_of n /\ within_limit n.
Proof.
  unfold within_limit, Py.str_of_int.
  destruct (N.ltb_spec Py.max_str_digits (Py.digit_count n)) as [_|Hle];
    [discriminate|].
  intros [= <-]. now split.
Qed.

Lemma str_of_int_raises (n : N) (e : exn) :
  Py.str_of_int n = Raise e -> exn_cls e = ValueError.
Proof.
  unfold Py.str_of_int.
  destruct (Py.max_str_digits <? Py.digit_count n)%N; [|discriminate].
  now intros [= <-].
Qed.

Lemma length_string_of_uint (d : uint) :
  String.length (NilEmpty.string_of_uint d) = nb_digits d.
Proof. induction d; simpl; now rewrite ?IHd. Qed.

(** What [int] returns is a number that [str] converts. *)
Lemma int_within (s : string) (n : N) : Py.int s = Ok n -> within_limit n.
Proof.
  unfold within_limit, Py.int. destruct s as [|a s]; [discriminate|].
  destruct (N.ltb_spec Py.max_str_digits (Py.leading_digits (String a s)))
    as [_|Hle]; [discriminate|].
  destruct (NilEmpty.uint_of_string (String a s)) as [d|] eqn:Eu;
    [|discriminate].
  intros [= <-]. apply NilEmpty.sus in Eu.
  assert (Hd : d <> Nil) by (intros ->; discriminate Eu).
  rewrite <- Eu, leading_digits_decimal in Hle
    by apply string_of_uint_decimal.
  unfold Py.digit_count, Py.digits_of.
  rewrite DecimalN.Unsigned.to_of, length_string_of_uint.
  rewrite length_string_of_uint in Hle.
  pose proof (DecimalFacts.nb_digits_unorm d Hd). lia.
Qed.

Lemma int_raises (s : string) (e : exn) :
  Py.int s = Raise e -> exn_cls e = ValueError.
Proof.
  unfold Py.int. destruct s as [|a s]; [now intros [= <-]|].
  destruct (Py.max_str_digits <? _)%N; [now intros [= <-]|].
  destruct (NilEmpty.uint_of_string _); [discriminate|now intros [= <-]].
Qed.

(** ** [split] on strings without the separator *)

Lemma split_not_nil (c : ascii) (s : string) : Py.split c s <> [].
Proof.
  destruct s as [|a s]; simpl; [discriminate|].
  destruct (Ascii.eqb a c); [discriminate|].
  destruct (Py.split c s); discriminate.
Qed.

Lemma split_app_sep (c : ascii) (s t : string) :
  Py.all_chars (fun a => negb (Ascii.eqb a c)) s = true ->
  Py.split c (s ++ String c t) = s :: Py.split c t.
Proof.
  induction s as [|a s IH]; simpl; intros Hs.
  - rewrite Ascii.eqb_refl. reflexivity.
  - apply andb_true_iff in Hs. destruct Hs as [Ha Hs].
    apply negb_true_iff in Ha. rewrite Ha, (IH Hs). reflexivity.
Qed.

Lemma split_no_sep (c : ascii) (s : string) :
  Py.all_chars (fun a => negb (Ascii.eqb a c)) s = true ->
  Py.split c s = [s].
Proof.
  induction s as [|a s IH]; simpl; intros Hs; [reflexivity|].
  apply andb_true_iff in Hs. destruct Hs as [Ha Hs].
  apply negb_true_iff in Ha. rewrite Ha, (IH Hs). reflexivity.
Qed.

Lemma all_chars_weaken (p q : ascii -> bool) (s : string) :
  (forall a, p a = true -> q a = true) ->
  Py.all_chars p s = true -> Py.all_chars q s = true.
Proof.
  intros Hpq. induction s as [|a s IH]; simpl; [reflexivity|].
  intros Hs. apply andb_true_iff in Hs. destruct Hs as [Ha Hs].
  rewrite (Hpq _ Ha), (IH Hs). reflexivity.
Qed.

Lemma decimal_char_not_dot (a : ascii) :
  Py.is_decimal_char a = true -> negb (Ascii.eqb a ".") = true.
Proof.
  destruct (Ascii.eqb_spec a "."%char) as [->|]; [discriminate|reflexivity].
Qed.

Lemma digits_of_no_dot (n : N) :
  Py.all_chars (fun a => negb (Ascii.eqb a ".")) (Py.digits_of n) = true.
Proof.
  apply all_chars_weaken with (p := Py.is_decimal_char).
  - apply decimal_char_not_dot.
  - apply digits_of_decimal.
Qed.

Lemma split_dotted (a b c : N) :
  Py.split "." (app.dotted (a, b, c))
  = [Py.digits_of a; Py.digits_of b; Py.digits_of c].
Proof.
  unfold app.dotted.
  change (Py.digits_of a ++ "." ++ Py.digits_of b ++ "." ++ Py.digits_of c)
    with (Py.digits_of a
            ++ String "." (Py.digits_of b ++ String "." (Py.digits_of c))).
  rewrite split_app_sep by apply digits_of_no_dot.
  rewrite split_app_sep by apply digits_of_no_dot.
  rewrite split_no_sep by apply digits_of_no_dot.
  reflexivity.
Qed.

Lemma dotted_truthy (v : app.version) :
  Py.truthy (app.dotted v) = true.
Proof.
  destruct v as [[a b] c]. unfold app.dotted.
  pose proof (digits_of_truthy a) as Ht.
  destruct (Py.digits_of a); [discriminate Ht|reflexivity].
Qed.

Lemma digits_of_inj (n n' : N) : Py.digits_of n = Py.digits_of n' -> n = n'.
Proof.
  unfold Py.digits_of. intros E. apply DecimalN.Unsigned.to_uint_inj.
  apply (f_equal NilEmpty.uint_of_string) in E.
  rewrite !NilEmpty.usu in E. now injection E.
Qed.

Lemma dotted_inj (v w : app.version) : app.dotted v = app.dotted w -> v = w.
Proof.
  destruct v as [[a b] c], w as [[a' b'] c']. intros E.
  apply (f_equal (Py.split ".")) in E. rewrite !split_dotted in E.
  injection E as Ea Eb Ec.
  now rewrite (digits_of_inj _ _ Ea), (digits_of_inj _ _ Eb),
    (digits_of_inj _ _ Ec).
Qed.

Lemma within_limit_0 : within_limit 0.
Proof. unfold within_limit. vm_compute. discriminate. Qed.

(** An f-string of a version returns its dotted text exactly when the
    three numbers are converted, and raises [ValueError] otherwise. *)
Lemma format_version_within (a b c : N) :
  within_limit a -> within_limit b -> within_limit c ->
  app.format_version (a, b, c) = Ok (app.dotted (a, b, c)).
Proof.
  intros Ha Hb Hc. unfold app.format_version.
  rewrite (str_of_int_within a Ha), (str_of_int_within b Hb),
    (str_of_int_within c Hc).
  reflexivity.
Qed.

Lemma format_version_ok (a b c : N) (s : string) :
  app.format_version (a, b, c) = Ok s ->
  s = app.dotted (a, b, c)
  /\ within_limit a /\ within_limit b /\ within_limit c.
Proof.
  unfold app.format_version.
  destruct (Py.str_of_int a) as [sa|e] eqn:Ea; [|discriminate].
  destruct (Py.str_of_int b) as [sb|e] eqn:Eb; [|discriminate].
  destruct (Py.str_of_int c) as [sc|e] eqn:Ec; [|discriminate].
  cbn [rbind]. intros [= <-].
  destruct (str_of_int_ok a sa Ea) as [-> Ha].
  destruct (str_of_int_ok b sb Eb) as [-> Hb].
  destruct (str_of_int_ok c sc Ec) as [-> Hc].
  repeat split; assumption.
Qed.

Lemma format_version_raises (v : app.version) (e : exn) :
  app.format_version v = Raise e -> exn_cls e = ValueError.
Proof.
  destruct v as [[a b] c]. unfold app.format_version.
  destruct (Py.str_of_int a) as [sa|ea] eqn:Ea;
    [|intros [= <-]; exact (str_of_int_raises a ea Ea)].
  destruct (Py.str_of_int b) as [sb|eb] eqn:Eb;
    [|intros [= <-]; exact (str_of_int_raises b eb Eb)].
  destruct (Py.str_of_int c) as [sc|ec] eqn:Ec;
    [discriminate|intros [= <-]; exact (str_of_int_raises c ec Ec)].
Qed.

Lemma format_version_over (a b c : N) :
  ~ (within_limit a /\ within_limit b /\ within_limit c) ->
  exists message, app.format_version (a, b, c) = Raise (Exn ValueError message).
Proof.
  intros Hnot. destruct (app.format_version (a, b, c)) as [s|[cls message]] eqn:E.
  - destruct (format_version_ok a b c s E) as (_ & Ha & Hb & Hc).
    elim Hnot. repeat split; assumption.
  - pose proof (format_version_raises _ _ E) as Hc. simpl in Hc. subst cls.
    now exists message.
Qed.

(** What [_max_semver] returns is the dotted text of a version whose
    numbers are converted. *)
Lemma max_semver_returns_version (tags : list string) (s : string) :
  app._max_semver tags = Ok (Some s) ->
  exists a b c,
    s = app.dotted (a, b, c)
    /\ app.max_semver_loop None tags = Ok (Some (a, b, c))
    /\ within_limit a /\ within_limit b /\ within_limit c.
Proof.
  unfold app._max_semver.
  destruct (app.max_semver_loop None tags) as [[[[a b] c]|]|e];
    cbn [rbind]; try discriminate.
  destruct (app.format_version (a, b, c)) as [t|e] eqn:E; cbn [rbind];
    [|discriminate].
  intros [= <-]. destruct (format_version_ok a b c t E) as (-> & Hw).
  now exists a, b, c.
Qed.

(** The three f-strings of [_suggest_versions], on the text of a
    version. *)
Lemma suggest_versions_dotted (a b c : N) :
  within_limit a -> within_limit b -> within_limit c ->
  app._suggest_versions (app.dotted (a, b, c))
  = rbind (app.format_version (a, b, c + 1)%N) (fun bump_patch =>
    rbind (app.format_version (a, b + 1, 0)%N) (fun bump_minor =>
    rbind (app.format_version (a + 1, 0, 0)%N) (fun bump_major =>
      Ok [bump_patch; bump_minor; bump_major]))).
Proof.
  intros Ha Hb Hc. unfold app._suggest_versions.
  rewrite split_dotted. cbn [firstn rmap].
  rewrite (int_digits_of a Ha), (int_digits_of b Hb), (int_digits_of c Hc).
  reflexivity.
Qed.

Lemma suggest_versions_format (a b c : N) :
  within_limit a -> within_limit b -> within_limit c ->
  within_limit (a + 1) -> within_limit (b + 1) -> within_limit (c + 1) ->
  app._suggest_versions (app.dotted (a, b, c))
  = Ok [app.dotted (a, b, c + 1)%N;
        app.dotted (a, b + 1, 0)%N;
        app.dotted (a + 1, 0, 0)%N].
Proof.
  intros Ha Hb Hc Ha' Hb' Hc'.
  rewrite (suggest_versions_dotted a b c Ha Hb Hc).
  rewrite (format_version_within _ _ _ Ha Hb Hc'),
    (format_version_within _ _ _ Ha Hb' within_limit_0),
    (format_version_within _ _ _ Ha' within_limit_0 within_limit_0).
  reflexivity.
Qed.

(** C3, as stated, fails: the list of one tag whose patch is 4300 nines
    has a greatest version, of which the patch cannot be bumped, since
    [str] does not convert a number of 4301 digits; [_build_tag_options]
    raises [ValueError] where four options are expected. *)
Lemma build_tag_options_raises_at_the_limit :
  app._max_semver [largest_patch_tag] = Ok (Some largest_patch_tag)
  /\ app._build_tag_options [largest_patch_tag]
     = Raise (Exn ValueError
                ("Exceeds the limit (4300 digits) for integer string "
                   ++ "conversion; use sys.set_int_max_str_digits() to "
                   ++ "increase the limit")).
Proof. split; vm_compute; reflexivity. Qed.

(** C3, amended.  Whenever [_max_semver] returns the version [M.m.p] for a
    list of tags and [M + 1], [m + 1] and [p + 1] have at most 4300 digits,
    [_build_tag_options] returns the patch bump, the minor bump with the
    patch reset to 0, the major bump with minor and patch reset to 0, and
    ["Custom tag"], in that order; when one of the three has more digits,
    it raises [ValueError].  Whenever [_max_semver] returns [None], the
    options are the seed ["0.0.1"], ["0.1.0"], ["1.0.0"] and
    ["Custom tag"].  A value [_max_semver] returns is always of one of
    these two forms. *)
Theorem build_tag_options_spec (tags : list string) :
  (forall M m p : N,
      app._max_semver tags = Ok (Some (app.dotted (M, m, p))) ->
      within_limit (M + 1) -> within_limit (m + 1) -> within_limit (p + 1) ->
      app._build_tag_options tags
      = Ok [Py.digits_of M ++ "." ++ Py.digits_of m ++ "."
              ++ Py.digits_of (p + 1);
            Py.digits_of M ++ "." ++ Py.digits_of (m + 1) ++ ".0";
            Py.digits_of (M + 1) ++ ".0.0";
            "Custom tag"])
  /\ (forall M m p : N,
      app._max_semver tags = Ok (Some (app.dotted (M, m, p))) ->
      ~ (within_limit (M + 1) /\ within_limit (m + 1)
         /\ within_limit (p + 1)) ->
      exists message,
        app._build_tag_options tags = Raise (Exn ValueError message))
  /\ (app._max_semver tags = Ok None ->
      app._build_tag_options tags
      = Ok ["0.0.1"; "0.1.0"; "1.0.0"; "Custom tag"])
  /\ (forall r, app._max_semver tags = Ok r ->
      r = None \/ exists M m p, r = Some (app.dotted (M, m, p))).
Proof.
  assert (Hsuggest : forall M m p,
             app._max_semver tags = Ok (Some (app.dotted (M, m, p))) ->
             app._build_tag_options tags
             = rbind (app._suggest_versions (app.dotted (M, m, p)))
                 (fun options => Ok (options ++ ["Custom tag"])%list)
             /\ within_limit M /\ within_limit m /\ within_limit p).
  { intros M m p E. split.
    - unfold app._build_tag_options. rewrite E. cbn [rbind].
      now rewrite dotted_truthy.
    - destruct (max_semver_returns_version _ _ E)
        as (a & b & c & Ed & _ & Ha & Hb & Hc).
      apply dotted_inj in Ed. injection Ed as -> -> ->. now repeat split. }
  split; [|split; [|split]].
  - intros M m p E HM Hm Hp.
    destruct (Hsuggest M m p E) as (-> & HM0 & Hm0 & Hp0).
    rewrite (suggest_versions_format M m p HM0 Hm0 Hp0 HM Hm Hp).
    reflexivity.
  - intros M m p E Hnot.
    destruct (Hsuggest M m p E) as (-> & HM0 & Hm0 & Hp0).
    rewrite (suggest_versions_dotted M m p HM0 Hm0 Hp0).
    destruct (app.format_version (M, m, p + 1)%N) as [s1|[c1 m1]] eqn:E1;
      [|pose proof (format_version_raises _ _ E1) as Hc; simpl in Hc;
        subst c1; now exists m1].
    destruct (app.format_version (M, m + 1, 0)%N) as [s2|[c2 m2]] eqn:E2;
      [|pose proof (format_version_raises _ _ E2) as Hc; simpl in Hc;
        subst c2; now exists m2].
    destruct (app.format_version (M + 1, 0, 0)%N) as [s3|[c3 m3]] eqn:E3;
      [|pose proof (format_version_raises _ _ E3) as Hc; simpl in Hc;
        subst c3; now exists m3].
    destruct (format_version_ok _ _ _ _ E1) as (_ & _ & _ & Hp).
    destruct (format_version_ok _ _ _ _ E2) as (_ & _ & Hm & _).
    destruct (format_version_ok _ _ _ _ E3) as (_ & HM & _ & _).
    elim Hnot. now repeat split.
  - intros E. unfold app._build_tag_options. rewrite E. reflexivity.
  - intros r E. destruct r as [s|]; [right|now left].
    destruct (max_semver_returns_version _ _ E) as (a & b & c & -> & _).
    now exists a, b, c.
Qed.

(** The spec's example list, and a list without any version. *)
Lemma build_tag_options_spec_witness :
  app._build_tag_options ["1.2.3"; "1.2.10"; "bogus"; "1.2.3.4"]
  = Ok ["1.2.11"; "1.3.0"; "2.0.0"; "Custom tag"]
  /\ app._build_tag_options ["bogus"; "latest"; "v1.0.0"; "1.0"]
     = Ok ["0.0.1"; "0.1.0"; "1.0.0"; "Custom tag"].
Proof.
  split.
  - apply (proj1 (build_tag_options_spec
                    ["1.2.3"; "1.2.10"; "bogus"; "1.2.3.4"]) 1 2 10)%N;
      [reflexivity|unfold within_limit; vm_compute; discriminate..].
  - apply (proj1 (proj2 (proj2 (build_tag_options_spec
                           ["bogus"; "latest"; "v1.0.0"; "1.0"])))).
    reflexivity.
Defined.

(** ** [_max_semver] on tags without superscript digits *)

Lemma decimal_char_is_digit (a : ascii) :
  Py.is_decimal_char a = true -> Py.is_digit_char a = true.
Proof. unfold Py.is_digit_char. intros ->. reflexivity. Qed.

Lemma plain_component_isdigit (s : string) :
  plain_component s = true -> Py.isdigit s = true.
Proof.
  unfold plain_component, Py.isdigit. intros Hp.
  apply andb_true_iff in Hp. destruct Hp as [-> Hd]. simpl.
  exact (all_chars_weaken _ _ s decimal_char_is_digit Hd).
Qed.

Lemma uint_of_string_decimal (s : string) :
  Py.all_chars Py.is_decimal_char s = true ->
  exists d, NilEmpty.uint_of_string s = Some d.
Proof.
  induction s as [|a s IH]; simpl; intros Hs; [now exists Nil|].
  apply andb_true_iff in Hs. destruct Hs as [Ha Hs].
  destruct (IH Hs) as [d ->].
  destruct a as [[|] [|] [|] [|] [|] [|] [|] [|]];
    try discriminate Ha; simpl; eauto.
Qed.

Lemma int_plain_component (s : string) :
  plain_component s = true -> converts s = true ->
  Py.int s = Ok (decimal_value s).
Proof.
  unfold plain_component, converts, Py.int, decimal_value. intros Hp Hc.
  apply andb_true_iff in Hp. destruct Hp as [Ht Hd].
  destruct (uint_of_string_decimal s Hd) as [d Hd'].
  apply N.leb_le in Hc. rewrite <- (leading_digits_decimal s Hd) in Hc.
  destruct s; [discriminate Ht|]. rewrite Hd'.
  destruct (N.ltb_spec Py.max_str_digits (Py.leading_digits (String a s)))
    as [Hlt|_]; [lia|reflexivity].
Qed.

Lemma max_semver_step_plain (m : option app.version) (tag : string) :
  digit_but_not_decimal tag = false -> short_components tag = true ->
  app.max_semver_step m tag = Ok (greater_of m (parse_semver tag)).
Proof.
  unfold digit_but_not_decimal, short_components, app.max_semver_step,
    parse_semver.
  destruct (Py.split "." tag) as [|a [|b [|c [|d rest]]]]; try reflexivity.
  cbn [forallb]. rewrite !andb_true_r. intros Hd Hs.
  apply andb_true_iff in Hs. destruct Hs as [Hsa Hs].
  apply andb_true_iff in Hs. destruct Hs as [Hsb Hsc].
  revert Hd.
  destruct (plain_component a) eqn:Ha;
    destruct (plain_component b) eqn:Hb;
    destruct (plain_component c) eqn:Hc; simpl andb;
    try (rewrite ?andb_true_r, <- ?andb_assoc; intros ->; reflexivity).
  intros _.
  rewrite (plain_component_isdigit a Ha), (plain_component_isdigit b Hb),
    (plain_component_isdigit c Hc). cbn [andb negb].
  rewrite (int_plain_component a Ha Hsa), (int_plain_component b Hb Hsb),
    (int_plain_component c Hc Hsc). cbn [rbind].
  destruct m as [[[a' b'] c']|]; [|reflexivity].
  cbn [greater_of].
  match goal with
  | |- (if ?t then _ else _) = _ => destruct t
  end; reflexivity.
Qed.

Lemma parse_semver_within (tag : string) (a b c : N) :
  short_components tag = true -> parse_semver tag = Some (a, b, c) ->
  within_limit a /\ within_limit b /\ within_limit c.
Proof.
  unfold short_components, parse_semver.
  destruct (Py.split "." tag) as [|x [|y [|z [|d rest]]]]; try discriminate.
  cbn [forallb]. rewrite andb_true_r. intros Hs.
  apply andb_true_iff in Hs. destruct Hs as [Hsx Hs].
  apply andb_true_iff in Hs. destruct Hs as [Hsy Hsz].
  destruct (plain_component x) eqn:Hx; [|discriminate].
  destruct (plain_component y) eqn:Hy; [|discriminate].
  destruct (plain_component z) eqn:Hz; [|discriminate].
  cbn [andb]. intros [= <- <- <-].
  repeat split;
    [exact (int_within _ _ (int_plain_component x Hx Hsx))
    |exact (int_within _ _ (int_plain_component y Hy Hsy))
    |exact (int_within _ _ (int_plain_component z Hz Hsz))].
Qed.

Lemma max_semver_loop_plain (m : option app.version) (tags : list string) :
  (forall tag, In tag tags ->
               digit_but_not_decimal tag = false
               /\ short_components tag = true) ->
  app.max_semver_loop m tags
  = Ok (fold_left greater_of (map parse_semver tags) m).
Proof.
  revert m. induction tags as [|tag tags IH]; simpl; intros m Hall.
  - reflexivity.
  - destruct (Hall tag (or_introl eq_refl)) as [Hd Hs].
    rewrite (max_semver_step_plain m tag Hd Hs). simpl.
    apply IH. intros t Ht. apply Hall. now right.
Qed.

Lemma version_gt_false (v w : app.version) :
  app.version_gt v w = false <-> version_le v w.
Proof.
  destruct v as [[a b] c], w as [[a' b'] c']. unfold app.version_gt, version_le.
  rewrite orb_false_iff, andb_false_iff, orb_false_iff, andb_false_iff,
    !N.ltb_ge, !N.eqb_neq.
  lia.
Qed.

Lemma version_gt_true (v w : app.version) :
  app.version_gt v w = true -> version_le w v.
Proof.
  destruct v as [[a b] c], w as [[a' b'] c']. unfold app.version_gt, version_le.
  rewrite orb_true_iff, andb_true_iff, orb_true_iff, andb_true_iff,
    !N.ltb_lt, !N.eqb_eq.
  lia.
Qed.

Lemma version_le_refl (v : app.version) : version_le v v.
Proof. destruct v as [[a b] c]. unfold version_le. lia. Qed.

Lemma version_le_trans (u v w : app.version) :
  version_le u v -> version_le v w -> version_le u w.
Proof.
  destruct u as [[a b] c], v as [[a' b'] c'], w as [[a'' b''] c''].
  unfold version_le. lia.
Qed.

(** What the fold keeps is one of the versions seen, and none seen is
    above it. *)
Lemma fold_greater_of (vs : list (option app.version))
    (m : option app.version) :
  match fold_left greater_of vs m with
  | None => m = None /\ forall v, In v vs -> v = None
  | Some r =>
      (m = Some r \/ In (Some r) vs)
      /\ (forall w, m = Some w -> version_le w r)
      /\ (forall w, In (Some w) vs -> version_le w r)
  end.
Proof.
  revert m. induction vs as [|v vs IH]; simpl; intros m.
  - destruct m as [r|].
    + split; [now left|]. split; [|intros w []].
      intros w [= ->]. apply version_le_refl.
    + split; [reflexivity|intros v []].
  - specialize (IH (greater_of m v)).
    destruct (fold_left greater_of vs (greater_of m v)) as [r|].
    + destruct IH as (Hin & Hm & Hvs).
      assert (Hstep : (forall w, m = Some w -> version_le w r)
                      /\ (forall w, v = Some w -> version_le w r)
                      /\ (greater_of m v = Some r -> m = Some r \/ v = Some r)).
      { destruct v as [x|], m as [w|]; simpl in *.
        - destruct (app.version_gt x w) eqn:E.
          + split; [|split].
            * intros w' [= <-]. apply version_le_trans with x.
              -- now apply version_gt_true.
              -- now apply Hm.
            * intros w' [= <-]. now apply Hm.
            * intros [= ->]. now right.
          + split; [|split].
            * intros w' [= <-]. now apply Hm.
            * intros w' [= <-]. apply version_le_trans with w.
              -- now apply version_gt_false.
              -- now apply Hm.
            * intros [= ->]. now left.
        - split; [discriminate|]. split.
          + intros w' [= <-]. now apply Hm.
          + intros [= ->]. now right.
        - split; [exact Hm|]. split; [discriminate|]. intros E. now left.
        - split; [discriminate|]. split; discriminate. }
      destruct Hstep as (Hm' & Hv' & Hpick).
      split; [|split].
      * destruct Hin as [E|Hin]; [|right; now right].
        destruct (Hpick E) as [->| ->]; [now left|right; now left].
      * exact Hm'.
      * intros w [E|Hw]; [now apply Hv'|now apply Hvs].
    + destruct IH as (Hnone & Hvs).
      destruct v as [x|], m as [w|]; simpl in Hnone;
        try destruct (app.version_gt x w); try discriminate Hnone.
      split; [reflexivity|]. intros v [<-|Hv]; [reflexivity|now apply Hvs].
Qed.

(** On a list of tags none of which hides a digit that is not decimal or
    has a component of more than 4300 characters, [_max_semver] does not
    raise: it returns [None] when no tag has the shape of three
    dot-separated integers, and otherwise the text of a version parsed
    from the list that no parsed version exceeds. *)
Theorem max_semver_plain_tags (tags : list string) :
  (forall tag, In tag tags ->
               digit_but_not_decimal tag = false
               /\ short_components tag = true) ->
  app._max_semver tags
  = Ok (option_map app.dotted (greatest (map parse_semver tags)))
  /\ match greatest (map parse_semver tags) with
     | None => forall tag, In tag tags -> parse_semver tag = None
     | Some r =>
         (exists tag, In tag tags /\ parse_semver tag = Some r)
         /\ (forall tag w, In tag tags -> parse_semver tag = Some w ->
                          version_le w r)
     end.
Proof.
  intros Hall.
  assert (Hshape :
    match greatest (map parse_semver tags) with
    | None => forall tag, In tag tags -> parse_semver tag = None
    | Some r =>
        (exists tag, In tag tags /\ parse_semver tag = Some r)
        /\ (forall tag w, In tag tags -> parse_semver tag = Some w ->
                         version_le w r)
    end).
  { unfold greatest.
    pose proof (fold_greater_of (map parse_semver tags) None) as Hf.
    destruct (fold_left greater_of (map parse_semver tags) None) as [r|].
    + destruct Hf as ([E|Hin] & _ & Hmax); [discriminate E|]. split.
      * apply in_map_iff in Hin. destruct Hin as (tag & E & Htag).
        now exists tag.
      * intros tag w Htag E. apply Hmax. rewrite <- E. now apply in_map.
    + destruct Hf as (_ & Hnone). intros tag Htag.
      apply Hnone. now apply in_map. }
  split; [|exact Hshape].
  unfold app._max_semver. rewrite (max_semver_loop_plain None tags Hall).
  fold (greatest (map parse_semver tags)). cbn [rbind].
  destruct (greatest (map parse_semver tags)) as [[[a b] c]|];
    [|reflexivity].
  destruct Hshape as ((tag & Htag & Hparse) & _).
  destruct (parse_semver_within tag a b c (proj2 (Hall tag Htag)) Hparse)
    as (Ha & Hb & Hc).
  now rewrite (format_version_within a b c Ha Hb Hc).
Qed.

(** ** [_max_semver] on the spec's example and on a superscript digit *)

Example max_semver_example :
  app._max_semver ["1.2.3"; "1.2.10"; "bogus"; "1.2.3.4"] = Ok (Some "1.2.10").
Proof. reflexivity. Qed.

Example isdigit_superscript_two : Py.isdigit superscript_two = true.
Proof. reflexivity. Qed.

(** C4.  The tag ["1.2.²"] (U+00B2 as last component) has three
    dot-separated components that all pass [isdigit], so it is not
    skipped; [int] then rejects the superscript and [_max_semver] raises
    [ValueError], also when the list holds well-formed versions, and
    [_build_tag_options] raises with it. *)
Theorem max_semver_raises_on_superscript_digit :
  app._max_semver [odd_tag]
  = Raise (Exn ValueError
             ("invalid literal for int() with base 10: '" ++ superscript_two
                ++ "'"))
  /\ app._max_semver ["1.2.3"; odd_tag; "1.2.10"]
     = Raise (Exn ValueError
                ("invalid literal for int() with base 10: '" ++ superscript_two
                   ++ "'"))
  /\ app._build_tag_options [odd_tag]
     = Raise (Exn ValueError
                ("invalid literal for int() with base 10: '" ++ superscript_two
                   ++ "'")).
Proof. repeat split; reflexivity. Qed.

(** ** [BuildPlan] *)

(** C7.  The versioned reference of a plan is [r/n:t] and its latest
    reference [r/n:latest], for the registry server [r], the repository
    [n] and the tag [t]; so for ["reg.example.com"], ["myrepo"] and
    ["1.0.0"]. *)
Theorem build_plan_refs :
  (forall r n t dockerfile context skip platform,
      let plan := mkBuildPlan r n t dockerfile context skip platform in
      versioned_ref plan = String.concat "" [r; "/"; n; ":"; t]
      /\ latest_ref plan = String.concat "" [r; "/"; n; ":"; "latest"])
  /\ (forall dockerfile context skip platform,
      let plan :=
        mkBuildPlan "reg.example.com" "myrepo" "1.0.0" dockerfile context
          skip platform in
      versioned_ref plan = "reg.example.com/myrepo:1.0.0"
      /\ latest_ref plan = "reg.example.com/myrepo:latest").
Proof.
  split.
  - intros r n t dockerfile context skip platform plan.
    unfold versioned_ref, latest_ref, plan. simpl. split; reflexivity.
  - intros; split; reflexivity.
Qed.

(** ** settings.py *)

Lemma path_eqb_eq (p q : Path) : pathlib.eqb p q = true <-> p = q.
Proof.
  destruct p as [r ps], q as [r' qs]. unfold pathlib.eqb. simpl.
  destruct (list_eq_dec string_dec ps qs) as [->|Hne].
  - rewrite andb_true_r, String.eqb_eq. split; [now intros ->|].
    now intros [= ->].
  - rewrite andb_false_r. split; [discriminate|]. intros [= _ E]. now elim Hne.
Qed.

Lemma value_eqb_eq (x y : settings.value) :
  settings.value_eqb x y = true <-> x = y.
Proof.
  destruct x, y; simpl; try (split; [discriminate|intros [=]]);
    try (split; reflexivity).
  - rewrite String.eqb_eq. split; [now intros ->|now intros [= ->]].
  - rewrite path_eqb_eq. split; [now intros ->|now intros [= ->]].
Qed.

Lemma is_missing_iff (s : settings.AppSettings) (name : string) :
  settings.is_missing s name = true
  <-> settings.getattr s name = settings.VNone
      \/ settings.getattr s name = settings.VStr ""
      \/ settings.getattr s name = settings.VPath pathlib.empty.
Proof.
  unfold settings.is_missing, settings.value_in. simpl.
  rewrite !orb_true_iff, !value_eqb_eq. intuition congruence.
Qed.

Lemma in_missing_names (s : settings.AppSettings) (name : string) :
  In name (settings.missing_names s)
  <-> In name settings.required_names /\ settings.is_missing s name = true.
Proof.
  unfold settings.missing_names. apply filter_In.
Qed.

Lemma require_ci_fields_raises (s : settings.AppSettings) :
  settings.missing_names s <> [] ->
  settings.require_ci_fields s
  = Raise (Exn ValueError
             ("Missing required settings for CI: "
                ++ Py.join ", " (settings.missing_names s))).
Proof.
  intros Hm. unfold settings.require_ci_fields.
  destruct (settings.missing_names s); [now elim Hm|reflexivity].
Qed.

Lemma filter_all {A} (f : A -> bool) (l : list A) :
  (forall x, In x l -> f x = true) -> filter f l = l.
Proof.
  induction l as [|x l IH]; simpl; intros Hall; [reflexivity|].
  rewrite (Hall x (or_introl eq_refl)), IH; [reflexivity|].
  intros y Hy. apply Hall. now right.
Qed.

(** C10.  A [dockerfile_path] or [build_context] equal to [Path(".")] is
    listed among the missing fields, and [require_ci_fields] raises the
    aggregated error. *)
Theorem dot_path_is_missing (s : settings.AppSettings) :
  (settings.dockerfile_path s = Some (pathlib.of_str ".") ->
   In "dockerfile_path" (settings.missing_names s))
  /\ (settings.build_context s = Some (pathlib.of_str ".") ->
      In "build_context" (settings.missing_names s))
  /\ (settings.dockerfile_path s = Some (pathlib.of_str ".")
      \/ settings.build_context s = Some (pathlib.of_str ".") ->
      settings.require_ci_fields s
      = Raise (Exn ValueError
                 ("Missing required settings for CI: "
                    ++ Py.join ", " (settings.missing_names s)))).
Proof.
  assert (Hd : settings.dockerfile_path s = Some (pathlib.of_str ".") ->
               In "dockerfile_path" (settings.missing_names s)).
  { intros E. apply in_missing_names. split; [simpl; tauto|].
    apply is_missing_iff. right; right.
    unfold settings.getattr. simpl. rewrite E. reflexivity. }
  assert (Hb : settings.build_context s = Some (pathlib.of_str ".") ->
               In "build_context" (settings.missing_names s)).
  { intros E. apply in_missing_names. split; [simpl; tauto|].
    apply is_missing_iff. right; right.
    unfold settings.getattr. simpl. rewrite E. reflexivity. }
  split; [exact Hd|split; [exact Hb|]].
  intros [E|E]; apply require_ci_fields_raises; intros Hnil.
  - apply Hd in E. rewrite Hnil in E. exact E.
  - apply Hb in E. rewrite Hnil in E. exact E.
Qed.

Lemma dot_path_is_missing_witness :
  small_fs (pathlib.of_str ".") = Some Directory
  /\ settings.require_ci_fields dot_context_settings
     = Raise (Exn ValueError "Missing required settings for CI: build_context").
Proof.
  split; [reflexivity|].
  apply (proj2 (proj2 (dot_path_is_missing dot_context_settings))).
  right. reflexivity.
Defined.

(** ** The history of gateway operations *)

Section CallHistory.
Context {H : Host}.

Lemma keeps_ret {A} (a : A) : keeps_calls (ret a).
Proof. intros st. reflexivity. Qed.

Lemma keeps_raise {A} (e : exn) : keeps_calls (@raise _ A e).
Proof. intros st. reflexivity. Qed.

Lemma keeps_bind {A B} (m : M A) (k : A -> M B) :
  keeps_calls m -> (forall a, keeps_calls (k a)) -> keeps_calls (bind m k).
Proof.
  intros Hm Hk st. unfold bind. specialize (Hm st).
  destruct (m st) as [[a|e] st1]; simpl in *.
  - rewrite (Hk a st1). exact Hm.
  - exact Hm.
Qed.

Lemma keeps_try_except {A} (body : M A) catches (handler : exn -> M A) :
  keeps_calls body -> (forall e, keeps_calls (handler e)) ->
  keeps_calls (try_except body catches handler).
Proof.
  intros Hb Hh st. unfold try_except. specialize (Hb st).
  destruct (body st) as [[a|e] st1]; simpl in *; [exact Hb|].
  destruct (catches (exn_cls e)); simpl; [|exact Hb].
  rewrite (Hh e st1). exact Hb.
Qed.

Lemma keeps_invoke (f : callback) (x : string) : keeps_calls (invoke f x).
Proof. intros st. unfold invoke. destruct (f x (heap st)). reflexivity. Qed.

Lemma keeps_call_if_given (cb : option callback) (x : string) :
  keeps_calls (call_if_given cb x).
Proof. destruct cb; [apply keeps_invoke|apply keeps_ret]. Qed.

Lemma keeps_for_each {A} (xs : list A) (body : A -> M unit) :
  (forall x, keeps_calls (body x)) -> keeps_calls (for_each xs body).
Proof.
  intros Hb. induction xs as [|x xs IH]; simpl.
  - apply keeps_ret.
  - apply keeps_bind; [apply Hb|intros _; exact IH].
Qed.

Lemma keeps_start_process (args : list string) :
  keeps_calls (start_process args).
Proof.
  intros st. unfold start_process. destruct (popen args (world st)).
  reflexivity.
Qed.

Lemma keeps_run_command args check on_output :
  keeps_calls (subprocess_runner.run_command args check on_output).
Proof.
  unfold subprocess_runner.run_command.
  apply keeps_bind; [apply keeps_start_process|].
  intros [message|message|lines rc|lines message];
    [apply keeps_raise|apply keeps_raise| |];
    (apply keeps_bind;
     [apply keeps_for_each; intros x; apply keeps_call_if_given|intros _]).
  - destruct (_ && _); [apply keeps_raise|apply keeps_ret].
  - apply keeps_raise.
Qed.

Lemma enters_entered_then {A} (c : gateway_call) (m : M A) :
  keeps_calls m -> enters c (entered c ;; m).
Proof.
  intros Hm st. unfold bind, entered. rewrite Hm. reflexivity.
Qed.

End CallHistory.

Create HintDb calls.
#[local] Hint Resolve keeps_ret keeps_raise keeps_call_if_given
  keeps_run_command : calls.

Ltac keeps :=
  repeat first
    [ solve [auto with calls]
    | progress cbv zeta
    | match goal with
      | |- keeps_calls (try_except _ _ _) =>
          apply keeps_try_except; [|intros ?]
      | |- keeps_calls (bind _ _) => apply keeps_bind; [|intros ?]
      | |- keeps_calls (match ?x with _ => _ end) => destruct x
      end ].

Section DockerCalls.
Context {H : Host}.

Lemma ensure_available_enters oo oc :
  enters EnsureAvailable (docker.ensure_available oo oc).
Proof. apply enters_entered_then. unfold docker._emit_command. keeps. Qed.

Lemma build_image_enters t df ctx pf oo oc :
  enters (BuildImage t df ctx pf) (docker.build_image t df ctx pf oo oc).
Proof. apply enters_entered_then. unfold docker._emit_command. keeps. Qed.

Lemma tag_image_enters src tgt oo oc :
  enters (TagImage src tgt) (docker.tag_image src tgt oo oc).
Proof. apply enters_entered_then. unfold docker._emit_command. keeps. Qed.

Lemma push_image_enters t oo oc :
  enters (PushImage t) (docker.push_image t oo oc).
Proof. apply enters_entered_then. unfold docker._emit_command. keeps. Qed.

End DockerCalls.

(** ** The processes started *)

Section Processes.
Context {H : Host}.

Lemma starts_ret {A} (a : A) : starts [] (ret a).
Proof. intros st. simpl. now rewrite app_nil_r. Qed.

Lemma starts_raise {A} (e : exn) : starts [] (@raise _ A e).
Proof. intros st. simpl. now rewrite app_nil_r. Qed.

Lemma starts_entered (c : gateway_call) : starts [] (entered c).
Proof. intros st. simpl. now rewrite app_nil_r. Qed.

Lemma starts_invoke (f : callback) (x : string) : starts [] (invoke f x).
Proof.
  intros st. unfold invoke. destruct (f x (heap st)). simpl.
  now rewrite app_nil_r.
Qed.

Lemma starts_call_if_given (cb : option callback) (x : string) :
  starts [] (call_if_given cb x).
Proof. destruct cb; [apply starts_invoke|apply starts_ret]. Qed.

(** A step that starts nothing more leaves the processes started. *)
Lemma starts_bind_keep {A B} (commands : list (list string)) (m : M A)
    (k : A -> M B) :
  starts commands m -> (forall a, starts [] (k a)) ->
  starts commands (bind m k).
Proof.
  intros Hm Hk st. unfold bind. specialize (Hm st).
  destruct (m st) as [[a|e] st1]; simpl in *; [|exact Hm].
  now rewrite (Hk a st1), app_nil_r.
Qed.

(** After a step that starts nothing and does not raise. *)
Lemma starts_after_quiet {A B} (commands : list (list string)) (m : M A)
    (k : A -> M B) :
  returns m -> starts [] m -> (forall a, starts commands (k a)) ->
  starts commands (bind m k).
Proof.
  intros Hr Hm Hk st. unfold bind. specialize (Hm st).
  destruct (Hr st) as [a Ha].
  destruct (m st) as [[a'|e] st1]; simpl in *; [|discriminate Ha].
  rewrite app_nil_r in Hm. now rewrite (Hk a' st1), Hm.
Qed.

Lemma starts_try_except {A} (commands : list (list string)) (body : M A)
    catches (handler : exn -> M A) :
  starts commands body -> (forall e, starts [] (handler e)) ->
  starts commands (try_except body catches handler).
Proof.
  intros Hb Hh st. unfold try_except. specialize (Hb st).
  destruct (body st) as [[a|e] st1]; simpl in *; [exact Hb|].
  destruct (catches (exn_cls e)); simpl; [|exact Hb].
  now rewrite (Hh e st1), app_nil_r.
Qed.

Lemma starts_for_each {A} (xs : list A) (body : A -> M unit) :
  (forall x, starts [] (body x)) -> starts [] (for_each xs body).
Proof.
  intros Hb. induction xs as [|x xs IH]; simpl.
  - apply starts_ret.
  - apply starts_bind_keep; [apply Hb|intros _; exact IH].
Qed.

(** [run_command] starts its process whatever follows. *)
Lemma starts_start_process args : starts [args] (start_process args).
Proof.
  intros st. unfold start_process. now destruct (popen args (world st)).
Qed.

Lemma starts_run_command args check on_output :
  starts [args] (subprocess_runner.run_command args check on_output).
Proof.
  assert (Hfeed : forall lines, starts []
            (for_each lines (fun clean => call_if_given on_output clean)))
    by (intros lines; apply starts_for_each; intros x;
        apply starts_call_if_given).
  unfold subprocess_runner.run_command.
  apply starts_bind_keep; [apply starts_start_process|].
  intros [message|message|lines rc|lines message];
    try apply starts_raise.
  - apply starts_bind_keep; [apply Hfeed|]. intros _.
    destruct (_ && _); [apply starts_raise|apply starts_ret].
  - apply starts_bind_keep; [apply Hfeed|]. intros _. apply starts_raise.
Qed.

Lemma returns_entered (c : gateway_call) : returns (entered c).
Proof. intros st. now exists tt. Qed.

Lemma returns_call_if_given (cb : option callback) (x : string) :
  quiet cb -> returns (call_if_given cb x).
Proof.
  intros Hq st. exists tt. destruct cb as [f|]; simpl; [|reflexivity].
  unfold invoke. specialize (Hq x (heap st)).
  destruct (f x (heap st)) as [r h]. exact Hq.
Qed.

End Processes.

Create HintDb spawning.
#[local] Hint Resolve starts_ret starts_raise starts_run_command : spawning.

(** Steps through a gateway operation whose echo callback returns. *)
Ltac spawning :=
  repeat first
    [ solve [auto with spawning]
    | progress cbv zeta
    | match goal with
      | |- starts _ (bind (entered _) _) =>
          apply starts_after_quiet;
          [apply returns_entered|apply starts_entered|intros ?]
      | |- starts _ (bind (call_if_given _ _) _) =>
          apply starts_after_quiet;
          [apply returns_call_if_given; assumption
          |apply starts_call_if_given|intros ?]
      | |- starts _ (try_except _ _ _) =>
          apply starts_try_except; [|intros ?]
      | |- starts _ (bind _ _) => apply starts_bind_keep; [|intros ?]
      | |- starts _ (match ?x with _ => _ end) => destruct x
      end ].

Section DockerProcesses.
Context {H : Host}.
Variables on_output on_command : option callback.
Hypothesis command_quiet : quiet on_command.

Lemma ensure_available_performs :
  performs EnsureAvailable (docker.ensure_available on_output on_command).
Proof.
  split; [apply ensure_available_enters|].
  unfold docker.ensure_available, docker._emit_command, commands_of.
  spawning.
Qed.

Lemma build_image_performs t df ctx pf :
  performs (BuildImage t df ctx pf)
    (docker.build_image t df ctx pf on_output on_command).
Proof.
  split; [apply build_image_enters|].
  unfold docker.build_image, docker._emit_command, commands_of, build_args.
  destruct pf as [p|]; [destruct (Py.truthy p)|]; cbn [app]; spawning.
Qed.

Lemma tag_image_performs src tgt :
  performs (TagImage src tgt) (docker.tag_image src tgt on_output on_command).
Proof.
  split; [apply tag_image_enters|].
  unfold docker.tag_image, docker._emit_command, commands_of. spawning.
Qed.

Lemma push_image_performs t :
  performs (PushImage t) (docker.push_image t on_output on_command).
Proof.
  split; [apply push_image_enters|].
  unfold docker.push_image, docker._emit_command, commands_of. spawning.
Qed.

End DockerProcesses.

(** ** [build_and_push] as a sequence of steps *)

Section Pipeline.
Context {H : Host}.

Lemma build_and_push_unfold plan oo oc st :
  workflow.build_and_push plan oo oc st
  = try_except (run_all (pipeline_steps plan oo oc)) is_RuntimeError
      to_workflow_error st.
Proof.
  unfold workflow.build_and_push, pipeline_steps, try_except.
  destruct (skip_latest plan); simpl; unfold bind, ret;
    repeat match goal with
           | |- context [match ?m st with _ => _ end] =>
               destruct (m st) as [[[]|?] ?]
           | |- context [match ?m ?s with _ => _ end] =>
               is_var s; destruct (m s) as [[[]|?] ?]
           end; reflexivity.
Qed.

Lemma run_all_app_raise pre step post st st1 st2 e :
  run_all pre st = (Ok tt, st1) ->
  step st1 = (Raise e, st2) ->
  run_all (pre ++ step :: post)%list st = (Raise e, st2).
Proof.
  revert st. induction pre as [|m pre IH]; simpl; intros st Hpre Hstep.
  - inversion Hpre; subst. unfold bind. rewrite Hstep. reflexivity.
  - unfold bind in *. destruct (m st) as [[[]|e'] st'].
    + now apply IH.
    + discriminate Hpre.
Qed.

Lemma run_all_ok_calls ms cs st st1 :
  Forall2 (fun m c => enters c m) ms cs ->
  run_all ms st = (Ok tt, st1) ->
  calls st1 = (calls st ++ cs)%list.
Proof.
  intros HF. revert st. induction HF as [|m c ms cs Hm HF IH]; simpl; intros st.
  - intros [= <-]. now rewrite app_nil_r.
  - unfold bind. specialize (Hm st).
    destruct (m st) as [[[]|e] st']; simpl in Hm; [|discriminate].
    intros Hrest. rewrite (IH _ Hrest), Hm, <- app_assoc. reflexivity.
Qed.

Lemma run_all_calls_prefix ms cs st :
  Forall2 (fun m c => enters c m) ms cs ->
  exists k,
    (ms <> [] -> 1 <= k)
    /\ calls (snd (run_all ms st)) = (calls st ++ firstn k cs)%list
    /\ (fst (run_all ms st) = Ok tt ->
        calls (snd (run_all ms st)) = (calls st ++ cs)%list).
Proof.
  intros HF. revert st. induction HF as [|m c ms cs Hm HF IH]; simpl; intros st.
  - exists 0. simpl. rewrite app_nil_r.
    split; [intros E; now elim E|split; reflexivity].
  - unfold bind. specialize (Hm st).
    destruct (m st) as [[[]|e] st']; simpl in Hm.
    + destruct (IH st') as (k & _ & Hk & Hok).
      exists (S k). simpl. split; [lia|split].
      * rewrite Hk, Hm, <- app_assoc. reflexivity.
      * intros E. rewrite (Hok E), Hm, <- app_assoc. reflexivity.
    + exists 1. simpl.
      split; [lia|split; [exact Hm|discriminate]].
Qed.

(** Steps that each perform a gateway operation: the operations entered
    and the processes started are those of the same initial part of the
    sequence, of all of it when the steps return. *)
Lemma run_all_performs_prefix ms cs st :
  Forall2 (fun m c => performs c m) ms cs ->
  exists k,
    (ms <> [] -> 1 <= k)
    /\ calls (snd (run_all ms st)) = (calls st ++ firstn k cs)%list
    /\ spawned (snd (run_all ms st))
       = (spawned st ++ flat_map commands_of (firstn k cs))%list
    /\ (fst (run_all ms st) = Ok tt -> firstn k cs = cs).
Proof.
  intros HF. revert st. induction HF as [|m c ms cs [Hc Hs] HF IH]; simpl;
    intros st.
  - exists 0. simpl. rewrite !app_nil_r. repeat split.
    intros E. now elim E.
  - unfold bind. specialize (Hc st). specialize (Hs st).
    destruct (m st) as [[[]|e] st']; simpl in Hc, Hs.
    + destruct (IH st') as (k & _ & Hk & Hk' & Hok).
      exists (S k). cbn [firstn flat_map]. split; [lia|split; [|split]].
      * rewrite Hk, Hc, <- app_assoc. reflexivity.
      * rewrite Hk', Hs, <- app_assoc. reflexivity.
      * intros E. now rewrite (Hok E).
    + exists 1. cbn [firstn flat_map fst snd]. rewrite app_nil_r.
      split; [lia|split; [exact Hc|split; [exact Hs|discriminate]]].
Qed.

Lemma pipeline_enters plan oo oc :
  Forall2 (fun m c => enters c m) (pipeline_steps plan oo oc)
    (expected_calls plan).
Proof.
  unfold pipeline_steps, expected_calls.
  destruct (skip_latest plan); simpl;
    repeat constructor;
    auto using ensure_available_enters, build_image_enters,
      tag_image_enters, push_image_enters.
Qed.

Lemma pipeline_performs plan oo oc :
  quiet oc ->
  Forall2 (fun m c => performs c m) (pipeline_steps plan oo oc)
    (expected_calls plan).
Proof.
  intros Hq. unfold pipeline_steps, expected_calls.
  destruct (skip_latest plan); simpl;
    repeat first [apply Forall2_cons|apply Forall2_nil];
    auto using ensure_available_performs, build_image_performs,
      tag_image_performs, push_image_performs.
Qed.

Lemma try_except_calls (body : M unit) catches st :
  calls (snd (try_except body catches to_workflow_error st))
  = calls (snd (body st))
  /\ (fst (try_except body catches to_workflow_error st) = Ok tt ->
      fst (body st) = Ok tt).
Proof.
  unfold try_except.
  destruct (body st) as [[[]|e] st']; simpl; [auto|].
  destruct (catches (exn_cls e)); simpl; split; auto; discriminate.
Qed.

(** The translation of the exception changes nothing else. *)
Lemma try_except_state (body : M unit) catches st :
  snd (try_except body catches to_workflow_error st) = snd (body st).
Proof.
  unfold try_except.
  destruct (body st) as [[[]|e] st']; simpl; [reflexivity|].
  destruct (catches (exn_cls e)); reflexivity.
Qed.

(** The operations entered by a run of [build_and_push]. *)
Lemma build_and_push_calls plan oo oc st :
  exists k,
    1 <= k
    /\ calls (snd (workflow.build_and_push plan oo oc st))
       = (calls st ++ firstn k (expected_calls plan))%list
    /\ (fst (workflow.build_and_push plan oo oc st) = Ok tt ->
        calls (snd (workflow.build_and_push plan oo oc st))
        = (calls st ++ expected_calls plan)%list).
Proof.
  rewrite build_and_push_unfold.
  destruct (try_except_calls (run_all (pipeline_steps plan oo oc))
              is_RuntimeError st) as [Hc Hok].
  destruct (run_all_calls_prefix _ _ st (pipeline_enters plan oo oc))
    as (k & Hk & Hpre & Hall).
  exists k. split; [|split].
  - apply Hk. unfold pipeline_steps. discriminate.
  - now rewrite Hc.
  - intros E. rewrite Hc. apply Hall, Hok, E.
Qed.

(** The operations entered and the processes started by a run of
    [build_and_push] whose echo callback returns. *)
Lemma build_and_push_performs plan oo oc st :
  quiet oc ->
  exists k,
    1 <= k
    /\ calls (snd (workflow.build_and_push plan oo oc st))
       = (calls st ++ firstn k (expected_calls plan))%list
    /\ spawned (snd (workflow.build_and_push plan oo oc st))
       = (spawned st
            ++ flat_map commands_of (firstn k (expected_calls plan)))%list
    /\ (fst (workflow.build_and_push plan oo oc st) = Ok tt ->
        firstn k (expected_calls plan) = expected_calls plan).
Proof.
  intros Hq. rewrite build_and_push_unfold, try_except_state.
  destruct (run_all_performs_prefix _ _ st (pipeline_performs plan oo oc Hq))
    as (k & Hk & Hc & Hs & Hok).
  exists k. split; [apply Hk; unfold pipeline_steps; discriminate|].
  split; [exact Hc|split; [exact Hs|]].
  intros E. apply Hok.
  exact (proj2 (try_except_calls _ is_RuntimeError st) E).
Qed.


(** What a step that raises leaves.  When the steps before some step of
    the sequence return and that step raises, whatever it raises,
    [build_and_push] stops in the state that step left: the operations
    entered are those up to and including it, and none after.  What it
    raises is a [WorkflowError] with the same message when the exception
    is a [RuntimeError] (such as the [DockerCliError] of a gateway
    failure), and the exception itself otherwise. *)
Theorem build_and_push_short_circuit plan oo oc
    pre step post st st1 st2 e :
  pipeline_steps plan oo oc = (pre ++ step :: post)%list ->
  run_all pre st = (Ok tt, st1) ->
  step st1 = (Raise e, st2) ->
  workflow.build_and_push plan oo oc st
  = (Raise (if is_RuntimeError (exn_cls e)
            then Exn WorkflowError (exn_str e) else e), st2)
  /\ calls st2
     = (calls st ++ firstn (S (length pre)) (expected_calls plan))%list.
Proof.
  intros Hsplit Hpre Hstep. split.
  - rewrite build_and_push_unfold, Hsplit. unfold try_except.
    rewrite run_all_app_raise with (st1 := st1) (st2 := st2) (e := e)
      by assumption.
    destruct (is_RuntimeError (exn_cls e)); reflexivity.
  - pose proof (pipeline_enters plan oo oc) as HF. rewrite Hsplit in HF.
    apply Forall2_app_inv_l in HF.
    destruct HF as (cs1 & cs2 & Hpre2 & Hrest & Hexp).
    inversion Hrest as [|m c ms cs Hc Hpost]; subst.
    rewrite Hexp.
    rewrite (Forall2_length Hpre2).
    change (S (length cs1)) with (1 + length cs1).
    rewrite Nat.add_comm, firstn_app_2. simpl.
    specialize (Hc st1). rewrite Hstep in Hc. simpl in Hc.
    rewrite Hc, (run_all_ok_calls _ _ _ _ Hpre2 Hpre), <- app_assoc.
    reflexivity.
Qed.

End Pipeline.


(** The build fails: the engine check and the build were entered, nothing
    after, and the message is the one of the build failure. *)
Lemma build_and_push_short_circuit_witness :
  let H := sim_host (fails_on "build") small_fs in
  let run :=
    @workflow.build_and_push H example_plan None None
      (sim_state (fails_on "build") small_fs) in
  fst run = Raise (Exn WorkflowError "Docker build failed.")
  /\ calls (snd run)
     = [EnsureAvailable;
        BuildImage "reg.example.com/myrepo:1.0.0" (pathlib.of_str "Dockerfile")
          (pathlib.of_str ".") None]
  /\ spawned (snd run)
     = [["docker"; "info"];
        ["docker"; "build"; "-t"; "reg.example.com/myrepo:1.0.0"; "-f";
         "Dockerfile"; "."]].
Proof.
  pose (H := sim_host (fails_on "build") small_fs).
  pose (st := sim_state (fails_on "build") small_fs).
  pose (st1 := snd (@docker.ensure_available H None None st)).
  pose (st2 := snd (@docker.build_image H (versioned_ref example_plan)
                      (dockerfile_path example_plan)
                      (build_context example_plan) (platform example_plan)
                      None None st1)).
  destruct (@build_and_push_short_circuit H example_plan None None
              [docker.ensure_available None None]
              (docker.build_image (versioned_ref example_plan)
                 (dockerfile_path example_plan) (build_context example_plan)
                 (platform example_plan) None None)
              (tl (tl (pipeline_steps example_plan None None)))
              st st1 st2 (Exn DockerCliError "Docker build failed."))
    as [Hrun Hcalls]; try reflexivity.
  cbv zeta. fold H st. rewrite Hrun. simpl fst. simpl snd.
  split; [reflexivity|]. split; [exact Hcalls|reflexivity].
Defined.

(** C2.  [docker] is not installed: [Popen] raises [FileNotFoundError],
    an [OSError].  Neither the [except CommandError] of
    [ensure_available] nor the [except (DockerCliError, RuntimeError)] of
    [build_and_push] catches it, so the run raises the [OSError] itself,
    not a [WorkflowError]; no later step is entered. *)
Theorem build_and_push_lets_oserror_through :
  let run :=
    @workflow.build_and_push (script_host no_docker small_fs) example_plan
      None None (script_state no_docker small_fs) in
  fst run
  = Raise (Exn OSError "[Errno 2] No such file or directory: 'docker'")
  /\ calls (snd run) = [EnsureAvailable]
  /\ spawned (snd run) = [["docker"; "info"]].
Proof. repeat split. Qed.

(** ** [validate_docker_paths] *)

Section Validation.
Context {H : Host}.

(** C5, as stated, fails: a name of 256 characters refers to no regular
    file, but [is_file] does not answer [False]; it lets the [OSError] of
    [os.stat] through, and [validate_docker_paths] with it.  What is
    raised is not a [WorkflowError], although the context is a
    directory. *)
Lemma validate_docker_paths_lets_oserror_through :
  let H := probe_host quiet_success long_name_fs in
  let st := probe_state quiet_success long_name_fs in
  let run :=
    @workflow.validate_docker_paths H (pathlib.of_str long_name)
      (pathlib.of_str ".") st in
  path_kind (world st) (pathlib.of_str long_name)
    <> Known (Some RegularFile)
  /\ path_kind (world st) (pathlib.of_str ".") = Known (Some Directory)
  /\ fst run
     = Raise (Exn OSError
                ("[Errno 36] File name too long: '" ++ long_name ++ "'"))
  /\ fst run
     <> Raise (Exn WorkflowError
                 ("Dockerfile not found: "
                  ++ pathlib.str (pathlib.of_str long_name))).
Proof.
  cbv zeta. repeat split; vm_compute; try reflexivity; discriminate.
Qed.

(** C5, amended.  When the file system can examine the Dockerfile path:
    [validate_docker_paths] raises the Dockerfile-not-found error
    whenever the path is not an existing regular file, whatever the
    context is; otherwise, when it can examine the context path, the
    context-not-found error whenever that is not an existing directory;
    it returns exactly when the first is a regular file and the second a
    directory.  When examining the Dockerfile path fails with an
    [OSError], or the Dockerfile is a regular file and examining the
    context fails with one, that [OSError] is what is raised; the
    Dockerfile is examined first.  Nothing is changed. *)
Theorem validate_docker_paths_spec (dockerfile context : Path) (st : State) :
  let run := workflow.validate_docker_paths dockerfile context st in
  (forall kind, path_kind (world st) dockerfile = Known kind ->
   kind <> Some RegularFile ->
   fst run = Raise (Exn WorkflowError
                      ("Dockerfile not found: " ++ pathlib.str dockerfile)))
  /\ (path_kind (world st) dockerfile = Known (Some RegularFile) ->
      forall kind, path_kind (world st) context = Known kind ->
      kind <> Some Directory ->
      fst run = Raise (Exn WorkflowError
                         ("Build context not found: " ++ pathlib.str context)))
  /\ (fst run = Ok tt <->
      path_kind (world st) dockerfile = Known (Some RegularFile)
      /\ path_kind (world st) context = Known (Some Directory))
  /\ (forall message, path_kind (world st) dockerfile = StatFailed message ->
      fst run = Raise (Exn OSError message))
  /\ (path_kind (world st) dockerfile = Known (Some RegularFile) ->
      forall message, path_kind (world st) context = StatFailed message ->
      fst run = Raise (Exn OSError message))
  /\ snd run = st.
Proof.
  intros run. subst run.
  unfold workflow.validate_docker_paths, workflow.is_file, workflow.is_dir,
    stat, bind, ret, raise.
  destruct (path_kind (world st) dockerfile) as [[[| |]|]|m1]; simpl;
    destruct (path_kind (world st) context) as [[[| |]|]|m2]; simpl;
    repeat split;
    try reflexivity;
    try discriminate;
    try (intros [E1 E2]; discriminate);
    try (intros k [= <-] Hk; try reflexivity; now elim Hk);
    try (intros _ k [= <-] Hk; try reflexivity; now elim Hk);
    try (intros m [= <-]; reflexivity);
    try (intros _ m [= <-]; reflexivity).
Qed.

End Validation.

Lemma validate_docker_paths_spec_witness :
  let H := probe_host quiet_success long_name_fs in
  let st := probe_state quiet_success long_name_fs in
  fst (@workflow.validate_docker_paths H (pathlib.of_str "missing/Dockerfile")
         (pathlib.of_str ".") st)
  = Raise (Exn WorkflowError "Dockerfile not found: missing/Dockerfile")
  /\ fst (@workflow.validate_docker_paths H (pathlib.of_str "Dockerfile")
            (pathlib.of_str "Dockerfile") st)
     = Raise (Exn WorkflowError "Build context not found: Dockerfile")
  /\ fst (@workflow.validate_docker_paths H (pathlib.of_str "Dockerfile")
            (pathlib.of_str ".") st)
     = Ok tt
  /\ fst (@workflow.validate_docker_paths H (pathlib.of_str "Dockerfile")
            (pathlib.of_str long_name) st)
     = Raise (Exn OSError
                ("[Errno 36] File name too long: '" ++ long_name ++ "'")).
Proof.
  pose (H := probe_host quiet_success long_name_fs).
  pose (st := probe_state quiet_success long_name_fs).
  pose (spec := fun df ctx => @validate_docker_paths_spec H df ctx st).
  cbv zeta. fold H st. split; [|split; [|split]].
  - apply (proj1 (spec (pathlib.of_str "missing/Dockerfile")
                    (pathlib.of_str ".")) None);
      [reflexivity|discriminate].
  - apply (proj1 (proj2 (spec (pathlib.of_str "Dockerfile")
                           (pathlib.of_str "Dockerfile")))
             eq_refl (Some RegularFile));
      [reflexivity|discriminate].
  - apply (proj1 (proj2 (proj2 (spec (pathlib.of_str "Dockerfile")
                                  (pathlib.of_str "."))))).
    split; reflexivity.
  - apply (proj1 (proj2 (proj2 (proj2 (proj2
             (spec (pathlib.of_str "Dockerfile")
                (pathlib.of_str long_name))))))
             eq_refl).
    reflexivity.
Defined.

(** ** CI mode *)

Section CiMode.
Context {H : Host}.

Lemma run_ci_stops (s : settings.AppSettings) (e : exn) (st : State) :
  settings.require_ci_fields s = Raise e ->
  cli._run_ci s st = (Raise e, st).
Proof.
  intros E. unfold cli._run_ci, bind, lift. rewrite E. reflexivity.
Qed.

(** C6.  When at least one of the six required fields is missing,
    [require_ci_fields] raises one [ValueError] whose message lists the
    names of the missing fields, all of them and only them, and
    [_run_ci] raises it before anything else: the state is the one it
    started in.  A required field is missing when its value is [None],
    the empty string or [Path()].  With all six missing the message
    lists the six names.  So a run of [_run_ci] that entered a gateway
    operation or started a process had none missing. *)
Theorem ci_required_fields (s : settings.AppSettings) (st : State) :
  (settings.missing_names s <> [] ->
   let error :=
     Exn ValueError
       ("Missing required settings for CI: "
          ++ Py.join ", " (settings.missing_names s)) in
   settings.require_ci_fields s = Raise error
   /\ cli._run_ci s st = (Raise error, st))
  /\ (forall name,
        In name (settings.missing_names s) <->
        In name ["acr_name"; "acr_resource_group"; "repo_name"; "tag";
                 "dockerfile_path"; "build_context"]
        /\ (settings.getattr s name = settings.VNone
            \/ settings.getattr s name = settings.VStr ""
            \/ settings.getattr s name = settings.VPath pathlib.empty))
  /\ ((forall name, In name settings.required_names ->
                    In name (settings.missing_names s)) ->
      settings.require_ci_fields s
      = Raise (Exn ValueError
                 "Missing required settings for CI: acr_name, acr_resource_group, repo_name, tag, dockerfile_path, build_context"))
  /\ (calls (snd (cli._run_ci s st)) <> calls st
      \/ spawned (snd (cli._run_ci s st)) <> spawned st ->
      settings.missing_names s = []).
Proof.
  split; [|split; [|split]].
  - intros Hm error. pose proof (require_ci_fields_raises s Hm) as E.
    split; [exact E|]. now apply run_ci_stops.
  - intros name. rewrite in_missing_names, is_missing_iff. reflexivity.
  - intros Hall.
    assert (Hfull : settings.missing_names s = settings.required_names).
    { unfold settings.missing_names. apply filter_all.
      intros name Hin. apply Hall in Hin.
      now apply in_missing_names in Hin. }
    unfold settings.require_ci_fields. rewrite Hfull. reflexivity.
  - intros Hmoved.
    destruct (settings.missing_names s) as [|n ns] eqn:Hm; [reflexivity|].
    assert (Hne : settings.missing_names s <> []) by (rewrite Hm; discriminate).
    rewrite (run_ci_stops s _ st (require_ci_fields_raises s Hne)) in Hmoved.
    simpl in Hmoved. destruct Hmoved as [Hc|Hs]; [now elim Hc|now elim Hs].
Qed.

End CiMode.

Lemma ci_required_fields_witness :
  let H := sim_host all_ok small_fs in
  @cli._run_ci H settings.defaults (sim_state all_ok small_fs)
  = (Raise (Exn ValueError
              "Missing required settings for CI: acr_name, acr_resource_group, repo_name, tag, dockerfile_path, build_context"),
     sim_state all_ok small_fs)
  /\ settings.require_ci_fields dot_context_settings
     = Raise (Exn ValueError "Missing required settings for CI: build_context").
Proof.
  pose (H := sim_host all_ok small_fs).
  split.
  - apply (proj1 (@ci_required_fields H settings.defaults
                    (sim_state all_ok small_fs))).
    vm_compute. discriminate.
  - apply (proj1 (@ci_required_fields H dot_context_settings
                    (sim_state all_ok small_fs))).
    vm_compute. discriminate.
Defined.

(** ** Callbacks that return do not interfere *)

Section Observers.
Context {H : Host}.

Lemma same_outside_refl (st : State) : same_outside st st.
Proof. repeat split. Qed.

Lemma sim_same_run {A} (m1 m2 : M A) : sim m1 m2 -> same_run m1 m2.
Proof. intros Hs st. apply Hs, same_outside_refl. Qed.

Lemma sim_ret {A} (a : A) : sim (ret a) (ret a).
Proof. intros s1 s2 Hs. split; [reflexivity|exact Hs]. Qed.

Lemma sim_raise {A} (e : exn) : sim (@raise _ A e) (raise e).
Proof. intros s1 s2 Hs. split; [reflexivity|exact Hs]. Qed.

Lemma sim_bind {A B} (m1 m2 : M A) (k1 k2 : A -> M B) :
  sim m1 m2 -> (forall a, sim (k1 a) (k2 a)) -> sim (bind m1 k1) (bind m2 k2).
Proof.
  intros Hm Hk s1 s2 Hs. unfold bind.
  destruct (Hm s1 s2 Hs) as [Hr Hs'].
  destruct (m1 s1) as [[a|e] t1], (m2 s2) as [[b|e'] t2]; simpl in *;
    try discriminate Hr.
  - injection Hr as <-. now apply Hk.
  - injection Hr as <-. split; [reflexivity|exact Hs'].
Qed.

Lemma sim_try_except {A} (b1 b2 : M A) catches (h1 h2 : exn -> M A) :
  sim b1 b2 -> (forall e, sim (h1 e) (h2 e)) ->
  sim (try_except b1 catches h1) (try_except b2 catches h2).
Proof.
  intros Hb Hh s1 s2 Hs. unfold try_except.
  destruct (Hb s1 s2 Hs) as [Hr Hs'].
  destruct (b1 s1) as [[a|e] t1], (b2 s2) as [[b|e'] t2]; simpl in *;
    try discriminate Hr.
  - split; [exact Hr|exact Hs'].
  - injection Hr as <-.
    destruct (catches (exn_cls e)); [now apply Hh|].
    split; [reflexivity|exact Hs'].
Qed.

Lemma sim_entered (c : gateway_call) : sim (entered c) (entered c).
Proof.
  intros s1 s2 (Hw & Hp & Hc). unfold entered, same_outside. simpl.
  rewrite Hc. auto.
Qed.

Lemma sim_start_process (args : list string) :
  sim (start_process args) (start_process args).
Proof.
  intros s1 s2 (Hw & Hp & Hc). unfold start_process, same_outside.
  rewrite Hw. destruct (popen args (world s2)) as [out w]. simpl.
  rewrite Hp. auto.
Qed.

Lemma sim_invoke (f : callback) (x : string) :
  returns_normally f -> sim (invoke f x) (ret tt).
Proof.
  intros Hf s1 s2 Hs. unfold invoke, ret. specialize (Hf x (heap s1)).
  destruct (f x (heap s1)) as [r h]. simpl in *. split; [exact Hf|exact Hs].
Qed.

Lemma sim_call_if_given (cb : option callback) (x : string) :
  quiet cb -> sim (call_if_given cb x) (call_if_given None x).
Proof.
  destruct cb as [f|]; simpl; intros Hq; [now apply sim_invoke|apply sim_ret].
Qed.

Lemma sim_for_each {A} (xs : list A) (b1 b2 : A -> M unit) :
  (forall x, sim (b1 x) (b2 x)) -> sim (for_each xs b1) (for_each xs b2).
Proof.
  intros Hb. induction xs as [|x xs IH]; simpl.
  - apply sim_ret.
  - apply sim_bind; [apply Hb|intros _; exact IH].
Qed.

Lemma sim_run_command args check on_output :
  quiet on_output ->
  sim (subprocess_runner.run_command args check on_output)
      (subprocess_runner.run_command args check None).
Proof.
  intros Hq. unfold subprocess_runner.run_command.
  apply sim_bind; [apply sim_start_process|].
  intros [message|message|lines rc|lines message];
    try apply sim_raise;
    (apply sim_bind;
     [apply sim_for_each; intros x; now apply sim_call_if_given|intros _]).
  - destruct (_ && _); [apply sim_raise|apply sim_ret].
  - apply sim_raise.
Qed.

End Observers.

Create HintDb observers.
#[local] Hint Resolve sim_ret sim_raise sim_entered sim_run_command
  sim_call_if_given : observers.

Ltac simulate :=
  repeat first
    [ solve [auto with observers]
    | progress cbv zeta
    | match goal with
      | |- sim (try_except _ _ _) (try_except _ _ _) =>
          apply sim_try_except; [|intros ?]
      | |- sim (bind _ _) (bind _ _) => apply sim_bind; [|intros ?]
      | |- sim (if ?b then _ else _) (if ?b then _ else _) => destruct b
      | |- sim (match ?x with _ => _ end) (match ?x with _ => _ end) =>
          destruct x
      end ].

Section GatewayObservers.
Context {H : Host}.
Variables on_output on_command : option callback.
Hypothesis output_quiet : quiet on_output.
Hypothesis command_quiet : quiet on_command.

Lemma sim_ensure_available :
  sim (docker.ensure_available on_output on_command)
      (docker.ensure_available None None).
Proof. unfold docker.ensure_available, docker._emit_command. simulate. Qed.

Lemma sim_build_image t df ctx pf :
  sim (docker.build_image t df ctx pf on_output on_command)
      (docker.build_image t df ctx pf None None).
Proof. unfold docker.build_image, docker._emit_command. simulate. Qed.

Lemma sim_tag_image src tgt :
  sim (docker.tag_image src tgt on_output on_command)
      (docker.tag_image src tgt None None).
Proof. unfold docker.tag_image, docker._emit_command. simulate. Qed.

Lemma sim_push_image t :
  sim (docker.push_image t on_output on_command)
      (docker.push_image t None None).
Proof. unfold docker.push_image, docker._emit_command. simulate. Qed.

Lemma sim_ensure_logged_in :
  sim (azure.ensure_logged_in on_output on_command)
      (azure.ensure_logged_in None None).
Proof. unfold azure.ensure_logged_in, azure._emit_command. simulate. Qed.

Lemma sim_get_current_account :
  sim (azure.get_current_account on_output on_command)
      (azure.get_current_account None None).
Proof. unfold azure.get_current_account, azure._emit_command. simulate. Qed.

Lemma sim_login_tenant t :
  sim (azure.login_tenant t on_output on_command)
      (azure.login_tenant t None None).
Proof. unfold azure.login_tenant, azure._emit_command. simulate. Qed.

Lemma sim_set_subscription sub :
  sim (azure.set_subscription sub on_output on_command)
      (azure.set_subscription sub None None).
Proof. unfold azure.set_subscription, azure._emit_command. simulate. Qed.

Lemma sim_list_registries :
  sim (azure.list_registries on_output on_command)
      (azure.list_registries None None).
Proof. unfold azure.list_registries, azure._emit_command. simulate. Qed.

Lemma sim_show_registry a rg :
  sim (azure.show_registry a rg on_output on_command)
      (azure.show_registry a rg None None).
Proof. unfold azure.show_registry, azure._emit_command. simulate. Qed.

Lemma sim_login_registry a :
  sim (azure.login_registry a on_output on_command)
      (azure.login_registry a None None).
Proof. unfold azure.login_registry, azure._emit_command. simulate. Qed.

Lemma sim_list_repositories a :
  sim (azure.list_repositories a on_output on_command)
      (azure.list_repositories a None None).
Proof. unfold azure.list_repositories, azure._emit_command. simulate. Qed.

Lemma sim_list_tags a r :
  sim (azure.list_tags a r on_output on_command)
      (azure.list_tags a r None None).
Proof. unfold azure.list_tags, azure._emit_command. simulate. Qed.

Lemma sim_build_and_push plan :
  sim (workflow.build_and_push plan on_output on_command)
      (workflow.build_and_push plan None None).
Proof.
  unfold workflow.build_and_push.
  apply sim_try_except; [|intros e; apply sim_raise].
  apply sim_bind; [apply sim_ensure_available|intros _].
  apply sim_bind; [apply sim_build_image|intros _].
  apply sim_bind.
  { destruct (negb (skip_latest plan)); [apply sim_tag_image|apply sim_ret]. }
  intros _. apply sim_bind; [apply sim_push_image|intros _].
  destruct (negb (skip_latest plan)); [apply sim_push_image|apply sim_ret].
Qed.

End GatewayObservers.

Section Observability.
Context {H : Host}.

(** C8, amended.  With callbacks that return normally, or without them,
    [build_and_push] and every gateway operation end alike from the same
    state: same value or same exception, same world, same processes
    started in the same order, same gateway operations entered. *)
Theorem callbacks_that_return_do_not_interfere
    (on_output on_command : option callback) :
  quiet on_output -> quiet on_command ->
  (forall plan,
      same_run (workflow.build_and_push plan on_output on_command)
               (workflow.build_and_push plan None None))
  /\ same_run (docker.ensure_available on_output on_command)
              (docker.ensure_available None None)
  /\ (forall t df ctx pf,
      same_run (docker.build_image t df ctx pf on_output on_command)
               (docker.build_image t df ctx pf None None))
  /\ (forall src tgt,
      same_run (docker.tag_image src tgt on_output on_command)
               (docker.tag_image src tgt None None))
  /\ (forall t,
      same_run (docker.push_image t on_output on_command)
               (docker.push_image t None None))
  /\ same_run (azure.ensure_logged_in on_output on_command)
              (azure.ensure_logged_in None None)
  /\ same_run (azure.get_current_account on_output on_command)
              (azure.get_current_account None None)
  /\ (forall t,
      same_run (azure.login_tenant t on_output on_command)
               (azure.login_tenant t None None))
  /\ (forall sub,
      same_run (azure.set_subscription sub on_output on_command)
               (azure.set_subscription sub None None))
  /\ same_run (azure.list_registries on_output on_command)
              (azure.list_registries None None)
  /\ (forall a rg,
      same_run (azure.show_registry a rg on_output on_command)
               (azure.show_registry a rg None None))
  /\ (forall a,
      same_run (azure.login_registry a on_output on_command)
               (azure.login_registry a None None))
  /\ (forall a,
      same_run (azure.list_repositories a on_output on_command)
               (azure.list_repositories a None None))
  /\ (forall a r,
      same_run (azure.list_tags a r on_output on_command)
               (azure.list_tags a r None None)).
Proof.
  intros Ho Hc.
  repeat split; intros; apply sim_same_run;
    auto using sim_build_and_push, sim_ensure_available, sim_build_image,
      sim_tag_image, sim_push_image, sim_ensure_logged_in,
      sim_get_current_account, sim_login_tenant, sim_set_subscription,
      sim_list_registries, sim_show_registry, sim_login_registry,
      sim_list_repositories, sim_list_tags.
Qed.

End Observability.

(** C8, as stated, fails: an [on_command] callback that raises
    [RuntimeError] makes [build_and_push] raise before any process is
    started, where the run without callbacks starts five and returns. *)
Lemma callback_that_raises_changes_the_run :
  let H := sim_host all_ok small_fs in
  let st := sim_state all_ok small_fs in
  let with_callback :=
    @workflow.build_and_push H example_plan None (Some broken) st in
  let without := @workflow.build_and_push H example_plan None None st in
  fst with_callback = Raise (Exn WorkflowError "boom")
  /\ spawned (snd with_callback) = []
  /\ fst without = Ok tt
  /\ spawned (snd without)
     = [["docker"; "info"];
        ["docker"; "build"; "-t"; "reg.example.com/myrepo:1.0.0"; "-f";
         "Dockerfile"; "."];
        ["docker"; "tag"; "reg.example.com/myrepo:1.0.0";
         "reg.example.com/myrepo:latest"];
        ["docker"; "push"; "reg.example.com/myrepo:1.0.0"];
        ["docker"; "push"; "reg.example.com/myrepo:latest"]]
  /\ ~ same_run (@workflow.build_and_push H example_plan None (Some broken))
                (@workflow.build_and_push H example_plan None None).
Proof.
  cbv zeta. repeat split; try reflexivity.
  intros Hsame.
  destruct (Hsame (sim_state all_ok small_fs)) as [Hr _].
  discriminate Hr.
Qed.

Lemma callbacks_that_return_do_not_interfere_witness :
  let H := sim_host all_ok small_fs in
  same_run
    (@workflow.build_and_push H example_plan (Some recorder) (Some recorder))
    (@workflow.build_and_push H example_plan None None)
  /\ heap (snd (@workflow.build_and_push H example_plan (Some recorder)
                  (Some recorder) (sim_state all_ok small_fs)))
     = ["docker info";
        "docker build -t reg.example.com/myrepo:1.0.0 -f Dockerfile .";
        "docker tag reg.example.com/myrepo:1.0.0 reg.example.com/myrepo:latest";
        "docker push reg.example.com/myrepo:1.0.0";
        "docker push reg.example.com/myrepo:latest"].
Proof.
  split; [|reflexivity].
  apply (proj1 (@callbacks_that_return_do_not_interfere
                  (sim_host all_ok small_fs) (Some recorder) (Some recorder)
                  (fun x h => eq_refl) (fun x h => eq_refl))).
Defined.

(** ** [set_subscription] *)

Section Subscription.
Context {H : Host}.

Lemma for_each_no_callback (lines : list string) (st : State) :
  for_each lines (fun clean => call_if_given None clean) st = (Ok tt, st).
Proof.
  induction lines as [|l lines IH]; simpl; [reflexivity|].
  unfold bind. simpl. exact IH.
Qed.

Lemma truthy_iff (s : string) : Py.truthy s = true <-> s <> "".
Proof. destruct s; simpl; split; congruence. Qed.

(** [set_subscription] of a non-empty subscription, without callbacks. *)
Lemma set_subscription_plain (s : string) (st : State) :
  s <> "" ->
  let args := ["az"; "account"; "set"; "--subscription"; s] in
  azure.set_subscription (Some s) None None st
  = (match fst (popen args (world st)) with
     | SpawnFailed message => Raise (Exn OSError message)
     | SpawnRefused message => Raise (Exn ValueError message)
     | Spawned _ rc =>
         if (rc =? 0)%Z then Ok tt
         else Raise (Exn AzureCliError ("Failed to set subscription: " ++ s))
     | Undecodable _ message => Raise (Exn ValueError message)
     end,
     mkState (snd (popen args (world st))) (heap st)
       (spawned st ++ [args])%list
       (calls st ++ [SetSubscription (Some s)])%list).
Proof.
  intros Hs args. apply truthy_iff in Hs.
  unfold azure.set_subscription, bind, entered, try_except. rewrite Hs.
  simpl. unfold subprocess_runner.run_command, bind, start_process. simpl.
  fold args.
  destruct (popen args (world st))
    as [[message|message|lines rc|lines message] w];
    simpl; try reflexivity; rewrite for_each_no_callback;
    [destruct (rc =? 0)%Z|]; reflexivity.
Qed.

(** What [set_subscription] does.  With [None] or the empty string it
    returns and leaves the world, the heap of the callbacks and the
    processes started as they were, whatever the callbacks.  So a run
    that started a process, or in which a callback wrote, had a non-empty
    subscription.  With a non-empty subscription [s] and callbacks that
    return, it starts [az account set --subscription s] and nothing
    else; it returns when that process exits with 0 and raises
    [AzureCliError] when it exits with another code.  When the process
    cannot be started, or its output cannot be decoded, what
    [run_command] raises is not a [CommandError] and is raised
    unchanged. *)
Theorem set_subscription_spec (sub : option string)
    (on_output on_command : option callback) (st : State) :
  let run := azure.set_subscription sub on_output on_command st in
  (sub = None \/ sub = Some "" ->
   fst run = Ok tt /\ world (snd run) = world st
   /\ heap (snd run) = heap st /\ spawned (snd run) = spawned st)
  /\ (spawned (snd run) <> spawned st \/ heap (snd run) <> heap st ->
      exists s, sub = Some s /\ s <> "")
  /\ (forall s, sub = Some s -> s <> "" ->
      quiet on_output -> quiet on_command ->
      let args := ["az"; "account"; "set"; "--subscription"; s] in
      spawned (snd run) = (spawned st ++ [args])%list
      /\ world (snd run) = snd (popen args (world st))
      /\ fst run
         = match fst (popen args (world st)) with
           | SpawnFailed message => Raise (Exn OSError message)
           | SpawnRefused message => Raise (Exn ValueError message)
           | Spawned _ rc =>
               if (rc =? 0)%Z then Ok tt
               else Raise (Exn AzureCliError
                             ("Failed to set subscription: " ++ s))
           | Undecodable _ message => Raise (Exn ValueError message)
           end).
Proof.
  intros run.
  assert (Hnoop : sub = None \/ sub = Some "" ->
                  fst run = Ok tt /\ world (snd run) = world st
                  /\ heap (snd run) = heap st
                  /\ spawned (snd run) = spawned st).
  { intros [->| ->]; unfold run; repeat split; reflexivity. }
  split; [exact Hnoop|split].
  - intros Hmoved. destruct sub as [s|].
    + destruct s as [|a s].
      * destruct (Hnoop (or_intror eq_refl)) as (_ & _ & Hh & Hp).
        destruct Hmoved as [Hm|Hm]; now elim Hm.
      * exists (String a s). split; [reflexivity|discriminate].
    + destruct (Hnoop (or_introl eq_refl)) as (_ & _ & Hh & Hp).
      destruct Hmoved as [Hm|Hm]; now elim Hm.
  - intros s -> Hs Ho Hc args.
    destruct (sim_same_run _ _
                (sim_set_subscription on_output on_command Ho Hc (Some s)) st)
      as (Hr & Hw & Hp & _).
    fold run in Hr, Hw, Hp. rewrite Hr, Hw, Hp.
    rewrite (set_subscription_plain s st Hs). simpl. fold args.
    repeat split.
Qed.

End Subscription.

Lemma set_subscription_spec_witness :
  let H := sim_host (fails_on "account") small_fs in
  let st := sim_state (fails_on "account") small_fs in
  @azure.set_subscription H None (Some recorder) (Some recorder) st
  = (Ok tt, @mkState H tt [] [] [SetSubscription None])
  /\ fst (@azure.set_subscription H (Some "sub-1") (Some recorder)
            (Some recorder) st)
     = Raise (Exn AzureCliError "Failed to set subscription: sub-1")
  /\ spawned (snd (@azure.set_subscription H (Some "sub-1") (Some recorder)
                     (Some recorder) st))
     = [["az"; "account"; "set"; "--subscription"; "sub-1"]].
Proof.
  pose (H := sim_host (fails_on "account") small_fs).
  pose (st := sim_state (fails_on "account") small_fs).
  split; [reflexivity|].
  pose proof (proj2 (proj2 (@set_subscription_spec H (Some "sub-1")
                              (Some recorder) (Some recorder) st))
                "sub-1" eq_refl) as Hspec.
  destruct Hspec as (Hp & _ & Hrc).
  - discriminate.
  - intros x h. reflexivity.
  - intros x h. reflexivity.
  - split; [exact Hrc|exact Hp].
Defined.

(** C9.  [az] is not installed and the subscription is not empty:
    [Popen] raises [FileNotFoundError], an [OSError], which the
    [except CommandError] of [set_subscription] does not catch.  The
    invocation fails and what is raised is not the [AzureCliError] the
    function documents. *)
Theorem set_subscription_lets_oserror_through :
  let run :=
    @azure.set_subscription (script_host no_az small_fs) (Some "sub-1")
      None None (script_state no_az small_fs) in
  fst run = Raise (Exn OSError "[Errno 2] No such file or directory: 'az'")
  /\ spawned (snd run) = [["az"; "account"; "set"; "--subscription"; "sub-1"]].
Proof. split; reflexivity. Qed.

(* ===================================================================== *)
(** * Further properties *)

(** ** [run_command] *)

Section RunCommand.
Context {H : Host}.

Lemma for_each_quiet (cb : option callback) (lines : list string)
    (st : State) :
  quiet cb ->
  for_each lines (fun clean => call_if_given cb clean) st
  = (Ok tt, mkState (world st) (fed cb lines (heap st)) (spawned st)
              (calls st)).
Proof.
  intros Hq. revert st. induction lines as [|l lines IH]; intros st.
  - destruct st; reflexivity.
  - simpl for_each. unfold bind.
    assert (Hstep : call_if_given cb l st
                    = (Ok tt, mkState (world st) (given cb l (heap st))
                                (spawned st) (calls st))).
    { destruct cb as [f|]; simpl.
      - unfold invoke. specialize (Hq l (heap st)).
        destruct (f l (heap st)) as [r h]. simpl in *. now rewrite Hq.
      - destruct st; reflexivity. }
    rewrite Hstep, IH. reflexivity.
Qed.

(** What a run of [run_command] comes to when the callback returns. *)
Lemma run_command_quiet args check on_output st :
  quiet on_output ->
  subprocess_runner.run_command args check on_output st
  = match fst (popen args (world st)) with
    | SpawnFailed message =>
        (Raise (Exn OSError message),
         after_process st args (snd (popen args (world st))) (heap st))
    | SpawnRefused message =>
        (Raise (Exn ValueError message),
         after_process st args (snd (popen args (world st))) (heap st))
    | Spawned lines rc =>
        let stdout := Py.strip (Py.join subprocess_runner.newline lines) in
        (if check && negb (rc =? 0)%Z
         then Raise (Exn CommandError
                       (if Py.truthy stdout then stdout else "Command failed."))
         else Ok (subprocess_runner.mkCommandResult stdout "" rc),
         after_process st args (snd (popen args (world st)))
           (fed on_output lines (heap st)))
    | Undecodable lines message =>
        (Raise (Exn ValueError message),
         after_process st args (snd (popen args (world st)))
           (fed on_output lines (heap st)))
    end.
Proof.
  intros Hq. unfold subprocess_runner.run_command, bind, start_process.
  destruct (popen args (world st))
    as [[message|message|lines rc|lines message] w]; simpl;
    try reflexivity;
    rewrite (for_each_quiet on_output lines _ Hq); simpl;
    [destruct (check && negb (rc =? 0)%Z)|]; reflexivity.
Qed.

(** X1.  When the process starts and the callback returns, [run_command]
    starts that one process and no other.  With [check] off or an exit
    code of 0 it returns the output, stripped, as [stdout], an empty
    [stderr] and the exit code.  With [check] on and another exit code it
    raises [CommandError], whose message is the stripped output, or
    ["Command failed."] when that is empty: the message is never empty. *)
Theorem run_command_outcome args check on_output st lines rc w :
  quiet on_output ->
  popen args (world st) = (Spawned lines rc, w) ->
  let run := subprocess_runner.run_command args check on_output st in
  let output := Py.strip (Py.join subprocess_runner.newline lines) in
  spawned (snd run) = (spawned st ++ [args])%list
  /\ world (snd run) = w
  /\ calls (snd run) = calls st
  /\ (check = false \/ rc = 0%Z ->
      fst run = Ok (subprocess_runner.mkCommandResult output "" rc))
  /\ (check = true -> rc <> 0%Z ->
      exists message,
        fst run = Raise (Exn CommandError message)
        /\ message <> ""
        /\ (output <> "" -> message = output)
        /\ (output = "" -> message = "Command failed.")).
Proof.
  intros Hq Hp run output. unfold run.
  rewrite (run_command_quiet args check on_output st Hq), Hp. simpl.
  fold output. repeat split.
  - intros [-> | ->]; [reflexivity|]. simpl. now rewrite andb_false_r.
  - intros -> Hrc. apply Z.eqb_neq in Hrc. rewrite Hrc. simpl.
    exists (if Py.truthy output then output else "Command failed.").
    split; [reflexivity|]. destruct output as [|a s]; simpl.
    + repeat split; try discriminate; intros E; now elim E.
    + repeat split; discriminate.
Qed.

(** X2.  [run_command] gives the callback every line the process prints,
    empty ones too, once each and first to last, before it returns or
    raises: also when the exit code makes it raise. *)
Theorem run_command_streams_output args check f st lines rc w :
  returns_normally f ->
  popen args (world st) = (Spawned lines rc, w) ->
  heap (snd (subprocess_runner.run_command args check (Some f) st))
  = fold_left (fun h line => snd (f line h)) lines (heap st).
Proof.
  intros Hq Hp.
  rewrite (run_command_quiet args check (Some f) st Hq), Hp. simpl.
  destruct (check && negb (rc =? 0)%Z); reflexivity.
Qed.

End RunCommand.

Lemma run_command_outcome_witness :
  fst (@subprocess_runner.run_command (script_host noisy_failure small_fs)
         ["az"; "acr"; "list"] true (Some keep)
         (script_state noisy_failure small_fs))
  = Raise (Exn CommandError
             ("step 1" ++ subprocess_runner.newline ++ subprocess_runner.newline
                ++ "error: denied"))
  /\ fst (@subprocess_runner.run_command (script_host silent_failure small_fs)
            ["az"] true None (script_state silent_failure small_fs))
     = Raise (Exn CommandError "Command failed.")
  /\ fst (@subprocess_runner.run_command (script_host silent_failure small_fs)
            ["az"] false None (script_state silent_failure small_fs))
     = Ok (subprocess_runner.mkCommandResult "" "" 2).
Proof.
  split; [|split].
  - destruct (@run_command_outcome (script_host noisy_failure small_fs)
                ["az"; "acr"; "list"] true (Some keep)
                (script_state noisy_failure small_fs)
                ["step 1"; ""; "error: denied"] 1%Z tt
                (fun x h => eq_refl) eq_refl)
      as (_ & _ & _ & _ & Hfail).
    destruct (Hfail eq_refl) as (message & Hr & _ & Hm & _); [discriminate|].
    rewrite Hr, Hm; [reflexivity|discriminate].
  - destruct (@run_command_outcome (script_host silent_failure small_fs)
                ["az"] true None
                (script_state silent_failure small_fs) [] 2%Z tt I eq_refl)
      as (_ & _ & _ & _ & Hfail).
    destruct (Hfail eq_refl) as (message & Hr & _ & _ & Hm); [discriminate|].
    rewrite Hr, Hm; reflexivity.
  - apply (@run_command_outcome (script_host silent_failure small_fs)
             ["az"] false None
             (script_state silent_failure small_fs) [] 2%Z tt I eq_refl).
    now left.
Defined.

Lemma run_command_streams_output_witness :
  heap (snd (@subprocess_runner.run_command
               (script_host noisy_failure small_fs) ["docker"; "push"; "x"]
               true (Some keep) (script_state noisy_failure small_fs)))
  = ["step 1"; ""; "error: denied"].
Proof.
  apply (@run_command_streams_output (script_host noisy_failure small_fs)
           ["docker"; "push"; "x"] true keep
           (script_state noisy_failure small_fs)
           ["step 1"; ""; "error: denied"] 1%Z tt (fun x h => eq_refl) eq_refl).
Defined.

(** ** Gateway operations that run one tool *)

Section OneTool.
Context {H : Host}.

Lemma guarded_quiet {A} (args : list string) (failure : exn)
    (on_output on_command : option callback)
    (k : subprocess_runner.CommandResult -> A) (st : State) :
  quiet on_output -> quiet on_command ->
  try_except
    (call_if_given on_command (command_line args) ;;
     r <- subprocess_runner.run_command args true on_output ;;
     ret (k r))
    is_CommandError (fun _ => raise failure) st
  = let echoed := given on_command (command_line args) (heap st) in
    match fst (popen args (world st)) with
    | SpawnFailed message =>
        (Raise (Exn OSError message),
         after_process st args (snd (popen args (world st))) echoed)
    | SpawnRefused message =>
        (Raise (Exn ValueError message),
         after_process st args (snd (popen args (world st))) echoed)
    | Spawned lines rc =>
        (if (rc =? 0)%Z
         then Ok (k (subprocess_runner.mkCommandResult
                       (Py.strip (Py.join subprocess_runner.newline lines))
                       "" rc))
         else Raise failure,
         after_process st args (snd (popen args (world st)))
           (fed on_output lines echoed))
    | Undecodable lines message =>
        (Raise (Exn ValueError message),
         after_process st args (snd (popen args (world st)))
           (fed on_output lines echoed))
    end.
Proof.
  intros Ho Hc. unfold try_except, bind.
  assert (Hecho : call_if_given on_command (command_line args) st
                  = (Ok tt, mkState (world st)
                              (given on_command (command_line args) (heap st))
                              (spawned st) (calls st))).
  { destruct on_command as [f|]; simpl.
    - unfold invoke. specialize (Hc (command_line args) (heap st)).
      destruct (f (command_line args) (heap st)) as [r h]. simpl in *.
      now rewrite Hc.
    - destruct st; reflexivity. }
  rewrite Hecho, (run_command_quiet args true on_output _ Ho). simpl.
  destruct (popen args (world st))
    as [[message|message|lines rc|lines message] w]; simpl;
    try reflexivity.
  destruct (rc =? 0)%Z; reflexivity.
Qed.

Lemma entered_then (c : gateway_call) {A} (m : M A) (st : State) :
  (entered c ;; m) st
  = m (mkState (world st) (heap st) (spawned st) (calls st ++ [c])%list).
Proof. reflexivity. Qed.

Lemma guarded_runs_tool (c : gateway_call) (args : list string)
    (failure : exn) (on_output on_command : option callback) :
  quiet on_output -> quiet on_command ->
  runs_tool
    (entered c ;;
     try_except
       (call_if_given on_command (command_line args) ;;
        _ <- subprocess_runner.run_command args true on_output ;;
        ret tt)
       is_CommandError (fun _ => raise failure))
    args failure on_output on_command.
Proof.
  intros Ho Hc st.
  rewrite entered_then,
    (guarded_quiet args failure on_output on_command (fun _ => tt) _ Ho Hc).
  simpl.
  destruct (popen args (world st))
    as [[message|message|lines rc|lines message] w]; simpl;
    repeat split.
Qed.

Lemma guarded_echo_raises {A} (args : list string) (failure : exn)
    (on_output : option callback) (f : callback)
    (body : M A) (st : State) (e : exn) (h : Heap) :
  f (command_line args) (heap st) = (Raise e, h) ->
  try_except
    (call_if_given (Some f) (command_line args) ;; body)
    is_CommandError (fun _ => raise failure) st
  = (Raise (if is_CommandError (exn_cls e) then failure else e),
     mkState (world st) h (spawned st) (calls st)).
Proof.
  intros Hf. unfold try_except, bind, call_if_given, invoke. rewrite Hf.
  destruct (is_CommandError (exn_cls e)); reflexivity.
Qed.

Lemma entered_echo_comes_first {A} (c : gateway_call) (args : list string)
    (failure : exn) (f : callback) (body : M A) :
  echo_comes_first
    (entered c ;;
     try_except (call_if_given (Some f) (command_line args) ;; body)
       is_CommandError (fun _ => raise failure))
    args failure f.
Proof.
  intros st e h Hf.
  rewrite entered_then.
  rewrite (guarded_echo_raises args failure None f body
             (mkState (world st) (heap st) (spawned st) (calls st ++ [c])%list)
             e h Hf).
  repeat split.
Qed.

(** X3.  With callbacks that return, each operation of [docker.py] runs
    exactly one tool: [docker info], [docker build] with the platform
    pair right after [build] exactly when a non-empty platform is given,
    [docker tag] and [docker push]; the command line is echoed first, the
    output lines follow; an exit code other than 0 gives the operation's
    own [DockerCliError], in which nothing of the output is kept. *)
Theorem docker_operations_run_one_tool
    (on_output on_command : option callback) :
  quiet on_output -> quiet on_command ->
  runs_tool (docker.ensure_available on_output on_command)
    ["docker"; "info"] (Exn DockerCliError "Docker daemon is not running.")
    on_output on_command
  /\ (forall t df ctx pf,
      runs_tool (docker.build_image t df ctx pf on_output on_command)
        (build_args t df ctx pf) (Exn DockerCliError "Docker build failed.")
        on_output on_command)
  /\ (forall src tgt,
      runs_tool (docker.tag_image src tgt on_output on_command)
        ["docker"; "tag"; src; tgt] (Exn DockerCliError "Docker tag failed.")
        on_output on_command)
  /\ (forall t,
      runs_tool (docker.push_image t on_output on_command)
        ["docker"; "push"; t]
        (Exn DockerCliError ("Failed to push image: " ++ t))
        on_output on_command).
Proof.
  intros Ho Hc. split; [|split; [|split]].
  - exact (guarded_runs_tool _ _ _ _ _ Ho Hc).
  - intros t df ctx pf.
    pose proof (guarded_runs_tool (BuildImage t df ctx pf)
                  (build_args t df ctx pf)
                  (Exn DockerCliError "Docker build failed.") _ _ Ho Hc)
      as Hrun.
    unfold docker.build_image, build_args in *.
    destruct pf as [[|a p]|]; exact Hrun.
  - intros src tgt. exact (guarded_runs_tool _ _ _ _ _ Ho Hc).
  - intros t. exact (guarded_runs_tool _ _ _ _ _ Ho Hc).
Qed.

(** X4.  With callbacks that return, [ensure_logged_in], [login_registry]
    and, for a non-empty tenant id, [login_tenant] each run exactly one
    [az] command, and an exit code other than 0 gives the operation's own
    [AzureCliError]; [login_tenant] with an empty tenant id raises without
    echoing or starting anything. *)
Theorem azure_logins_run_one_tool (on_output on_command : option callback) :
  quiet on_output -> quiet on_command ->
  runs_tool (azure.ensure_logged_in on_output on_command)
    ["az"; "account"; "show"] (Exn AzureCliError "Azure CLI is not logged in.")
    on_output on_command
  /\ (forall a,
      runs_tool (azure.login_registry a on_output on_command)
        ["az"; "acr"; "login"; "--name"; a]
        (Exn AzureCliError ("Failed to login to registry: " ++ a))
        on_output on_command)
  /\ (forall t, t <> "" ->
      runs_tool (azure.login_tenant t on_output on_command)
        ["az"; "login"; "--tenant"; t]
        (Exn AzureCliError ("Failed to login to tenant: " ++ t))
        on_output on_command)
  /\ (forall st,
      let run := azure.login_tenant "" on_output on_command st in
      fst run = Raise (Exn AzureCliError "Tenant id is required for login.")
      /\ spawned (snd run) = spawned st
      /\ heap (snd run) = heap st
      /\ world (snd run) = world st).
Proof.
  intros Ho Hc. split; [|split; [|split]].
  - exact (guarded_runs_tool _ _ _ _ _ Ho Hc).
  - intros a. exact (guarded_runs_tool _ _ _ _ _ Ho Hc).
  - intros t Ht.
    pose proof (guarded_runs_tool (LoginTenant t)
                  ["az"; "login"; "--tenant"; t]
                  (Exn AzureCliError ("Failed to login to tenant: " ++ t))
                  _ _ Ho Hc) as Hrun.
    unfold azure.login_tenant. destruct t as [|a t]; [now elim Ht|].
    exact Hrun.
  - intros st. repeat split.
Qed.

(** X5.  The command line is echoed before anything is run: when the
    [on_command] callback raises, an operation of [docker.py] starts no
    process and leaves the world as it is.  The exception passes
    unchanged, except that a [CommandError] raised by the callback is
    taken for a failure of the tool and becomes the operation's
    [DockerCliError]. *)
Theorem docker_echo_comes_first (on_output : option callback)
    (f : callback) :
  echo_comes_first (docker.ensure_available on_output (Some f))
    ["docker"; "info"] (Exn DockerCliError "Docker daemon is not running.") f
  /\ (forall t df ctx pf,
      echo_comes_first (docker.build_image t df ctx pf on_output (Some f))
        (build_args t df ctx pf) (Exn DockerCliError "Docker build failed.") f)
  /\ (forall src tgt,
      echo_comes_first (docker.tag_image src tgt on_output (Some f))
        ["docker"; "tag"; src; tgt] (Exn DockerCliError "Docker tag failed.") f)
  /\ (forall t,
      echo_comes_first (docker.push_image t on_output (Some f))
        ["docker"; "push"; t]
        (Exn DockerCliError ("Failed to push image: " ++ t)) f).
Proof.
  split; [|split; [|split]].
  - exact (entered_echo_comes_first _ _ _ _ _).
  - intros t df ctx pf.
    pose proof (fun body =>
                  @entered_echo_comes_first unit (BuildImage t df ctx pf)
                    (build_args t df ctx pf)
                    (Exn DockerCliError "Docker build failed.") f body)
      as Hrun.
    unfold docker.build_image, build_args in *.
    destruct pf as [[|a p]|]; apply Hrun.
  - intros src tgt. exact (entered_echo_comes_first _ _ _ _ _).
  - intros t. exact (entered_echo_comes_first _ _ _ _ _).
Qed.

End OneTool.

Lemma docker_operations_run_one_tool_witness :
  let run :=
    @docker.build_image (script_host noisy_failure small_fs) "reg/repo:1"
      (pathlib.of_str "Dockerfile") (pathlib.of_str ".") (Some "linux/amd64")
      (Some keep) (Some keep) (script_state noisy_failure small_fs) in
  fst run = Raise (Exn DockerCliError "Docker build failed.")
  /\ heap (snd run)
     = ["docker build --platform linux/amd64 -t reg/repo:1 -f Dockerfile .";
        "step 1"; ""; "error: denied"]
  /\ spawned (snd run)
     = [["docker"; "build"; "--platform"; "linux/amd64"; "-t"; "reg/repo:1";
         "-f"; "Dockerfile"; "."]].
Proof.
  pose proof (proj1 (proj2 (@docker_operations_run_one_tool
                              (script_host noisy_failure small_fs) (Some keep)
                              (Some keep) (fun x h => eq_refl)
                              (fun x h => eq_refl)))
                "reg/repo:1" (pathlib.of_str "Dockerfile")
                (pathlib.of_str ".") (Some "linux/amd64")
                (script_state noisy_failure small_fs)) as Hrun.
  destruct Hrun as ((Hr & Hh) & _ & Hs).
  split; [exact Hr|split; [exact Hh|exact Hs]].
Defined.

Lemma azure_logins_run_one_tool_witness :
  let H := script_host silent_failure small_fs in
  fst (@azure.login_registry H "myacr" None None
         (script_state silent_failure small_fs))
  = Raise (Exn AzureCliError "Failed to login to registry: myacr")
  /\ fst (@azure.login_tenant H "t-1" None None
            (script_state silent_failure small_fs))
     = Raise (Exn AzureCliError "Failed to login to tenant: t-1").
Proof.
  pose (H := script_host silent_failure small_fs).
  split.
  - exact (proj1 (proj1 (proj1 (proj2 (@azure_logins_run_one_tool H None None
                                         I I)) "myacr"
                           (script_state silent_failure small_fs)))).
  - refine (proj1 (proj1 (proj1 (proj2 (proj2 (@azure_logins_run_one_tool H
                                                 None None I I))) "t-1" _
                            (script_state silent_failure small_fs)))).
    discriminate.
Defined.

Lemma docker_echo_comes_first_witness :
  let H := script_host quiet_success small_fs in
  let st := script_state quiet_success small_fs in
  fst (@docker.push_image H "reg/repo:1" None
         (Some (raising (Exn RuntimeError "closed"))) st)
  = Raise (Exn RuntimeError "closed")
  /\ fst (@docker.push_image H "reg/repo:1" None
            (Some (raising (Exn CommandError "odd"))) st)
     = Raise (Exn DockerCliError "Failed to push image: reg/repo:1")
  /\ spawned (snd (@docker.push_image H "reg/repo:1" None
                     (Some (raising (Exn CommandError "odd"))) st))
     = [].
Proof.
  pose (H := script_host quiet_success small_fs).
  pose (st := script_state quiet_success small_fs).
  split; [|split].
  - exact (proj1 (proj2 (proj2 (proj2 (@docker_echo_comes_first H None
                                         (raising (Exn RuntimeError "closed")))))
                   "reg/repo:1" st (Exn RuntimeError "closed")
                   ["docker push reg/repo:1"] eq_refl)).
  - exact (proj1 (proj2 (proj2 (proj2 (@docker_echo_comes_first H None
                                         (raising (Exn CommandError "odd")))))
                   "reg/repo:1" st (Exn CommandError "odd")
                   ["docker push reg/repo:1"] eq_refl)).
  - exact (proj1 (proj2 (proj2 (proj2 (proj2 (@docker_echo_comes_first H None
                                         (raising (Exn CommandError "odd")))))
                   "reg/repo:1" st (Exn CommandError "odd")
                   ["docker push reg/repo:1"] eq_refl))).
Defined.

(** ** [_split_tsv_lines] *)

Lemma all_chars_lstrip (p : ascii -> bool) (s : string) :
  Py.all_chars p s = true -> Py.all_chars p (Py.lstrip s) = true.
Proof.
  induction s as [|a s IH]; simpl; [reflexivity|]. intros Hs.
  destruct (Py.is_space_char a); [|exact Hs].
  apply andb_true_iff in Hs. now apply IH.
Qed.

Lemma all_chars_rstrip (p : ascii -> bool) (s : string) :
  Py.all_chars p s = true -> Py.all_chars p (Py.rstrip s) = true.
Proof.
  induction s as [|a s IH]; simpl; [reflexivity|]. intros Hs.
  apply andb_true_iff in Hs. destruct Hs as [Ha Hs]. specialize (IH Hs).
  destruct (Py.rstrip s) as [|b t].
  - destruct (Py.is_space_char a); simpl; [reflexivity|now rewrite Ha].
  - simpl in *. now rewrite Ha, IH.
Qed.

Lemma all_chars_strip (p : ascii -> bool) (s : string) :
  Py.all_chars p s = true -> Py.all_chars p (Py.strip s) = true.
Proof.
  intros Hs. unfold Py.strip. now apply all_chars_rstrip, all_chars_lstrip.
Qed.

Lemma lstrip_starts_clean (s : string) : starts_clean (Py.lstrip s) = true.
Proof.
  induction s as [|a s IH]; simpl; [reflexivity|].
  destruct (Py.is_space_char a) eqn:E; [exact IH|]. simpl. now rewrite E.
Qed.

Lemma rstrip_starts_clean (s : string) :
  starts_clean s = true -> starts_clean (Py.rstrip s) = true.
Proof.
  destruct s as [|a s]; simpl; [reflexivity|]. intros Ha.
  apply negb_true_iff in Ha. rewrite Ha.
  destruct (Py.rstrip s); simpl; now rewrite Ha.
Qed.

Lemma rstrip_ends_clean (s : string) : ends_clean (Py.rstrip s) = true.
Proof.
  induction s as [|a s IH]; simpl; [reflexivity|].
  destruct (Py.rstrip s) as [|b t] eqn:E.
  - destruct (Py.is_space_char a) eqn:Ea; simpl; [reflexivity|now rewrite Ea].
  - simpl in *. exact IH.
Qed.

Lemma strip_clean_ends (s : string) :
  starts_clean (Py.strip s) = true /\ ends_clean (Py.strip s) = true.
Proof.
  unfold Py.strip. split.
  - apply rstrip_starts_clean, lstrip_starts_clean.
  - apply rstrip_ends_clean.
Qed.

Lemma split_pieces_free (c : ascii) (s : string) (piece : string) :
  In piece (Py.split c s) ->
  Py.all_chars (fun a => negb (Ascii.eqb a c)) piece = true.
Proof.
  revert piece. induction s as [|a s IH]; simpl; intros piece.
  - intros [<-|[]]. reflexivity.
  - destruct (Ascii.eqb a c) eqn:E.
    + intros [<-|Hin]; [reflexivity|now apply IH].
    + pose proof (split_not_nil c s) as Hne.
      destruct (Py.split c s) as [|p ps]; [now elim Hne|].
      intros [<-|Hin].
      * simpl. rewrite E. simpl. apply IH. now left.
      * apply IH. now right.
Qed.

Lemma splitlines_pieces_free (after_cr : bool) (s : string) (piece : string) :
  In piece (azure.splitlines_from after_cr s) ->
  Py.all_chars (fun a => negb (azure.is_linebreak a)) piece = true.
Proof.
  revert after_cr piece. induction s as [|a s IH]; simpl; intros after_cr piece.
  - intros [].
  - destruct (after_cr && Ascii.eqb a "010"%char); [apply IH|].
    destruct (azure.is_linebreak a) eqn:E.
    + intros [<-|Hin]; [reflexivity|now apply IH in Hin].
    + destruct (azure.splitlines_from false s) as [|l ls] eqn:El.
      * intros [<-|[]]. simpl. now rewrite E.
      * intros [<-|Hin].
        -- simpl. rewrite E. simpl. apply (IH false). rewrite El. now left.
        -- apply (IH false). rewrite El. now right.
Qed.

Lemma all_chars_sub (p : ascii -> bool) (s t : string) :
  Py.all_chars p (s ++ t) = Py.all_chars p s && Py.all_chars p t.
Proof.
  induction s as [|a s IH]; simpl; [reflexivity|].
  now rewrite IH, andb_assoc.
Qed.

Lemma split_pieces_all (p : ascii -> bool) (c : ascii) (s piece : string) :
  Py.all_chars p s = true ->
  In piece (Py.split c s) ->
  Py.all_chars p piece = true.
Proof.
  revert piece. induction s as [|a s IH]; simpl; intros piece Hs.
  - intros [<-|[]]. reflexivity.
  - apply andb_true_iff in Hs. destruct Hs as [Ha Hs].
    destruct (Ascii.eqb a c).
    + intros [<-|Hin]; [reflexivity|now apply IH].
    + pose proof (split_not_nil c s) as Hnil.
      destruct (Py.split c s) as [|q qs]; [now elim Hnil|].
      intros [<-|Hin].
      * simpl. rewrite Ha. simpl. apply IH; [exact Hs|now left].
      * apply IH; [exact Hs|now right].
Qed.

(** X6.  Every line [_split_tsv_lines] returns has at least one field, and
    every field is not empty, holds no tab and no line break, and neither
    begins nor ends with white space. *)
Theorem split_tsv_lines_fields_clean (result : subprocess_runner.CommandResult)
    (line : list string) :
  In line (azure._split_tsv_lines result) ->
  line <> [] /\ forall field, In field line -> clean_field field = true.
Proof.
  unfold azure._split_tsv_lines. intros Hin.
  apply filter_In in Hin. destruct Hin as [Hin Hne].
  split; [destruct line; [discriminate Hne|discriminate]|].
  apply in_map_iff in Hin. destruct Hin as (raw & <- & Hraw).
  intros field Hf. apply in_map_iff in Hf. destruct Hf as (part & <- & Hpart).
  apply filter_In in Hpart. destruct Hpart as [Hpart Htruthy].
  unfold clean_field. rewrite Htruthy.
  destruct (strip_clean_ends part) as [-> ->].
  rewrite (all_chars_strip _ part (split_pieces_free tab_char raw part Hpart)).
  rewrite (all_chars_strip _ part).
  - reflexivity.
  - apply split_pieces_all with (c := tab_char) (s := raw); [|exact Hpart].
    exact (splitlines_pieces_free false _ raw Hraw).
Qed.

Lemma split_tsv_lines_fields_clean_witness :
  ["reg"; "my rg"; "reg.azurecr.io"] <> []
  /\ forall field, In field ["reg"; "my rg"; "reg.azurecr.io"] ->
                   clean_field field = true.
Proof.
  apply (split_tsv_lines_fields_clean
           (subprocess_runner.mkCommandResult
              ("reg" ++ tab ++ " my rg " ++ tab ++ tab ++ "reg.azurecr.io"
                 ++ subprocess_runner.newline ++ tab ++ " ")
              "" 0)).
  vm_compute. left. reflexivity.
Defined.

(** *** Reading back a table *)

Lemma split_join (c : ascii) (fields : list string) :
  fields <> [] ->
  (forall f, In f fields ->
             Py.all_chars (fun a => negb (Ascii.eqb a c)) f = true) ->
  Py.split c (Py.join (String c "") fields) = fields.
Proof.
  induction fields as [|x [|y rest] IH]; intros Hne Hall.
  - now elim Hne.
  - simpl. apply split_no_sep. apply Hall. now left.
  - change (Py.join (String c "") (x :: y :: rest))
      with (x ++ String c (Py.join (String c "") (y :: rest))).
    rewrite split_app_sep by (apply Hall; now left).
    rewrite IH; [reflexivity|discriminate|].
    intros f Hf. apply Hall. now right.
Qed.

Lemma all_chars_join (p : ascii -> bool) (sep : string) (xs : list string) :
  Py.all_chars p sep = true ->
  (forall x, In x xs -> Py.all_chars p x = true) ->
  Py.all_chars p (Py.join sep xs) = true.
Proof.
  intros Hsep. induction xs as [|x [|y rest] IH]; intros Hall.
  - reflexivity.
  - simpl. apply Hall. now left.
  - change (Py.join sep (x :: y :: rest))
      with (x ++ sep ++ Py.join sep (y :: rest)).
    rewrite !all_chars_sub, Hsep, (Hall x (or_introl eq_refl)), IH;
      [reflexivity|].
    intros z Hz. apply Hall. now right.
Qed.

Lemma join_truthy (sep : string) (x : string) (xs : list string) :
  Py.truthy x = true -> Py.truthy (Py.join sep (x :: xs)) = true.
Proof.
  destruct x as [|a x]; [discriminate|]. intros _.
  destruct xs; reflexivity.
Qed.

Lemma splitlines_app_newline (l rest : string) :
  Py.all_chars (fun a => negb (azure.is_linebreak a)) l = true ->
  azure.splitlines_from false (l ++ String "010"%char rest)
  = l :: azure.splitlines_from false rest.
Proof.
  induction l as [|a l IH]; intros Hl.
  - reflexivity.
  - simpl in Hl. apply andb_true_iff in Hl. destruct Hl as [Ha Hl].
    apply negb_true_iff in Ha.
    change ((String a l ++ String "010"%char rest))
      with (String a (l ++ String "010"%char rest)).
    simpl azure.splitlines_from. rewrite Ha, (IH Hl). reflexivity.
Qed.

Lemma splitlines_one_line (l : string) :
  Py.truthy l = true ->
  Py.all_chars (fun a => negb (azure.is_linebreak a)) l = true ->
  azure.splitlines_from false l = [l].
Proof.
  induction l as [|a l IH]; [discriminate|]. intros _ Hl.
  simpl in Hl. apply andb_true_iff in Hl. destruct Hl as [Ha Hl].
  apply negb_true_iff in Ha. simpl azure.splitlines_from. rewrite Ha.
  destruct l as [|b l]; [reflexivity|].
  rewrite IH; [reflexivity|reflexivity|exact Hl].
Qed.

Lemma splitlines_join (lines : list string) :
  (forall l, In l lines ->
             Py.truthy l = true
             /\ Py.all_chars (fun a => negb (azure.is_linebreak a)) l = true) ->
  azure.splitlines (Py.join subprocess_runner.newline lines) = lines.
Proof.
  unfold azure.splitlines.
  induction lines as [|x [|y rest] IH]; intros Hall.
  - reflexivity.
  - simpl. destruct (Hall x (or_introl eq_refl)) as [Ht Hl].
    now apply splitlines_one_line.
  - change (Py.join subprocess_runner.newline (x :: y :: rest))
      with (x ++ String "010"%char
                   (Py.join subprocess_runner.newline (y :: rest))).
    rewrite splitlines_app_newline
      by (apply (Hall x); now left).
    rewrite IH; [reflexivity|]. intros l Hl. apply Hall. now right.
Qed.

Lemma lstrip_clean (s : string) : starts_clean s = true -> Py.lstrip s = s.
Proof.
  destruct s as [|a s]; simpl; [reflexivity|]. intros Ha.
  apply negb_true_iff in Ha. now rewrite Ha.
Qed.

Lemma rstrip_clean (s : string) : ends_clean s = true -> Py.rstrip s = s.
Proof.
  induction s as [|a s IH]; [reflexivity|]. intros He.
  destruct s as [|b s].
  - simpl in *. apply negb_true_iff in He. now rewrite He.
  - change (ends_clean (String a (String b s)))
      with (ends_clean (String b s)) in He.
    change (Py.rstrip (String a (String b s)))
      with (match Py.rstrip (String b s) with
            | EmptyString => if Py.is_space_char a then "" else String a ""
            | String _ _ as t => String a t
            end).
    rewrite (IH He). reflexivity.
Qed.

Lemma strip_clean (s : string) :
  starts_clean s = true -> ends_clean s = true -> Py.strip s = s.
Proof.
  intros Hs He. unfold Py.strip. now rewrite (lstrip_clean s Hs), rstrip_clean.
Qed.

Lemma clean_field_parts (f : string) :
  clean_field f = true ->
  Py.truthy f = true
  /\ Py.all_chars (fun a => negb (Ascii.eqb a tab_char)) f = true
  /\ Py.all_chars (fun a => negb (azure.is_linebreak a)) f = true
  /\ starts_clean f = true /\ ends_clean f = true.
Proof.
  unfold clean_field. rewrite !andb_true_iff. tauto.
Qed.

Lemma strip_fields (row : list string) :
  (forall f, In f row -> clean_field f = true) ->
  map Py.strip (filter (fun part => Py.truthy (Py.strip part)) row) = row.
Proof.
  induction row as [|f row IH]; intros Hall; [reflexivity|].
  destruct (clean_field_parts f (Hall f (or_introl eq_refl)))
    as (Ht & _ & _ & Hs & He).
  simpl. rewrite (strip_clean f Hs He), Ht. simpl.
  rewrite (strip_clean f Hs He), IH; [reflexivity|].
  intros g Hg. apply Hall. now right.
Qed.

Lemma clean_row_line (row : list string) :
  row <> [] ->
  (forall f, In f row -> clean_field f = true) ->
  Py.truthy (Py.join tab row) = true
  /\ Py.all_chars (fun a => negb (azure.is_linebreak a)) (Py.join tab row)
     = true
  /\ Py.split tab_char (Py.join tab row) = row.
Proof.
  intros Hne Hall. split; [|split].
  - destruct row as [|f row]; [now elim Hne|].
    apply join_truthy. apply clean_field_parts. apply Hall. now left.
  - apply all_chars_join; [reflexivity|].
    intros f Hf. apply clean_field_parts. now apply Hall.
  - apply split_join; [exact Hne|].
    intros f Hf. apply clean_field_parts. now apply Hall.
Qed.

Lemma clean_table_rows (rows : list (list string)) :
  clean_table rows = true ->
  forall row, In row rows ->
              row <> [] /\ forall f, In f row -> clean_field f = true.
Proof.
  unfold clean_table. rewrite forallb_forall. intros Hall row Hin.
  specialize (Hall row Hin). destruct row as [|f row]; [discriminate|].
  split; [discriminate|]. now apply forallb_forall.
Qed.

(** A result whose output is the text of a clean table is split into the
    rows of the table. *)
Lemma split_tsv_lines_of_text (rows : list (list string))
    (result : subprocess_runner.CommandResult) :
  clean_table rows = true ->
  subprocess_runner.stdout result = tsv_text rows ->
  azure._split_tsv_lines result = rows.
Proof.
  intros Hclean Hout. pose proof (clean_table_rows rows Hclean) as Hrows.
  unfold azure._split_tsv_lines. rewrite Hout. unfold tsv_text.
  rewrite splitlines_join.
  - rewrite map_map. clear Hclean Hout.
    induction rows as [|row rows IH]; [reflexivity|].
    destruct (Hrows row (or_introl eq_refl)) as [Hne Hall].
    destruct (clean_row_line row Hne Hall) as (_ & _ & Hsplit).
    unfold tab_char in Hsplit.
    rewrite map_cons, Hsplit, (strip_fields row Hall).
    destruct row as [|f row]; [now elim Hne|].
    cbn [filter]. rewrite IH; [reflexivity|].
    intros r Hr. apply Hrows. now right.
  - intros l Hl. apply in_map_iff in Hl. destruct Hl as (row & <- & Hrow).
    destruct (Hrows row Hrow) as [Hne Hall].
    destruct (clean_row_line row Hne Hall) as (Ht & Hlb & _). now split.
Qed.

(** X7.  [_split_tsv_lines] reads a table back: for rows that are not
    empty, of fields that are not empty, hold no tab and no line break and
    have no white space at either end, the lines of the text that joins
    the fields by tabs and the rows by line feeds are the rows, in
    order. *)
Theorem split_tsv_lines_reads_table (rows : list (list string))
    (stderr : string) (rc : Z) :
  clean_table rows = true ->
  azure._split_tsv_lines
    (subprocess_runner.mkCommandResult (tsv_text rows) stderr rc)
  = rows.
Proof.
  intros Hclean. now apply split_tsv_lines_of_text.
Qed.

Lemma split_tsv_lines_reads_table_witness :
  azure._split_tsv_lines
    (subprocess_runner.mkCommandResult
       (tsv_text [["acr1"; "rg one"; "acr1.azurecr.io"]; ["repo/a"]]) "" 0)
  = [["acr1"; "rg one"; "acr1.azurecr.io"]; ["repo/a"]].
Proof.
  apply (split_tsv_lines_reads_table
           [["acr1"; "rg one"; "acr1.azurecr.io"]; ["repo/a"]] "" 0).
  reflexivity.
Defined.

(** *** The text of a clean table is its own stripped form *)

Lemma starts_clean_app (s t : string) :
  Py.truthy s = true -> starts_clean (s ++ t) = starts_clean s.
Proof. destruct s; [discriminate|reflexivity]. Qed.

Lemma truthy_app_r (s t : string) :
  Py.truthy t = true -> Py.truthy (s ++ t) = true.
Proof. intros Ht. destruct s; [exact Ht|reflexivity]. Qed.

Lemma ends_clean_app (s t : string) :
  Py.truthy t = true -> ends_clean (s ++ t) = ends_clean t.
Proof.
  intros Ht. induction s as [|a s IH]; [reflexivity|].
  pose proof (truthy_app_r s t Ht) as Hst.
  change (String a s ++ t) with (String a (s ++ t)).
  destruct (s ++ t) as [|b u] eqn:E; [discriminate Hst|].
  change (ends_clean (String a (String b u))) with (ends_clean (String b u)).
  exact IH.
Qed.

Lemma starts_clean_join (sep x : string) (xs : list string) :
  Py.truthy x = true -> starts_clean x = true ->
  starts_clean (Py.join sep (x :: xs)) = true.
Proof.
  intros Ht Hs. destruct xs as [|y rest]; [exact Hs|].
  change (Py.join sep (x :: y :: rest))
    with (x ++ sep ++ Py.join sep (y :: rest)).
  now rewrite starts_clean_app.
Qed.

Lemma ends_clean_join (sep : string) (xs : list string) :
  xs <> [] ->
  (forall x, In x xs -> Py.truthy x = true /\ ends_clean x = true) ->
  ends_clean (Py.join sep xs) = true.
Proof.
  induction xs as [|x [|y rest] IH]; intros Hne Hall.
  - now elim Hne.
  - simpl. apply Hall. now left.
  - change (Py.join sep (x :: y :: rest))
      with (x ++ sep ++ Py.join sep (y :: rest)).
    assert (Hrest : forall z, In z (y :: rest) ->
                              Py.truthy z = true /\ ends_clean z = true).
    { intros z Hz. apply Hall. now right. }
    assert (Ht : Py.truthy (Py.join sep (y :: rest)) = true).
    { apply join_truthy. apply Hrest. now left. }
    rewrite ends_clean_app by now apply truthy_app_r.
    rewrite ends_clean_app by exact Ht.
    apply IH; [discriminate|exact Hrest].
Qed.

Lemma clean_row_ends (row : list string) :
  row <> [] ->
  (forall f, In f row -> clean_field f = true) ->
  starts_clean (Py.join tab row) = true /\ ends_clean (Py.join tab row) = true.
Proof.
  intros Hne Hall. split.
  - destruct row as [|f row]; [now elim Hne|].
    destruct (clean_field_parts f (Hall f (or_introl eq_refl)))
      as (Ht & _ & _ & Hs & _).
    now apply starts_clean_join.
  - apply ends_clean_join; [exact Hne|].
    intros f Hf. destruct (clean_field_parts f (Hall f Hf))
      as (Ht & _ & _ & _ & He). now split.
Qed.

Lemma strip_tsv_text (rows : list (list string)) :
  clean_table rows = true -> Py.strip (tsv_text rows) = tsv_text rows.
Proof.
  intros Hclean. pose proof (clean_table_rows rows Hclean) as Hrows.
  destruct rows as [|row rows]; [reflexivity|].
  unfold tsv_text. apply strip_clean.
  - rewrite map_cons.
    destruct (Hrows row (or_introl eq_refl)) as [Hne Hall].
    apply starts_clean_join.
    + now apply clean_row_line.
    + now apply clean_row_ends.
  - apply ends_clean_join; [discriminate|].
    intros l Hl. apply in_map_iff in Hl. destruct Hl as (r & <- & Hr).
    destruct (Hrows r Hr) as [Hne Hall]. split.
    + now apply clean_row_line.
    + now apply clean_row_ends.
Qed.

(** ** The queries of [azure.py] *)

Section AzureQueries.
Context {H : Host}.

Lemma guarded_query_quiet (args : list string) (failure : exn)
    (on_output on_command : option callback) (st : State) :
  quiet on_output -> quiet on_command ->
  try_except
    (call_if_given on_command (command_line args) ;;
     subprocess_runner.run_command args true on_output)
    is_CommandError (fun _ => raise failure) st
  = let echoed := given on_command (command_line args) (heap st) in
    match fst (popen args (world st)) with
    | SpawnFailed message =>
        (Raise (Exn OSError message),
         after_process st args (snd (popen args (world st))) echoed)
    | SpawnRefused message =>
        (Raise (Exn ValueError message),
         after_process st args (snd (popen args (world st))) echoed)
    | Spawned lines rc =>
        (if (rc =? 0)%Z
         then Ok (subprocess_runner.mkCommandResult
                    (Py.strip (Py.join subprocess_runner.newline lines))
                    "" rc)
         else Raise failure,
         after_process st args (snd (popen args (world st)))
           (fed on_output lines echoed))
    | Undecodable lines message =>
        (Raise (Exn ValueError message),
         after_process st args (snd (popen args (world st)))
           (fed on_output lines echoed))
    end.
Proof.
  intros Ho Hc.
  pose proof (guarded_quiet args failure on_output on_command (fun r => r) st
                Ho Hc) as E.
  unfold try_except, bind in *.
  destruct (call_if_given on_command (command_line args) st) as [[[]|e] st1];
    [|exact E].
  destruct (subprocess_runner.run_command args true on_output st1)
    as [[r|e] st2]; exact E.
Qed.

Lemma unguarded_quiet {A} (args : list string)
    (on_output on_command : option callback)
    (k : subprocess_runner.CommandResult -> A) (st : State) :
  quiet on_output -> quiet on_command ->
  (call_if_given on_command (command_line args) ;;
   r <- subprocess_runner.run_command args true on_output ;;
   ret (k r)) st
  = let echoed := given on_command (command_line args) (heap st) in
    match fst (popen args (world st)) with
    | SpawnFailed message =>
        (Raise (Exn OSError message),
         after_process st args (snd (popen args (world st))) echoed)
    | SpawnRefused message =>
        (Raise (Exn ValueError message),
         after_process st args (snd (popen args (world st))) echoed)
    | Spawned lines rc =>
        let stdout := Py.strip (Py.join subprocess_runner.newline lines) in
        (if (rc =? 0)%Z
         then Ok (k (subprocess_runner.mkCommandResult stdout "" rc))
         else Raise (Exn CommandError
                       (if Py.truthy stdout then stdout else "Command failed.")),
         after_process st args (snd (popen args (world st)))
           (fed on_output lines echoed))
    | Undecodable lines message =>
        (Raise (Exn ValueError message),
         after_process st args (snd (popen args (world st)))
           (fed on_output lines echoed))
    end.
Proof.
  intros Ho Hc. unfold bind.
  assert (Hecho : call_if_given on_command (command_line args) st
                  = (Ok tt, mkState (world st)
                              (given on_command (command_line args) (heap st))
                              (spawned st) (calls st))).
  { destruct on_command as [f|]; simpl.
    - unfold invoke. specialize (Hc (command_line args) (heap st)).
      destruct (f (command_line args) (heap st)) as [r h]. simpl in *.
      now rewrite Hc.
    - destruct st; reflexivity. }
  rewrite Hecho, (run_command_quiet args true on_output _ Ho). simpl.
  destruct (popen args (world st))
    as [[message|message|lines rc|lines message] w]; simpl;
    try reflexivity.
  destruct (rc =? 0)%Z; reflexivity.
Qed.

Lemma registries_of_rows (rs : list azure.AcrRegistry) :
  flat_map
    (fun line =>
       match line with
       | [n; rg; ls] => [azure.mkAcrRegistry n rg ls]
       | _ => []
       end)
    (map registry_row rs)
  = rs.
Proof.
  induction rs as [|[n rg ls] rs IH]; [reflexivity|].
  simpl. now rewrite IH.
Qed.

Lemma registry_table_clean (rs : list azure.AcrRegistry) :
  (forall r, In r rs -> forallb clean_field (registry_row r) = true) ->
  clean_table (map registry_row rs) = true.
Proof.
  intros Hall. unfold clean_table. apply forallb_forall.
  intros row Hrow. apply in_map_iff in Hrow.
  destruct Hrow as (r & <- & Hr). exact (Hall r Hr).
Qed.

(** X8.  When [az acr list] exits with 0 after printing one line for each
    registry, its name, resource group and login server separated by
    tabs (each a clean field), [list_registries] returns these registries,
    all of them and in the order printed. *)
Theorem list_registries_in_order (rs : list azure.AcrRegistry)
    (on_output on_command : option callback) (st : State) (w : World) :
  quiet on_output -> quiet on_command ->
  (forall r, In r rs -> forallb clean_field (registry_row r) = true) ->
  popen ["az"; "acr"; "list"; "--query";
         "[].{Name:name,RG:resourceGroup,LS:loginServer}"; "-o"; "tsv"]
    (world st)
  = (Spawned (map (fun r => Py.join tab (registry_row r)) rs) 0%Z, w) ->
  fst (azure.list_registries on_output on_command st) = Ok rs.
Proof.
  intros Ho Hc Hclean Hp.
  pose proof (registry_table_clean rs Hclean) as Htable.
  unfold azure.list_registries, azure._emit_command.
  rewrite entered_then. unfold bind at 1.
  change (Py.join " " (map shlex.quote ?a)) with (command_line a).
  cbv zeta.
  rewrite (guarded_query_quiet _ _ on_output on_command _ Ho Hc).
  simpl world. rewrite Hp. simpl.
  rewrite <- (map_map registry_row (Py.join tab)).
  fold (tsv_text (map registry_row rs)).
  rewrite (strip_tsv_text _ Htable).
  rewrite (split_tsv_lines_of_text (map registry_row rs)
         (subprocess_runner.mkCommandResult (tsv_text (map registry_row rs)) "" 0%Z)
         Htable eq_refl).
  now rewrite registries_of_rows.
Qed.

End AzureQueries.

Lemma list_registries_in_order_witness :
  fst (@azure.list_registries (script_host registry_script small_fs)
         (Some keep) (Some keep) (script_state registry_script small_fs))
  = Ok two_registries.
Proof.
  apply (@list_registries_in_order (script_host registry_script small_fs)
           two_registries (Some keep) (Some keep)
           (script_state registry_script small_fs) tt
           (fun x h => eq_refl) (fun x h => eq_refl)).
  - intros r [<-|[<-|[]]]; reflexivity.
  - reflexivity.
Defined.

Section NameQueries.
Context {H : Host}.

Lemma first_columns_names (names : list string) :
  azure.first_columns (map (fun n => [n]) names) = names.
Proof.
  induction names as [|n names IH]; [reflexivity|]. simpl. now rewrite IH.
Qed.

Lemma names_table (names : list string) :
  (forall n, In n names -> clean_field n = true) ->
  clean_table (map (fun n => [n]) names) = true
  /\ tsv_text (map (fun n => [n]) names)
     = Py.join subprocess_runner.newline names.
Proof.
  intros Hall. split.
  - unfold clean_table. apply forallb_forall. intros row Hrow.
    apply in_map_iff in Hrow. destruct Hrow as (n & <- & Hn).
    simpl. now rewrite (Hall n Hn).
  - unfold tsv_text. rewrite map_map. f_equal.
    induction names as [|n names IH]; [reflexivity|].
    simpl. f_equal. apply IH. intros m Hm. apply Hall. now right.
Qed.

Lemma name_query_lists_names (c : gateway_call) (args : list string)
    (on_output on_command : option callback) :
  quiet on_output -> quiet on_command ->
  lists_names
    (entered c ;;
     call_if_given on_command (command_line args) ;;
     result <- subprocess_runner.run_command args true on_output ;;
     ret (azure.first_columns (azure._split_tsv_lines result)))
    args.
Proof.
  intros Ho Hc st.
  rewrite entered_then, (unguarded_quiet args on_output on_command _ _ Ho Hc).
  simpl world. simpl heap.
  destruct (popen args (world st))
    as [[message|message|lines rc|lines message] w]; simpl;
    (split; [reflexivity|]); try reflexivity.
  destruct (rc =? 0)%Z eqn:Erc; split.
  - intros Hrc. apply Z.eqb_eq in Erc. now elim Hrc.
  - intros _ Hall. destruct (names_table lines Hall) as [Htable Htext].
    rewrite <- Htext, (strip_tsv_text _ Htable),
      (split_tsv_lines_of_text (map (fun n => [n]) lines)
         (subprocess_runner.mkCommandResult (tsv_text (map (fun n => [n]) lines)) "" rc)
         Htable eq_refl).
    now rewrite first_columns_names.
  - intros _. eexists. split; [|reflexivity].
    destruct (Py.strip _); discriminate.
  - intros Hrc. apply Z.eqb_neq in Erc. now elim Erc.
Qed.

(** X9.  With callbacks that return, [list_repositories] and [list_tags]
    each start one [az acr repository] command and return the names it
    prints, one on a line, in the order printed.  Unlike the other
    operations of [azure.py] they do not translate a failure: an exit code
    other than 0 surfaces as the [CommandError] of [run_command], never as
    an [AzureCliError]. *)
Theorem name_queries_raise_command_error
    (on_output on_command : option callback) :
  quiet on_output -> quiet on_command ->
  (forall a,
      lists_names (azure.list_repositories a on_output on_command)
        ["az"; "acr"; "repository"; "list"; "--name"; a; "-o"; "tsv"])
  /\ (forall a r,
      lists_names (azure.list_tags a r on_output on_command)
        ["az"; "acr"; "repository"; "show-tags"; "--name"; a;
         "--repository"; r; "-o"; "tsv"]).
Proof.
  intros Ho Hc. split.
  - intros a.
    exact (name_query_lists_names (ListRepositories a)
             ["az"; "acr"; "repository"; "list"; "--name"; a; "-o"; "tsv"]
             _ _ Ho Hc).
  - intros a r.
    exact (name_query_lists_names (ListTags a r)
             ["az"; "acr"; "repository"; "show-tags"; "--name"; a;
              "--repository"; r; "-o"; "tsv"] _ _ Ho Hc).
Qed.

End NameQueries.

Lemma name_queries_raise_command_error_witness :
  fst (@azure.list_tags (script_host registry_script small_fs) "acr1" "app"
         None None (script_state registry_script small_fs))
  = Raise (Exn CommandError "ERROR: not found").
Proof.
  pose proof (proj2 (@name_queries_raise_command_error
                       (script_host registry_script small_fs) None None I I)
                "acr1" "app" (script_state registry_script small_fs))
    as [_ Hrun].
  destruct Hrun as [Hfail _].
  destruct Hfail as (message & _ & Hr); [discriminate|].
  rewrite Hr. vm_compute in Hr. injection Hr as <-. reflexivity.
Defined.

(** ** [show_registry] and [resolve_registry] *)

Section Registry.
Context {H : Host}.

Lemma bind_run {A B} (m : M A) (k : A -> M B) (st : State) :
  bind m k st
  = match fst (m st) with
    | Ok a => k a (snd (m st))
    | Raise e => (Raise e, snd (m st))
    end.
Proof. unfold bind. destruct (m st) as [[a|e] st1]; reflexivity. Qed.

Lemma show_registry_quiet (a rg : string)
    (on_output on_command : option callback) (st : State) :
  quiet on_output -> quiet on_command ->
  fst (azure.show_registry a rg on_output on_command st)
  = match fst (popen (show_args a rg) (world st)) with
    | SpawnFailed message => Raise (Exn OSError message)
    | SpawnRefused message => Raise (Exn ValueError message)
    | Spawned lines rc =>
        if (rc =? 0)%Z
        then match azure._split_tsv_lines
                     (subprocess_runner.mkCommandResult
                        (Py.strip (Py.join subprocess_runner.newline lines))
                        "" rc) with
             | [n; g; l] :: _ => Ok (azure.mkAcrRegistry n g l)
             | _ => Raise (Exn AzureCliError "Unexpected registry response.")
             end
        else Raise (Exn AzureCliError ("Registry not found: " ++ a))
    | Undecodable _ message => Raise (Exn ValueError message)
    end
  /\ spawned (snd (azure.show_registry a rg on_output on_command st))
     = (spawned st ++ [show_args a rg])%list.
Proof.
  intros Ho Hc. unfold azure.show_registry, azure._emit_command.
  rewrite entered_then, bind_run. cbv zeta.
  change (Py.join " " (map shlex.quote ?x)) with (command_line x).
  fold (show_args a rg).
  rewrite (guarded_query_quiet (show_args a rg) _ on_output on_command _
             Ho Hc).
  simpl world. simpl heap.
  destruct (popen (show_args a rg) (world st))
    as [[message|message|lines rc|lines message] w];
    simpl; try (split; reflexivity).
  destruct (rc =? 0)%Z; simpl; [|split; reflexivity].
  destruct (azure._split_tsv_lines _) as [|[|n [|g [|l [|x line]]]] rest];
    split; reflexivity.
Qed.

(** X10.  [resolve_registry] starts the one command [az acr show] and
    never lets an [AzureCliError] through: an exit code other than 0 gives
    [WorkflowError] with the message ["Registry not found: <name>"], an
    output whose first line has not exactly three fields gives
    [WorkflowError] with ["Unexpected registry response."], and a line of
    three clean fields gives the registry made of them. *)
Theorem resolve_registry_outcomes (a rg : string) (st : State) :
  let run := workflow.resolve_registry a rg st in
  spawned (snd run) = (spawned st ++ [show_args a rg])%list
  /\ (forall e, fst run = Raise e -> exn_cls e <> AzureCliError)
  /\ (forall lines rc w,
        popen (show_args a rg) (world st) = (Spawned lines rc, w) ->
        (rc <> 0%Z ->
         fst run = Raise (Exn WorkflowError ("Registry not found: " ++ a)))
        /\ (rc = 0%Z ->
            forall r, forallb clean_field (registry_row r) = true ->
                      lines = [Py.join tab (registry_row r)] ->
                      fst run = Ok r)
        /\ (rc = 0%Z ->
            (forall n g l rest,
                azure._split_tsv_lines
                  (subprocess_runner.mkCommandResult
                     (Py.strip (Py.join subprocess_runner.newline lines))
                     "" rc)
                <> [n; g; l] :: rest) ->
            fst run
            = Raise (Exn WorkflowError "Unexpected registry response."))).
Proof.
  intros run.
  destruct (show_registry_quiet a rg None None st I I) as [Hr Hs].
  assert (Hrun : fst run
                 = match fst (azure.show_registry a rg None None st) with
                   | Ok r => Ok r
                   | Raise e =>
                       if is_AzureCliError (exn_cls e)
                       then Raise (Exn WorkflowError (exn_str e))
                       else Raise e
                   end
                 /\ snd run = snd (azure.show_registry a rg None None st)).
  { unfold run, workflow.resolve_registry, try_except.
    destruct (azure.show_registry a rg None None st) as [[r|e] st1]; simpl;
      [split; reflexivity|].
    destruct (is_AzureCliError (exn_cls e)); split; reflexivity. }
  destruct Hrun as [Hrun Hstate]. rewrite Hstate, Hs, Hrun, Hr.
  split; [reflexivity|]. split.
  - intros e.
    destruct (popen (show_args a rg) (world st))
      as [[message|message|lines rc|lines message] w];
      simpl; try (intros [= <-]; discriminate).
    destruct (rc =? 0)%Z; simpl; [|intros [= <-]; discriminate].
    destruct (azure._split_tsv_lines _) as [|[|n [|g [|l [|x line]]]] rest];
      simpl; intros [= <-]; discriminate.
  - intros lines rc w Hp. rewrite Hp. cbn [fst]. split; [|split].
    + intros Hrc. apply Z.eqb_neq in Hrc. rewrite Hrc. reflexivity.
    + intros -> r Hclean ->. simpl Z.eqb. cbv iota.
      assert (Htable : clean_table [registry_row r] = true).
      { unfold clean_table. cbn [forallb]. rewrite andb_true_r.
        destruct r; exact Hclean. }
      change (Py.join subprocess_runner.newline [Py.join tab (registry_row r)])
        with (tsv_text [registry_row r]).
      rewrite (strip_tsv_text _ Htable),
        (split_tsv_lines_of_text [registry_row r]
         (subprocess_runner.mkCommandResult (tsv_text [registry_row r]) "" 0%Z)
         Htable eq_refl).
      destruct r; reflexivity.
    + intros -> Hshape. simpl Z.eqb. cbv iota.
      destruct (azure._split_tsv_lines _) as [|[|n [|g [|l [|x line]]]] rest];
        try reflexivity.
      now elim (Hshape n g l rest).
Qed.

End Registry.

Lemma resolve_registry_outcomes_witness :
  fst (@workflow.resolve_registry (script_host registry_script small_fs)
         "acr1" "rg one" (script_state registry_script small_fs))
  = Ok (azure.mkAcrRegistry "acr1" "rg one" "acr1.azurecr.io")
  /\ fst (@workflow.resolve_registry (script_host silent_failure small_fs)
            "acr9" "rg" (script_state silent_failure small_fs))
     = Raise (Exn WorkflowError "Registry not found: acr9").
Proof.
  split.
  - refine (proj1 (proj2 (proj2 (proj2
              (@resolve_registry_outcomes
                 (script_host registry_script small_fs) "acr1" "rg one"
                 (script_state registry_script small_fs)))
              _ 0%Z tt eq_refl)) eq_refl
              (azure.mkAcrRegistry "acr1" "rg one" "acr1.azurecr.io")
              eq_refl eq_refl).
  - refine (proj1 (proj2 (proj2
              (@resolve_registry_outcomes
                 (script_host silent_failure small_fs) "acr9" "rg"
                 (script_state silent_failure small_fs)))
              [] 2%Z tt eq_refl) _).
    discriminate.
Defined.

(** ** Which exceptions the operations raise *)

Section Taxonomy.
Context {H : Host}.

Lemma ro_ret {A} (a : A) ok : raises_only (ret a) ok.
Proof. intros st e. discriminate. Qed.

Lemma ro_raise {A} (e : exn) (ok : exn_class -> bool) :
  ok (exn_cls e) = true -> raises_only (@raise _ A e) ok.
Proof. intros Hok st e' [= <-]. exact Hok. Qed.

Lemma ro_weaken {A} (m : M A) (ok ok' : exn_class -> bool) :
  (forall c, ok c = true -> ok' c = true) ->
  raises_only m ok -> raises_only m ok'.
Proof. intros Hw Hm st e E. apply Hw. exact (Hm st e E). Qed.

Lemma ro_bind {A B} (m : M A) (k : A -> M B) ok :
  raises_only m ok -> (forall a, raises_only (k a) ok) ->
  raises_only (bind m k) ok.
Proof.
  intros Hm Hk st e. rewrite bind_run.
  destruct (fst (m st)) as [a|e'] eqn:E.
  - apply Hk.
  - simpl. intros [= <-]. exact (Hm st e' E).
Qed.

Lemma ro_try_except {A} (body : M A) catches (handler : exn -> M A) okb ok :
  raises_only body okb ->
  (forall e, raises_only (handler e) ok) ->
  (forall c, okb c = true -> catches c = false -> ok c = true) ->
  raises_only (try_except body catches handler) ok.
Proof.
  intros Hb Hh Hpass st e. unfold try_except.
  specialize (Hb st). destruct (body st) as [[a|e'] st1]; simpl in *;
    [discriminate|].
  destruct (catches (exn_cls e')) eqn:Ec.
  - apply Hh.
  - simpl. intros [= <-]. apply Hpass; [now apply Hb|exact Ec].
Qed.

Lemma ro_entered (c : gateway_call) ok : raises_only (entered c) ok.
Proof. intros st e. discriminate. Qed.

Lemma ro_lift {A} (r : Result A) ok :
  (forall e, r = Raise e -> ok (exn_cls e) = true) -> raises_only (lift r) ok.
Proof. intros Hr st e E. exact (Hr e E). Qed.

Lemma ro_call_if_given (cb : option callback) (x : string) ok :
  quiet cb -> raises_only (call_if_given cb x) ok.
Proof.
  intros Hq st e. destruct cb as [f|]; simpl; [|discriminate].
  unfold invoke. specialize (Hq x (heap st)).
  destruct (f x (heap st)) as [r h]. simpl in *. rewrite Hq. discriminate.
Qed.

Lemma ro_run_command args check on_output :
  quiet on_output ->
  raises_only (subprocess_runner.run_command args check on_output)
    (either is_CommandError is_OSError_or_ValueError).
Proof.
  intros Hq st e. rewrite (run_command_quiet args check on_output st Hq).
  destruct (fst (popen args (world st)))
    as [message|message|lines rc|lines message]; simpl;
    try (intros [= <-]; reflexivity).
  destruct (check && negb (rc =? 0)%Z); [|discriminate].
  intros [= <-]. reflexivity.
Qed.

Lemma ro_stat p ok : ok OSError = true -> raises_only (stat p) ok.
Proof.
  intros Hok st e. unfold stat.
  destruct (path_kind (world st) p); [discriminate|].
  intros [= <-]. exact Hok.
Qed.

End Taxonomy.

Create HintDb taxonomy.
#[local] Hint Resolve ro_ret ro_entered ro_call_if_given : taxonomy.

(** Steps through a computation made of [bind], [try_except], tests and
    the guarded [run_command]; [typed] is the test of the exception the
    operation raises itself. *)
Ltac taxonomy typed :=
  repeat first
    [ solve [auto with taxonomy]
    | progress cbv zeta
    | match goal with
      | |- raises_only (raise _) _ => apply ro_raise; reflexivity
      | |- raises_only (subprocess_runner.run_command _ _ _) _ =>
          apply ro_weaken
            with (ok := either is_CommandError is_OSError_or_ValueError);
          [intros [] Hc; try discriminate Hc; reflexivity
          |apply ro_run_command; assumption]
      | |- raises_only (try_except _ is_CommandError _) _ =>
          apply ro_try_except
            with (okb := either (either is_CommandError
                                   is_OSError_or_ValueError) typed);
          [|intros ?|intros [] Hc Hn; try discriminate Hc;
                     try discriminate Hn; reflexivity]
      | |- raises_only (bind _ _) _ => apply ro_bind; [|intros ?]
      | |- raises_only (if ?b then _ else _) _ => destruct b
      | |- raises_only (match ?x with _ => _ end) _ => destruct x
      end ].

Section GatewayTaxonomy.
Context {H : Host}.
Variables on_output on_command : option callback.
Hypothesis output_quiet : quiet on_output.
Hypothesis command_quiet : quiet on_command.

Let docker_errors := either is_DockerCliError is_OSError_or_ValueError.
Let azure_errors := either is_AzureCliError is_OSError_or_ValueError.

Lemma ro_ensure_available :
  raises_only (docker.ensure_available on_output on_command) docker_errors.
Proof.
  unfold docker.ensure_available, docker._emit_command.
  taxonomy is_DockerCliError.
Qed.

Lemma ro_build_image t df ctx pf :
  raises_only (docker.build_image t df ctx pf on_output on_command)
    docker_errors.
Proof.
  unfold docker.build_image, docker._emit_command.
  taxonomy is_DockerCliError.
Qed.

Lemma ro_tag_image src tgt :
  raises_only (docker.tag_image src tgt on_output on_command) docker_errors.
Proof.
  unfold docker.tag_image, docker._emit_command. taxonomy is_DockerCliError.
Qed.

Lemma ro_push_image t :
  raises_only (docker.push_image t on_output on_command) docker_errors.
Proof.
  unfold docker.push_image, docker._emit_command. taxonomy is_DockerCliError.
Qed.

Lemma ro_build_and_push plan :
  raises_only (workflow.build_and_push plan on_output on_command)
    (either is_WorkflowError is_OSError_or_ValueError).
Proof.
  unfold workflow.build_and_push.
  apply ro_try_except with (okb := docker_errors).
  - apply ro_bind; [apply ro_ensure_available|intros _].
    apply ro_bind; [apply ro_build_image|intros _].
    apply ro_bind.
    { destruct (negb (skip_latest plan)); [apply ro_tag_image|apply ro_ret]. }
    intros _. apply ro_bind; [apply ro_push_image|intros _].
    destruct (negb (skip_latest plan)); [apply ro_push_image|apply ro_ret].
  - intros e. apply ro_raise. reflexivity.
  - intros [] Hc Hn; try discriminate Hc; try discriminate Hn; reflexivity.
Qed.

Lemma ro_ensure_logged_in :
  raises_only (azure.ensure_logged_in on_output on_command) azure_errors.
Proof.
  unfold azure.ensure_logged_in, azure._emit_command.
  taxonomy is_AzureCliError.
Qed.

Lemma ro_get_current_account :
  raises_only (azure.get_current_account on_output on_command) azure_errors.
Proof.
  unfold azure.get_current_account, azure._emit_command.
  taxonomy is_AzureCliError.
Qed.

Lemma ro_login_tenant t :
  raises_only (azure.login_tenant t on_output on_command) azure_errors.
Proof.
  unfold azure.login_tenant, azure._emit_command. taxonomy is_AzureCliError.
Qed.

Lemma ro_set_subscription sub :
  raises_only (azure.set_subscription sub on_output on_command) azure_errors.
Proof.
  unfold azure.set_subscription, azure._emit_command.
  taxonomy is_AzureCliError.
Qed.

Lemma ro_list_registries :
  raises_only (azure.list_registries on_output on_command) azure_errors.
Proof.
  unfold azure.list_registries, azure._emit_command.
  taxonomy is_AzureCliError.
Qed.

Lemma ro_show_registry a rg :
  raises_only (azure.show_registry a rg on_output on_command) azure_errors.
Proof.
  unfold azure.show_registry, azure._emit_command. taxonomy is_AzureCliError.
Qed.

Lemma ro_login_registry a :
  raises_only (azure.login_registry a on_output on_command) azure_errors.
Proof.
  unfold azure.login_registry, azure._emit_command. taxonomy is_AzureCliError.
Qed.

Lemma ro_list_repositories a :
  raises_only (azure.list_repositories a on_output on_command)
    (either is_CommandError is_OSError_or_ValueError).
Proof.
  unfold azure.list_repositories, azure._emit_command.
  taxonomy is_CommandError.
Qed.

Lemma ro_list_tags a r :
  raises_only (azure.list_tags a r on_output on_command)
    (either is_CommandError is_OSError_or_ValueError).
Proof.
  unfold azure.list_tags, azure._emit_command. taxonomy is_CommandError.
Qed.

End GatewayTaxonomy.

(** X11.  With callbacks that return, an operation of [docker.py] raises
    nothing but its [DockerCliError] or what [run_command] raises that is
    not a [CommandError]: the [OSError] of a tool that cannot be started,
    or the [ValueError] of an argument that is refused or of output that
    cannot be decoded.  [build_and_push] raises nothing but
    [WorkflowError] or that [OSError] or [ValueError], which it does not
    translate. *)
Theorem docker_error_taxonomy {H : Host}
    (on_output on_command : option callback) :
  quiet on_output -> quiet on_command ->
  raises_only (docker.ensure_available on_output on_command)
    (either is_DockerCliError is_OSError_or_ValueError)
  /\ (forall t df ctx pf,
      raises_only (docker.build_image t df ctx pf on_output on_command)
        (either is_DockerCliError is_OSError_or_ValueError))
  /\ (forall src tgt,
      raises_only (docker.tag_image src tgt on_output on_command)
        (either is_DockerCliError is_OSError_or_ValueError))
  /\ (forall t,
      raises_only (docker.push_image t on_output on_command)
        (either is_DockerCliError is_OSError_or_ValueError))
  /\ (forall plan,
      raises_only (workflow.build_and_push plan on_output on_command)
        (either is_WorkflowError is_OSError_or_ValueError)).
Proof.
  intros Ho Hc. repeat split; intros;
    auto using ro_ensure_available, ro_build_image, ro_tag_image,
      ro_push_image, ro_build_and_push.
Qed.

(** X12.  With callbacks that return, the operations of [azure.py] that
    translate failures raise nothing but [AzureCliError] or what
    [run_command] raises that is not a [CommandError]: the [OSError] of
    an [az] that cannot be started, or the [ValueError] of an argument
    that is refused or of output that cannot be decoded.
    [list_repositories] and [list_tags] raise nothing but [CommandError]
    or that [OSError] or [ValueError]. *)
Theorem azure_error_taxonomy {H : Host}
    (on_output on_command : option callback) :
  quiet on_output -> quiet on_command ->
  raises_only (azure.ensure_logged_in on_output on_command)
    (either is_AzureCliError is_OSError_or_ValueError)
  /\ raises_only (azure.get_current_account on_output on_command)
       (either is_AzureCliError is_OSError_or_ValueError)
  /\ (forall t,
      raises_only (azure.login_tenant t on_output on_command)
        (either is_AzureCliError is_OSError_or_ValueError))
  /\ (forall sub,
      raises_only (azure.set_subscription sub on_output on_command)
        (either is_AzureCliError is_OSError_or_ValueError))
  /\ raises_only (azure.list_registries on_output on_command)
       (either is_AzureCliError is_OSError_or_ValueError)
  /\ (forall a rg,
      raises_only (azure.show_registry a rg on_output on_command)
        (either is_AzureCliError is_OSError_or_ValueError))
  /\ (forall a,
      raises_only (azure.login_registry a on_output on_command)
        (either is_AzureCliError is_OSError_or_ValueError))
  /\ (forall a,
      raises_only (azure.list_repositories a on_output on_command)
        (either is_CommandError is_OSError_or_ValueError))
  /\ (forall a r,
      raises_only (azure.list_tags a r on_output on_command)
        (either is_CommandError is_OSError_or_ValueError)).
Proof.
  intros Ho Hc. repeat split; intros;
    auto using ro_ensure_logged_in, ro_get_current_account, ro_login_tenant,
      ro_set_subscription, ro_list_registries, ro_show_registry,
      ro_login_registry, ro_list_repositories, ro_list_tags.
Qed.

(** A [docker push] whose output is not UTF-8: the lines read so far were
    given to the callback, and what is raised is the [ValueError] of the
    decoder, which neither [push_image] nor [build_and_push] translates. *)
Lemma docker_error_taxonomy_witness :
  let H := script_host garbled_push small_fs in
  let st := script_state garbled_push small_fs in
  fst (@docker.push_image H "reg/repo:1" (Some keep) (Some keep) st)
  = Raise (Exn ValueError undecodable_message)
  /\ either is_DockerCliError is_OSError_or_ValueError ValueError = true
  /\ fst (@workflow.build_and_push H example_plan (Some keep) (Some keep) st)
     = Raise (Exn ValueError undecodable_message)
  /\ either is_WorkflowError is_OSError_or_ValueError ValueError = true.
Proof.
  pose (H := script_host garbled_push small_fs).
  pose (st := script_state garbled_push small_fs).
  pose proof (@docker_error_taxonomy H (Some keep) (Some keep)
                (fun x h => eq_refl) (fun x h => eq_refl))
    as (_ & _ & _ & Hpush & Hrun).
  cbv zeta. fold H st.
  split; [reflexivity|]. split.
  - exact (Hpush "reg/repo:1" st (Exn ValueError undecodable_message)
             eq_refl).
  - split; [reflexivity|].
    exact (Hrun example_plan st (Exn ValueError undecodable_message)
             eq_refl).
Defined.

Lemma azure_error_taxonomy_witness :
  let H := script_host no_az small_fs in
  let st := script_state no_az small_fs in
  fst (@azure.list_tags H "acr1" "app" None None st)
  = Raise (Exn OSError "[Errno 2] No such file or directory: 'az'")
  /\ either is_CommandError is_OSError_or_ValueError OSError = true
  /\ fst (@azure.ensure_logged_in H None None st)
     = Raise (Exn OSError "[Errno 2] No such file or directory: 'az'")
  /\ either is_AzureCliError is_OSError_or_ValueError OSError = true.
Proof.
  pose (H := script_host no_az small_fs).
  pose (st := script_state no_az small_fs).
  pose proof (@azure_error_taxonomy H None None I I) as Htax.
  cbv zeta. fold H st.
  split; [reflexivity|]. split.
  - exact (proj2 (proj2 (proj2 (proj2 (proj2 (proj2 (proj2 (proj2 Htax)))))))
             "acr1" "app" st
             (Exn OSError "[Errno 2] No such file or directory: 'az'")
             eq_refl).
  - split; [reflexivity|].
    exact (proj1 Htax st
             (Exn OSError "[Errno 2] No such file or directory: 'az'")
             eq_refl).
Defined.

(** ** CI mode, step by step *)

Section CiRun.
Context {H : Host}.

Lemma enters_try_except {A} (c : gateway_call) (m : M A) catches
    (handler : exn -> M A) :
  enters c m -> (forall e, keeps_calls (handler e)) ->
  enters c (try_except m catches handler).
Proof.
  intros Hm Hh st. unfold try_except. specialize (Hm st).
  destruct (m st) as [[a|e] st1]; simpl in *; [exact Hm|].
  destruct (catches (exn_cls e)); simpl; [|exact Hm].
  now rewrite (Hh e st1).
Qed.

Lemma ensure_logged_in_enters oo oc :
  enters EnsureLoggedIn (azure.ensure_logged_in oo oc).
Proof. apply enters_entered_then. unfold azure._emit_command. keeps. Qed.

Lemma set_subscription_enters sub oo oc :
  enters (SetSubscription sub) (azure.set_subscription sub oo oc).
Proof.
  apply enters_entered_then. unfold azure._emit_command.
  destruct sub as [s|]; [destruct (negb (Py.truthy s))|]; keeps.
Qed.

Lemma show_registry_enters a rg oo oc :
  enters (ShowRegistry a rg) (azure.show_registry a rg oo oc).
Proof. apply enters_entered_then. unfold azure._emit_command. keeps. Qed.

Lemma login_registry_enters a oo oc :
  enters (LoginRegistry a) (azure.login_registry a oo oc).
Proof. apply enters_entered_then. unfold azure._emit_command. keeps. Qed.

Lemma resolve_registry_enters a rg :
  enters (ShowRegistry a rg) (workflow.resolve_registry a rg).
Proof.
  apply enters_try_except; [apply show_registry_enters|].
  intros e. apply keeps_raise.
Qed.

Lemma ro_resolve_registry a rg :
  raises_only (workflow.resolve_registry a rg)
    (either is_WorkflowError is_OSError_or_ValueError).
Proof.
  unfold workflow.resolve_registry.
  apply ro_try_except
    with (okb := either is_AzureCliError is_OSError_or_ValueError).
  - exact (ro_show_registry None None I I a rg).
  - intros e. apply ro_raise. reflexivity.
  - intros [] Hc Hn; try discriminate Hc; try discriminate Hn; reflexivity.
Qed.

Lemma ensure_logged_in_performs oo oc :
  quiet oc -> performs EnsureLoggedIn (azure.ensure_logged_in oo oc).
Proof.
  intros Hq. split; [apply ensure_logged_in_enters|].
  unfold azure.ensure_logged_in, azure._emit_command, commands_of. spawning.
Qed.

Lemma set_subscription_performs sub oo oc :
  quiet oc -> performs (SetSubscription sub) (azure.set_subscription sub oo oc).
Proof.
  intros Hq. split; [apply set_subscription_enters|].
  unfold azure.set_subscription, azure._emit_command, commands_of.
  destruct sub as [s|]; [destruct (Py.truthy s)|]; cbn [negb]; spawning.
Qed.

Lemma show_registry_performs a rg oo oc :
  quiet oc -> performs (ShowRegistry a rg) (azure.show_registry a rg oo oc).
Proof.
  intros Hq. split; [apply show_registry_enters|].
  unfold azure.show_registry, azure._emit_command, commands_of, show_args.
  spawning.
Qed.

Lemma login_registry_performs a oo oc :
  quiet oc -> performs (LoginRegistry a) (azure.login_registry a oo oc).
Proof.
  intros Hq. split; [apply login_registry_enters|].
  unfold azure.login_registry, azure._emit_command, commands_of. spawning.
Qed.

Lemma resolve_registry_performs a rg :
  performs (ShowRegistry a rg) (workflow.resolve_registry a rg).
Proof.
  split; [apply resolve_registry_enters|].
  unfold workflow.resolve_registry. apply starts_try_except.
  - exact (proj2 (show_registry_performs a rg None None I)).
  - intros e. apply starts_raise.
Qed.

Lemma validate_docker_paths_frame df ctx st :
  snd (workflow.validate_docker_paths df ctx st) = st
  /\ (forall e, fst (workflow.validate_docker_paths df ctx st) = Raise e ->
                either is_WorkflowError is_OSError (exn_cls e) = true)
  /\ (fst (workflow.validate_docker_paths df ctx st) = Ok tt ->
      path_kind (world st) df = Known (Some RegularFile)
      /\ path_kind (world st) ctx = Known (Some Directory)).
Proof.
  unfold workflow.validate_docker_paths, workflow.is_file, workflow.is_dir,
    stat, bind, ret, raise.
  destruct (path_kind (world st) df) as [[[| |]|]|m1]; simpl;
    destruct (path_kind (world st) ctx) as [[[| |]|]|m2]; simpl;
    repeat split; try discriminate; intros e [= <-]; reflexivity.
Qed.

Lemma require_ci_fields_class s e :
  settings.require_ci_fields s = Raise e -> exn_cls e = ValueError.
Proof.
  unfold settings.require_ci_fields.
  destruct (settings.missing_names s); [discriminate|]. now intros [= <-].
Qed.

(** The docker part of [_run_ci]. *)
Lemma ci_pipeline_cases plan st :
  let run :=
    try_except (workflow.build_and_push plan None None) is_WorkflowError
      (fun _ => raise (Exn (TyperExit 1) "")) st in
  exists k,
    1 <= k
    /\ calls (snd run) = (calls st ++ firstn k (expected_calls plan))%list
    /\ spawned (snd run)
       = (spawned st
            ++ flat_map commands_of (firstn k (expected_calls plan)))%list
    /\ ((fst run = Ok tt /\ firstn k (expected_calls plan) = expected_calls plan)
        \/ exists e, fst run = Raise e
                     /\ ci_pipeline_errors (exn_cls e) = true).
Proof.
  intros run. unfold run, try_except.
  destruct (build_and_push_performs plan None None st I)
    as (k & Hk & Hc & Hs & Hok).
  pose proof (ro_build_and_push None None I I plan st) as Hcls.
  destruct (workflow.build_and_push plan None None st) as [[[]|e] st1];
    simpl in *; exists k; (split; [exact Hk|]).
  - split; [exact Hc|]. split; [exact Hs|]. left.
    split; [reflexivity|now apply Hok].
  - specialize (Hcls e eq_refl).
    destruct (is_WorkflowError (exn_cls e)) eqn:Ew; simpl.
    + split; [exact Hc|]. split; [exact Hs|]. right. eexists.
      split; reflexivity.
    + split; [exact Hc|]. split; [exact Hs|]. right. exists e.
      split; [reflexivity|].
      unfold either in Hcls. rewrite Ew in Hcls. simpl in Hcls.
      unfold ci_pipeline_errors.
      destruct (exn_cls e); try discriminate Hcls; reflexivity.
Qed.

Lemma run_ci_after_prelude (s : settings.AppSettings) (st : State) :
  cli._run_ci s st
  = (registry <- ci_prelude s ;;
     azure.login_registry (azure.name registry) None None ;;
     workflow.validate_docker_paths (cli.or_cwd (settings.dockerfile_path s))
       (cli.or_cwd (settings.build_context s)) ;;
     try_except (workflow.build_and_push (ci_plan s registry) None None)
       is_WorkflowError (fun _ => raise (Exn (TyperExit 1) ""))) st.
Proof.
  unfold cli._run_ci, ci_prelude, ci_plan, bind, lift.
  destruct (settings.require_ci_fields s) as [[]|e0]; [|reflexivity].
  destruct (azure.ensure_logged_in None None st) as [[[]|e1] st1];
    [|reflexivity].
  destruct (azure.set_subscription _ None None st1) as [[[]|e2] st2];
    [|reflexivity].
  destruct (workflow.resolve_registry _ _ st2) as [[registry|e3] st3];
    reflexivity.
Qed.

(** The statements of [_run_ci] before [login_registry]. *)
Lemma ci_prelude_cases (s : settings.AppSettings) (st : State) :
  let run := ci_prelude s st in
  forall registry,
  (forall e, fst run = Raise e -> ci_prelude_errors (exn_cls e) = true)
  /\ exists k,
       k <= 3
       /\ (settings.require_ci_fields s = Ok tt -> 1 <= k)
       /\ (forall r, fst run = Ok r -> k = 3)
       /\ calls (snd run)
          = (calls st ++ firstn k (ci_azure_calls s registry))%list
       /\ spawned (snd run)
          = (spawned st
               ++ flat_map commands_of
                    (firstn k (ci_azure_calls s registry)))%list.
Proof.
  intros run registry. unfold run, ci_prelude.
  (* require_ci_fields *)
  rewrite bind_run. unfold lift at 1 2 3. simpl fst. simpl snd.
  destruct (settings.require_ci_fields s) as [[]|e0] eqn:E0.
  2:{ split.
      - intros e [= <-]. unfold ci_prelude_errors.
        now rewrite (require_ci_fields_class s e0 E0).
      - exists 0. simpl. rewrite !app_nil_r.
        repeat split; try lia; discriminate. }
  (* ensure_logged_in *)
  rewrite bind_run.
  destruct (ensure_logged_in_performs None None I) as [C1 S1].
  specialize (C1 st). specialize (S1 st).
  pose proof (ro_ensure_logged_in None None I I st) as R1.
  destruct (azure.ensure_logged_in None None st) as [[[]|e1] st1];
    simpl in C1, S1, R1; simpl fst; simpl snd; cbv iota.
  2:{ split.
      - intros e [= <-]. specialize (R1 e1 eq_refl). unfold either in R1.
        unfold ci_prelude_errors.
        destruct (exn_cls e1); try discriminate R1; reflexivity.
      - exists 1. simpl. repeat split; try lia; try discriminate.
        + exact C1.
        + exact S1. }
  (* set_subscription *)
  rewrite bind_run.
  destruct (set_subscription_performs (settings.subscription s) None None I)
    as [C2 S2].
  specialize (C2 st1). specialize (S2 st1).
  pose proof (ro_set_subscription None None I I (settings.subscription s) st1)
    as R2.
  destruct (azure.set_subscription (settings.subscription s) None None st1)
    as [[[]|e2] st2]; simpl in C2, S2, R2; simpl fst; simpl snd; cbv iota.
  2:{ split.
      - intros e [= <-]. specialize (R2 e2 eq_refl). unfold either in R2.
        unfold ci_prelude_errors.
        destruct (exn_cls e2); try discriminate R2; reflexivity.
      - exists 2. cbn [firstn ci_azure_calls flat_map].
        repeat split; try lia; try discriminate.
        + now rewrite C2, C1, <- app_assoc.
        + rewrite S2, S1, <- !app_assoc, app_nil_r. reflexivity. }
  (* resolve_registry *)
  destruct (resolve_registry_performs
              (cli.or_empty (settings.acr_name s))
              (cli.or_empty (settings.acr_resource_group s))) as [C3 S3].
  specialize (C3 st2). specialize (S3 st2).
  pose proof (ro_resolve_registry
                (cli.or_empty (settings.acr_name s))
                (cli.or_empty (settings.acr_resource_group s)) st2) as R3.
  split.
  - intros e E. specialize (R3 e E). unfold either in R3.
    unfold ci_prelude_errors.
    destruct (exn_cls e); try discriminate R3; reflexivity.
  - exists 3. cbn [firstn ci_azure_calls flat_map].
    repeat split; try lia.
    + now rewrite C3, C2, C1, <- !app_assoc.
    + rewrite S3, S2, S1, <- !app_assoc, app_nil_r. reflexivity.
Qed.

Lemma run_ci_cases (s : settings.AppSettings) (st : State) :
  let run := cli._run_ci s st in
  match fst (ci_prelude s st) with
  | Raise e =>
      fst run = Raise e
      /\ ci_prelude_errors (exn_cls e) = true
      /\ forall registry,
         exists k,
           k <= 3
           /\ (settings.require_ci_fields s = Ok tt -> 1 <= k)
           /\ calls (snd run)
              = (calls st ++ firstn k (ci_azure_calls s registry))%list
           /\ spawned (snd run)
              = (spawned st
                   ++ flat_map commands_of
                        (firstn k (ci_azure_calls s registry)))%list
  | Ok registry =>
      (exists e,
          fst run = Raise e
          /\ ci_prelude_errors (exn_cls e) = true
          /\ calls (snd run) = (calls st ++ ci_azure_calls s registry)%list
          /\ spawned (snd run)
             = (spawned st
                  ++ flat_map commands_of (ci_azure_calls s registry))%list)
      \/ (exists k,
            1 <= k
            /\ (exists w,
                  path_kind w (dockerfile_path (ci_plan s registry))
                  = Known (Some RegularFile)
                  /\ path_kind w (build_context (ci_plan s registry))
                     = Known (Some Directory))
            /\ calls (snd run)
               = (calls st ++ ci_azure_calls s registry
                    ++ firstn k (expected_calls (ci_plan s registry)))%list
            /\ spawned (snd run)
               = (spawned st
                    ++ flat_map commands_of (ci_azure_calls s registry)
                    ++ flat_map commands_of
                         (firstn k (expected_calls (ci_plan s registry))))%list
            /\ ((fst run = Ok tt
                 /\ firstn k (expected_calls (ci_plan s registry))
                    = expected_calls (ci_plan s registry))
                \/ exists e, fst run = Raise e
                             /\ ci_pipeline_errors (exn_cls e) = true))
  end.
Proof.
  intros run. unfold run. rewrite run_ci_after_prelude, bind_run.
  pose proof (ci_prelude_cases s st) as Hpre. cbv zeta in Hpre.
  destruct (ci_prelude s st) as [[registry|e] st3]; cbn [fst snd] in *.
  2:{ split; [reflexivity|].
      split; [exact (proj1 (Hpre (azure.mkAcrRegistry "" "" "")) e eq_refl)|].
      intros registry.
      destruct (Hpre registry) as (_ & k & Hk & Hone & _ & Hc & Hs).
      exists k. auto. }
  destruct (Hpre registry) as (_ & k & _ & _ & Hk & C3 & S3).
  rewrite (Hk registry eq_refl) in C3, S3. clear Hpre Hk k.
  (* login_registry *)
  rewrite bind_run.
  destruct (login_registry_performs (azure.name registry) None None I)
    as [C4 S4].
  specialize (C4 st3). specialize (S4 st3).
  pose proof (ro_login_registry None None I I (azure.name registry) st3) as R4.
  assert (C4' : calls (snd (azure.login_registry (azure.name registry)
                              None None st3))
                = (calls st ++ ci_azure_calls s registry)%list).
  { rewrite C4, C3. simpl. now rewrite <- !app_assoc. }
  assert (S4' : spawned (snd (azure.login_registry (azure.name registry)
                                None None st3))
                = (spawned st
                     ++ flat_map commands_of (ci_azure_calls s registry))%list).
  { rewrite S4, S3. cbn [firstn ci_azure_calls flat_map commands_of].
    rewrite <- !app_assoc, !app_nil_r. reflexivity. }
  clear C4 S4 C3 S3.
  destruct (azure.login_registry (azure.name registry) None None st3)
    as [[[]|e4] st4]; simpl in C4', S4', R4; simpl fst; simpl snd; cbv iota.
  2:{ left. exists e4. repeat split; [|exact C4'|exact S4'].
      specialize (R4 e4 eq_refl). unfold either in R4.
      unfold ci_prelude_errors.
      destruct (exn_cls e4); try discriminate R4; reflexivity. }
  (* validate_docker_paths *)
  rewrite bind_run.
  destruct (validate_docker_paths_frame
              (cli.or_cwd (settings.dockerfile_path s))
              (cli.or_cwd (settings.build_context s)) st4)
    as (Hv & Rv & Hvalid).
  rewrite Hv.
  destruct (fst (workflow.validate_docker_paths
                   (cli.or_cwd (settings.dockerfile_path s))
                   (cli.or_cwd (settings.build_context s)) st4))
    as [[]|ev].
  2:{ left. exists ev. simpl.
      repeat split; [|exact C4'|exact S4'].
      specialize (Rv ev eq_refl). unfold either in Rv.
      unfold ci_prelude_errors.
      destruct (exn_cls ev); try discriminate Rv; reflexivity. }
  (* build_and_push *)
  right.
  destruct (ci_pipeline_cases (ci_plan s registry) st4)
    as (k & Hk & Hc & Hs & Hcase).
  exists k. rewrite C4', <- !app_assoc in Hc. rewrite S4', <- !app_assoc in Hs.
  split; [exact Hk|].
  split; [exists (world st4); exact (Hvalid eq_refl)|].
  split; [exact Hc|]. split; [exact Hs|]. exact Hcase.
Qed.

End CiRun.

Section CiProperties.
Context {H : Host}.

Lemma no_docker_in_azure_calls s registry k :
  existsb is_docker_call (firstn k (ci_azure_calls s registry)) = false.
Proof.
  destruct k as [|[|[|[|[|k]]]]]; reflexivity.
Qed.

Lemma docker_in_expected_calls plan k :
  1 <= k ->
  existsb is_docker_call (firstn k (expected_calls plan)) = true.
Proof.
  intros Hk. destruct k as [|k]; [lia|]. reflexivity.
Qed.

(** X13.  In CI mode the gateway operations are entered in one order:
    ensure-logged-in, set-subscription with the configured subscription,
    show-registry of the configured name and resource group,
    login-registry of the name [az] reported, and then the operations of
    [build_and_push] on the plan made of the settings and of the login
    server [az] reported.  A run enters an initial part of this sequence
    and starts the commands of the operations entered, one after the
    other and no other: at most the first three, and at least one when
    no required field is missing, when the registry is not resolved; at
    least the first four for the registry [resolve_registry] returned;
    and all of them when the run returns. *)
Theorem run_ci_call_order (s : settings.AppSettings) (st : State) :
  let run := cli._run_ci s st in
  match fst (ci_prelude s st) with
  | Raise e =>
      fst run = Raise e
      /\ forall registry,
         exists k,
           k <= 3
           /\ (settings.require_ci_fields s = Ok tt -> 1 <= k)
           /\ calls (snd run)
              = (calls st ++ firstn k (ci_calls s registry))%list
           /\ spawned (snd run)
              = (spawned st
                   ++ flat_map commands_of
                        (firstn k (ci_calls s registry)))%list
  | Ok registry =>
      (exists k,
          4 <= k
          /\ calls (snd run)
             = (calls st ++ firstn k (ci_calls s registry))%list
          /\ spawned (snd run)
             = (spawned st
                  ++ flat_map commands_of
                       (firstn k (ci_calls s registry)))%list)
      /\ (fst run = Ok tt ->
          calls (snd run) = (calls st ++ ci_calls s registry)%list
          /\ spawned (snd run)
             = (spawned st
                  ++ flat_map commands_of (ci_calls s registry))%list)
  end.
Proof.
  intros run. pose proof (run_ci_cases s st) as Hcase. fold run in Hcase.
  assert (Hshort : forall registry k, k <= 4 ->
            firstn k (ci_calls s registry)
            = firstn k (ci_azure_calls s registry)).
  { intros registry k Hk. unfold ci_calls. rewrite firstn_app.
    replace (k - length (ci_azure_calls s registry)) with 0 by (simpl; lia).
    simpl firstn at 2. now rewrite app_nil_r. }
  assert (Hlong : forall registry k,
            firstn (4 + k) (ci_calls s registry)
            = (ci_azure_calls s registry
                 ++ firstn k (expected_calls (ci_plan s registry)))%list).
  { intros registry k. unfold ci_calls.
    change 4 with (length (ci_azure_calls s registry)).
    now rewrite firstn_app_2. }
  destruct (fst (ci_prelude s st)) as [registry|e].
  - destruct Hcase as [(e & Hr & _ & Hc & Hs)
                      |(k & Hk & _ & Hc & Hs & Hcase)].
    + split.
      * exists 4. rewrite Hshort by lia. now split.
      * rewrite Hr. discriminate.
    + split.
      * exists (4 + k). rewrite Hlong, flat_map_app.
        split; [lia|now split].
      * intros Hok. destruct Hcase as [[_ Hfull]|(e & Hr & _)].
        -- rewrite Hfull in Hc, Hs. unfold ci_calls.
           rewrite flat_map_app. now split.
        -- rewrite Hr in Hok. discriminate Hok.
  - destruct Hcase as (Hr & _ & Hcase). split; [exact Hr|].
    intros registry. destruct (Hcase registry) as (k & Hk & Hone & Hc & Hs).
    exists k. rewrite Hshort by lia. auto.
Qed.

(** X14.  What escapes [_run_ci].  Before an operation of [docker.py] is
    entered: a [ValueError] (the missing fields; an argument that [Popen]
    refuses; output of [az] that cannot be decoded), an [AzureCliError],
    a [WorkflowError] (registry not resolved, paths not valid) or an
    [OSError] ([az] cannot be started, a path cannot be examined), each
    as it was raised.  Once one is entered: [typer.Exit] with code 1,
    which stands for every [WorkflowError] of [build_and_push], or the
    [OSError] or [ValueError] that [build_and_push] lets through.  So an
    exit with code 1 tells that the docker pipeline had started, and a
    [WorkflowError] or an [AzureCliError] that it had not. *)
Theorem run_ci_failures (s : settings.AppSettings) (st : State) (e : exn) :
  existsb is_docker_call (calls st) = false ->
  fst (cli._run_ci s st) = Raise e ->
  let entered_docker :=
    existsb is_docker_call (calls (snd (cli._run_ci s st))) in
  (entered_docker = false /\ ci_prelude_errors (exn_cls e) = true)
  \/ (entered_docker = true /\ ci_pipeline_errors (exn_cls e) = true).
Proof.
  intros Hnone Hr entered_docker. unfold entered_docker.
  pose proof (run_ci_cases s st) as Hcase. cbv zeta in Hcase.
  destruct (fst (ci_prelude s st)) as [registry|e0].
  - destruct Hcase as [(e' & Hr' & Hcls & Hc & _)
                      |(k & Hk & _ & Hc & _ & Hcase)].
    + left. rewrite Hr in Hr'. injection Hr' as <-.
      rewrite Hc, existsb_app, Hnone.
      rewrite <- (firstn_all (ci_azure_calls s registry)).
      now rewrite no_docker_in_azure_calls.
    + right. rewrite Hc, !existsb_app, (docker_in_expected_calls _ k Hk).
      rewrite !orb_true_r. split; [reflexivity|].
      destruct Hcase as [[Hok _]|(e' & Hr' & Hcls)].
      * rewrite Hr in Hok. discriminate Hok.
      * rewrite Hr in Hr'. now injection Hr' as <-.
  - destruct Hcase as (Hr' & Hcls & Hcase). left.
    rewrite Hr in Hr'. injection Hr' as <-.
    destruct (Hcase (azure.mkAcrRegistry "" "" "")) as (k & _ & _ & Hc & _).
    rewrite Hc, existsb_app, Hnone, no_docker_in_azure_calls.
    now split.
Qed.

(** X15.  [_run_ci] validates the paths before it touches docker: when
    the Dockerfile path is in no case a regular file, or the build
    context in no case a directory, no operation of [docker.py] is
    entered and the run does not return. *)
Theorem run_ci_validates_first (s : settings.AppSettings) (st : State) :
  existsb is_docker_call (calls st) = false ->
  (forall w,
      path_kind w (cli.or_cwd (settings.dockerfile_path s))
      <> Known (Some RegularFile)
      \/ path_kind w (cli.or_cwd (settings.build_context s))
         <> Known (Some Directory)) ->
  existsb is_docker_call (calls (snd (cli._run_ci s st))) = false
  /\ exists e, fst (cli._run_ci s st) = Raise e.
Proof.
  intros Hnone Hbad.
  pose proof (run_ci_cases s st) as Hcase. cbv zeta in Hcase.
  destruct (fst (ci_prelude s st)) as [registry|e0].
  - destruct Hcase as [(e & Hr & _ & Hc & _)
                      |(k & _ & (w & Hf & Hd) & _)].
    + split; [|now exists e].
      rewrite Hc, existsb_app, Hnone.
      rewrite <- (firstn_all (ci_azure_calls s registry)).
      now rewrite no_docker_in_azure_calls.
    + destruct (Hbad w) as [Hw|Hw]; now elim Hw.
  - destruct Hcase as (Hr & _ & Hcase). split; [|now exists e0].
    destruct (Hcase (azure.mkAcrRegistry "" "" "")) as (k & _ & _ & Hc & _).
    now rewrite Hc, existsb_app, Hnone, no_docker_in_azure_calls.
Qed.

End CiProperties.

(** Everything works: the nine operations, in order, and the eight
    commands they start ([set_subscription] without a subscription starts
    none), on the registry [az acr show] described. *)
Lemma run_ci_call_order_witness :
  let H := script_host ci_green_script ci_fs in
  let st := script_state ci_green_script ci_fs in
  let run := @cli._run_ci H ci_settings st in
  fst (@ci_prelude H ci_settings st)
  = Ok (azure.mkAcrRegistry "acr1" "rg one" "acr1.azurecr.io")
  /\ fst run = Ok tt
  /\ calls (snd run)
     = [EnsureLoggedIn; SetSubscription None; ShowRegistry "acr1" "rg one";
        LoginRegistry "acr1"; EnsureAvailable;
        BuildImage "acr1.azurecr.io/app:1.0.0" (pathlib.of_str "Dockerfile")
          (pathlib.of_str "build") None;
        TagImage "acr1.azurecr.io/app:1.0.0" "acr1.azurecr.io/app:latest";
        PushImage "acr1.azurecr.io/app:1.0.0";
        PushImage "acr1.azurecr.io/app:latest"]
  /\ spawned (snd run)
     = [["az"; "account"; "show"];
        ["az"; "acr"; "show"; "--name"; "acr1"; "--resource-group"; "rg one";
         "--query"; "{Name:name,RG:resourceGroup,LS:loginServer}"; "-o";
         "tsv"];
        ["az"; "acr"; "login"; "--name"; "acr1"];
        ["docker"; "info"];
        ["docker"; "build"; "-t"; "acr1.azurecr.io/app:1.0.0"; "-f";
         "Dockerfile"; "build"];
        ["docker"; "tag"; "acr1.azurecr.io/app:1.0.0";
         "acr1.azurecr.io/app:latest"];
        ["docker"; "push"; "acr1.azurecr.io/app:1.0.0"];
        ["docker"; "push"; "acr1.azurecr.io/app:latest"]].
Proof.
  pose (H := script_host ci_green_script ci_fs).
  pose (st := script_state ci_green_script ci_fs).
  pose proof (@run_ci_call_order H ci_settings st) as Horder.
  cbv zeta in Horder.
  assert (Hpre : fst (@ci_prelude H ci_settings st)
                 = Ok (azure.mkAcrRegistry "acr1" "rg one" "acr1.azurecr.io"))
    by (vm_compute; reflexivity).
  rewrite Hpre in Horder.
  assert (Hok : fst (@cli._run_ci H ci_settings st) = Ok tt)
    by (vm_compute; reflexivity).
  destruct (proj2 Horder Hok) as [Hc Hs].
  cbv zeta. fold H st. split; [exact Hpre|]. split; [exact Hok|].
  split; [exact Hc|exact Hs].
Defined.

(** [docker push] is denied: the run exits with code 1 after the docker
    pipeline started.  [az] is not installed: the [OSError] escapes
    before it. *)
Lemma run_ci_failures_witness :
  (fst (@cli._run_ci (script_host ci_script ci_fs) ci_settings
          (script_state ci_script ci_fs))
   = Raise (Exn (TyperExit 1) "")
   /\ existsb is_docker_call
        (calls (snd (@cli._run_ci (script_host ci_script ci_fs) ci_settings
                       (script_state ci_script ci_fs)))) = true)
  /\ (fst (@cli._run_ci (script_host no_az ci_fs) ci_settings
             (script_state no_az ci_fs))
      = Raise (Exn OSError "[Errno 2] No such file or directory: 'az'")
      /\ existsb is_docker_call
           (calls (snd (@cli._run_ci (script_host no_az ci_fs) ci_settings
                          (script_state no_az ci_fs)))) = false).
Proof.
  assert (Hr : fst (@cli._run_ci (script_host ci_script ci_fs) ci_settings
                      (script_state ci_script ci_fs))
               = Raise (Exn (TyperExit 1) ""))
    by (vm_compute; reflexivity).
  assert (Hr' : fst (@cli._run_ci (script_host no_az ci_fs) ci_settings
                       (script_state no_az ci_fs))
                = Raise (Exn OSError
                           "[Errno 2] No such file or directory: 'az'"))
    by (vm_compute; reflexivity).
  split; (split; [assumption|]).
  - destruct (@run_ci_failures (script_host ci_script ci_fs) ci_settings
                (script_state ci_script ci_fs) (Exn (TyperExit 1) "")
                eq_refl Hr) as [[_ Hcls]|[Hyes _]].
    + discriminate Hcls.
    + exact Hyes.
  - destruct (@run_ci_failures (script_host no_az ci_fs) ci_settings
                (script_state no_az ci_fs)
                (Exn OSError "[Errno 2] No such file or directory: 'az'")
                eq_refl Hr') as [[Hno _]|[Hyes _]].
    + exact Hno.
    + vm_compute in Hyes. discriminate Hyes.
Defined.

Lemma run_ci_validates_first_witness :
  existsb is_docker_call
    (calls (snd (@cli._run_ci (script_host ci_script small_fs) ci_settings
                   (script_state ci_script small_fs)))) = false
  /\ exists e,
       fst (@cli._run_ci (script_host ci_script small_fs) ci_settings
              (script_state ci_script small_fs)) = Raise e.
Proof.
  apply (@run_ci_validates_first (script_host ci_script small_fs) ci_settings
           (script_state ci_script small_fs) eq_refl).
  intros w. right. vm_compute. discriminate.
Defined.


(* ===================================================================== *)
(** * The version engine of the tag menu *)

(** ** What a tag contributes, apart from the maximum so far *)

Lemma max_semver_step_reading (m : option app.version) (tag : string) :
  app.max_semver_step m tag
  = rbind (app.max_semver_step None tag) (fun v => Ok (greater_of m v)).
Proof.
  unfold app.max_semver_step.
  destruct (Py.split "." tag) as [|a [|b [|c [|d rest]]]]; try reflexivity.
  destruct (negb (forallb Py.isdigit [a; b; c])); [reflexivity|].
  destruct (Py.int a) as [x|e]; [|reflexivity].
  destruct (Py.int b) as [y|e]; [|reflexivity].
  destruct (Py.int c) as [z|e]; [|reflexivity].
  destruct m as [w|]; [|reflexivity].
  cbn [rbind greater_of].
  destruct (app.version_gt (x, y, z) w); reflexivity.
Qed.

Lemma max_semver_loop_readings (m : option app.version) (tags : list string) :
  app.max_semver_loop m tags
  = rbind (rmap (app.max_semver_step None) tags)
      (fun vs => Ok (fold_left greater_of vs m)).
Proof.
  revert m. induction tags as [|tag tags IH]; intros m; [reflexivity|].
  cbn [app.max_semver_loop rmap]. rewrite max_semver_step_reading.
  destruct (app.max_semver_step None tag) as [v|e]; [|reflexivity].
  cbn [rbind]. rewrite IH.
  destruct (rmap (app.max_semver_step None) tags); reflexivity.
Qed.

Lemma rmap_ok {A B} (f : A -> Result B) (xs : list A) (ys : list B) :
  rmap f xs = Ok ys -> Forall2 (fun x y => f x = Ok y) xs ys.
Proof.
  revert ys. induction xs as [|x xs IH]; simpl; intros ys E.
  - injection E as <-. constructor.
  - destruct (f x) as [y|e] eqn:Ex; [|discriminate E]. simpl in E.
    destruct (rmap f xs) as [ys'|e]; [|discriminate E]. simpl in E.
    injection E as <-. constructor; [exact Ex|now apply IH].
Qed.

Lemma rmap_raise {A B} (f : A -> Result B) (xs : list A) (e : exn) :
  rmap f xs = Raise e -> exists x, In x xs /\ f x = Raise e.
Proof.
  induction xs as [|x xs IH]; simpl; intros E; [discriminate E|].
  destruct (f x) as [y|e'] eqn:Ex; simpl in E.
  - destruct (rmap f xs) as [ys'|e'']; [discriminate E|]. simpl in E.
    injection E as ->. destruct (IH eq_refl) as (x' & Hin & Hx').
    exists x'. split; [now right|exact Hx'].
  - injection E as ->. exists x. split; [now left|exact Ex].
Qed.

Lemma rmap_returns {A B} (f : A -> Result B) (xs : list A) :
  (forall x, In x xs -> exists y, f x = Ok y) -> exists ys, rmap f xs = Ok ys.
Proof.
  induction xs as [|x xs IH]; simpl; intros Hall; [now exists []|].
  destruct (Hall x (or_introl eq_refl)) as (y & ->).
  destruct IH as (ys & ->); [intros x' Hx'; apply Hall; now right|].
  now exists (y :: ys).
Qed.

Lemma Forall2_in_l {A B} (R : A -> B -> Prop) (xs : list A) (ys : list B) x :
  Forall2 R xs ys -> In x xs -> exists y, In y ys /\ R x y.
Proof.
  induction 1 as [|x' y' xs ys Hxy _ IH]; simpl; [intros []|].
  intros [<-|Hin].
  - exists y'. split; [now left|exact Hxy].
  - destruct (IH Hin) as (y & Hy & Hr). exists y. split; [now right|exact Hr].
Qed.

Lemma Forall2_in_r {A B} (R : A -> B -> Prop) (xs : list A) (ys : list B) y :
  Forall2 R xs ys -> In y ys -> exists x, In x xs /\ R x y.
Proof.
  induction 1 as [|x' y' xs ys Hxy _ IH]; simpl; [intros []|].
  intros [<-|Hin].
  - exists x'. split; [now left|exact Hxy].
  - destruct (IH Hin) as (x & Hx & Hr). exists x. split; [now right|exact Hr].
Qed.

Lemma version_le_antisym (v w : app.version) :
  version_le v w -> version_le w v -> v = w.
Proof.
  destruct v as [[a b] c], w as [[a' b'] c']. unfold version_le.
  intros H1 H2. assert (a = a' /\ b = b' /\ c = c') as (-> & -> & ->) by lia.
  reflexivity.
Qed.

(** The fold keeps the same version for two lists with the same
    elements. *)
Lemma greatest_same_elements (vs vs' : list (option app.version)) :
  (forall v, In v vs -> In v vs') -> (forall v, In v vs' -> In v vs) ->
  fold_left greater_of vs None = fold_left greater_of vs' None.
Proof.
  intros H1 H2.
  pose proof (fold_greater_of vs None) as Hf.
  pose proof (fold_greater_of vs' None) as Hf'.
  destruct (fold_left greater_of vs None) as [r|],
           (fold_left greater_of vs' None) as [r'|].
  - destruct Hf as ([E|Hin] & _ & Hmax); [discriminate E|].
    destruct Hf' as ([E|Hin'] & _ & Hmax'); [discriminate E|].
    f_equal. apply version_le_antisym.
    + apply Hmax'. now apply H1.
    + apply Hmax. now apply H2.
  - destruct Hf as ([E|Hin] & _); [discriminate E|].
    destruct Hf' as (_ & Hnone). discriminate (Hnone _ (H1 _ Hin)).
  - destruct Hf' as ([E|Hin'] & _); [discriminate E|].
    destruct Hf as (_ & Hnone). discriminate (Hnone _ (H2 _ Hin')).
  - reflexivity.
Qed.

Lemma readings_same_elements (tags tags' : list string)
    (vs : list (option app.version)) :
  (forall tag, In tag tags' -> In tag tags) ->
  rmap (app.max_semver_step None) tags = Ok vs ->
  exists vs', rmap (app.max_semver_step None) tags' = Ok vs'
              /\ forall v, In v vs' -> In v vs.
Proof.
  intros Hsub E. apply rmap_ok in E.
  destruct (rmap_returns (app.max_semver_step None) tags') as (vs' & E').
  { intros tag Htag.
    destruct (Forall2_in_l _ _ _ tag E (Hsub _ Htag)) as (v & _ & Hv).
    now exists v. }
  exists vs'. split; [exact E'|]. intros v Hv.
  destruct (Forall2_in_r _ _ _ v (rmap_ok _ _ _ E') Hv) as (tag & Htag & Ht).
  destruct (Forall2_in_l _ _ _ tag E (Hsub _ Htag)) as (v' & Hv' & Ht').
  rewrite Ht in Ht'. injection Ht' as <-. exact Hv'.
Qed.

Lemma max_semver_loop_same_elements (tags tags' : list string) :
  (forall tag, In tag tags <-> In tag tags') ->
  match app.max_semver_loop None tags with
  | Ok latest => app.max_semver_loop None tags' = Ok latest
  | Raise _ => exists e, app.max_semver_loop None tags' = Raise e
  end.
Proof.
  intros Hsame. rewrite !max_semver_loop_readings.
  destruct (rmap (app.max_semver_step None) tags) as [vs|e] eqn:E.
  - destruct (readings_same_elements tags tags' vs) as (vs' & E' & Hsub);
      [intros tag; apply Hsame|exact E|].
    destruct (readings_same_elements tags' tags vs') as (vs'' & E'' & Hsub');
      [intros tag; apply Hsame|exact E'|].
    rewrite E in E''. injection E'' as <-.
    rewrite E'. cbn [rbind]. f_equal. symmetry.
    now apply greatest_same_elements.
  - destruct (rmap_raise _ _ _ E) as (tag & Htag & Ht).
    destruct (rmap (app.max_semver_step None) tags') as [vs'|e'] eqn:E'.
    + apply rmap_ok in E'.
      destruct (Forall2_in_l _ _ _ tag E' (proj1 (Hsame tag) Htag))
        as (v & _ & Hv).
      rewrite Ht in Hv. discriminate Hv.
    + now exists e'.
Qed.

(** X16.  [_max_semver] depends on which tags are listed, not on their
    order or on repetitions: on two lists with the same elements it
    returns the same value, and if it raises on one it raises on the
    other. *)
Theorem max_semver_ignores_order_and_repetition (tags tags' : list string) :
  (forall tag, In tag tags <-> In tag tags') ->
  match app._max_semver tags with
  | Ok latest => app._max_semver tags' = Ok latest
  | Raise _ => exists e, app._max_semver tags' = Raise e
  end.
Proof.
  intros Hsame. unfold app._max_semver.
  pose proof (max_semver_loop_same_elements tags tags' Hsame) as Hl.
  destruct (app.max_semver_loop None tags) as [latest|e]; cbv iota in Hl.
  - rewrite Hl. cbn [rbind]. destruct latest as [v|]; [|reflexivity].
    destruct (app.format_version v) as [s|e]; cbn [rbind];
      [reflexivity|now exists e].
  - destruct Hl as (e' & ->). now exists e'.
Qed.

Lemma max_semver_ignores_order_and_repetition_witness :
  app._max_semver ["0.9.0"; "latest"; "1.2.3"] = Ok (Some "1.2.3").
Proof.
  apply (max_semver_ignores_order_and_repetition
           ["1.2.3"; "0.9.0"; "1.2.3"; "latest"; "0.9.0"]
           ["0.9.0"; "latest"; "1.2.3"]).
  intros tag. simpl. tauto.
Defined.

(** ** The suggestions *)

Lemma isdigit_digits_of (n : N) : Py.isdigit (Py.digits_of n) = true.
Proof.
  unfold Py.isdigit. rewrite digits_of_truthy. simpl.
  apply all_chars_weaken with (p := Py.is_decimal_char).
  - intros a Ha. unfold Py.is_digit_char. now rewrite Ha.
  - apply digits_of_decimal.
Qed.

(** The text of a version is read back as the version. *)
Lemma max_semver_step_dotted (a b c : N) :
  within_limit a -> within_limit b -> within_limit c ->
  app.max_semver_step None (app.dotted (a, b, c)) = Ok (Some (a, b, c)).
Proof.
  intros Ha Hb Hc. unfold app.max_semver_step.
  rewrite split_dotted. cbn [forallb].
  rewrite !isdigit_digits_of. cbn [andb negb].
  rewrite (int_digits_of a Ha), (int_digits_of b Hb), (int_digits_of c Hc).
  reflexivity.
Qed.

Lemma max_semver_loop_snoc (m : option app.version) (tags : list string)
    (tag : string) :
  app.max_semver_loop m (tags ++ [tag])
  = rbind (app.max_semver_loop m tags)
      (fun m' => app.max_semver_step m' tag).
Proof.
  revert m. induction tags as [|t tags IH]; intros m; simpl.
  - destruct (app.max_semver_step m tag); reflexivity.
  - destruct (app.max_semver_step m t) as [m'|e]; [|reflexivity].
    simpl. apply IH.
Qed.

(** A version above the maximum of a list is not the text of any of its
    tags, and becomes the maximum once its text is added. *)
Lemma newer_version_becomes_latest (tags : list string)
    (v : app.version) (a b c : N) :
  app.max_semver_loop None tags = Ok (Some v) ->
  app.version_gt (a, b, c) v = true ->
  within_limit a -> within_limit b -> within_limit c ->
  ~ In (app.dotted (a, b, c)) tags
  /\ app.max_semver_loop None (tags ++ [app.dotted (a, b, c)])
     = Ok (Some (a, b, c)).
Proof.
  intros E Hgt Ha Hb Hc.
  pose proof (max_semver_step_dotted a b c Ha Hb Hc) as Hread. split.
  - intros Hin. rewrite max_semver_loop_readings in E.
    destruct (rmap (app.max_semver_step None) tags) as [vs|e] eqn:Er;
      [|discriminate E].
    cbn [rbind] in E. injection E as E.
    destruct (Forall2_in_l _ _ _ _ (rmap_ok _ _ _ Er) Hin) as (r & Hr & Hs).
    rewrite Hread in Hs. injection Hs as <-.
    pose proof (fold_greater_of vs None) as Hf. rewrite E in Hf.
    destruct Hf as (_ & _ & Hmax).
    apply (proj2 (version_gt_false (a, b, c) v)) in Hmax;
      [congruence|exact Hr].
  - rewrite max_semver_loop_snoc, E. cbn [rbind].
    rewrite max_semver_step_reading, Hread.
    cbn [rbind greater_of]. now rewrite Hgt.
Qed.

Lemma bumps_are_greater (a b c : N) :
  app.version_gt (a, b, c + 1)%N (a, b, c) = true
  /\ app.version_gt (a, b + 1, 0)%N (a, b, c) = true
  /\ app.version_gt (a + 1, 0, 0)%N (a, b, c) = true.
Proof.
  unfold app.version_gt. repeat split.
  - rewrite !N.eqb_refl, !N.ltb_irrefl.
    replace (c <? c + 1)%N with true by (symmetry; apply N.ltb_lt; lia).
    reflexivity.
  - rewrite N.eqb_refl, N.ltb_irrefl.
    replace (b <? b + 1)%N with true by (symmetry; apply N.ltb_lt; lia).
    reflexivity.
  - replace (a <? a + 1)%N with true by (symmetry; apply N.ltb_lt; lia).
    reflexivity.
Qed.

(** What [_suggest_versions] makes of the text of a version whose
    numbers are converted: three texts, or the [ValueError] of a bump that
    is not converted. *)
Lemma suggest_versions_cases (a b c : N) :
  within_limit a -> within_limit b -> within_limit c ->
  (app._suggest_versions (app.dotted (a, b, c))
   = Ok [app.dotted (a, b, c + 1)%N; app.dotted (a, b + 1, 0)%N;
         app.dotted (a + 1, 0, 0)%N]
   /\ within_limit (a + 1) /\ within_limit (b + 1) /\ within_limit (c + 1))
  \/ exists message,
       app._suggest_versions (app.dotted (a, b, c))
       = Raise (Exn ValueError message).
Proof.
  intros Ha Hb Hc. rewrite (suggest_versions_dotted a b c Ha Hb Hc).
  destruct (app.format_version (a, b, c + 1)%N) as [s1|[c1 m1]] eqn:E1;
    [|pose proof (format_version_raises _ _ E1) as Hcls; simpl in Hcls;
      subst c1; right; now exists m1].
  destruct (app.format_version (a, b + 1, 0)%N) as [s2|[c2 m2]] eqn:E2;
    [|pose proof (format_version_raises _ _ E2) as Hcls; simpl in Hcls;
      subst c2; right; now exists m2].
  destruct (app.format_version (a + 1, 0, 0)%N) as [s3|[c3 m3]] eqn:E3;
    [|pose proof (format_version_raises _ _ E3) as Hcls; simpl in Hcls;
      subst c3; right; now exists m3].
  destruct (format_version_ok _ _ _ _ E1) as (-> & _ & _ & Hc').
  destruct (format_version_ok _ _ _ _ E2) as (-> & _ & Hb' & _).
  destruct (format_version_ok _ _ _ _ E3) as (-> & Ha' & _ & _).
  left. now repeat split.
Qed.

(** X17.  On what [_max_semver] returns for a list of tags,
    [_suggest_versions] returns three versions or raises the [ValueError]
    of a bump of more than 4300 digits.  Each of the versions it returns
    is new (it is not among the tags) and is what [_max_semver] returns
    once it is among them, wherever it is listed. *)
Theorem suggested_version_becomes_latest (tags : list string) (base : string) :
  app._max_semver tags = Ok (Some base) ->
  ((exists patch minor major,
       app._suggest_versions base = Ok [patch; minor; major])
   \/ exists message,
        app._suggest_versions base = Raise (Exn ValueError message))
  /\ forall patch minor major,
       app._suggest_versions base = Ok [patch; minor; major] ->
       forall suggestion, In suggestion [patch; minor; major] ->
         ~ In suggestion tags
         /\ forall tags',
              (forall tag, In tag tags' <-> tag = suggestion \/ In tag tags) ->
              app._max_semver tags' = Ok (Some suggestion).
Proof.
  intros Hbase.
  destruct (max_semver_returns_version tags base Hbase)
    as (a & b & c & -> & E & Ha & Hb & Hc).
  destruct (suggest_versions_cases a b c Ha Hb Hc)
    as [(Hs & Ha' & Hb' & Hc')|(message & Hs)]; rewrite Hs.
  2:{ split; [right; now exists message|discriminate]. }
  split; [left; now eexists _, _, _|].
  intros patch minor major [= <- <- <-].
  destruct (bumps_are_greater a b c) as (Hp & Hm & HM).
  pose proof within_limit_0 as H0.
  assert (Hnew : forall x y z,
            app.version_gt (x, y, z) (a, b, c) = true ->
            within_limit x -> within_limit y -> within_limit z ->
            ~ In (app.dotted (x, y, z)) tags
            /\ forall tags',
                 (forall tag, In tag tags'
                              <-> tag = app.dotted (x, y, z) \/ In tag tags) ->
                 app._max_semver tags' = Ok (Some (app.dotted (x, y, z)))).
  { intros x y z Hgt Hx Hy Hz.
    destruct (newer_version_becomes_latest tags (a, b, c) x y z E Hgt
                Hx Hy Hz) as (Hnot & Hlast).
    split; [exact Hnot|]. intros tags' Hsame.
    pose proof (max_semver_loop_same_elements
                  (tags ++ [app.dotted (x, y, z)]) tags') as Hl.
    rewrite Hlast in Hl. unfold app._max_semver. rewrite Hl.
    - cbn [rbind]. now rewrite (format_version_within x y z Hx Hy Hz).
    - intros tag. rewrite in_app_iff, Hsame. simpl. intuition congruence. }
  intros suggestion [<-|[<-|[<-|[]]]];
    [apply (Hnew a b (c + 1)%N)|apply (Hnew a (b + 1)%N 0%N)
    |apply (Hnew (a + 1)%N 0%N 0%N)]; assumption.
Qed.

Lemma suggested_version_becomes_latest_witness :
  app._suggest_versions "1.2.10" = Ok ["1.2.11"; "1.3.0"; "2.0.0"]
  /\ ~ In "1.2.11" ["1.2.3"; "1.2.10"; "bogus"]
  /\ app._max_semver ["1.2.3"; "1.2.11"; "1.2.10"; "bogus"]
     = Ok (Some "1.2.11")
  /\ app._max_semver ["2.0.0"; "1.2.3"; "1.2.10"; "bogus"; "2.0.0"]
     = Ok (Some "2.0.0").
Proof.
  pose proof (proj2 (suggested_version_becomes_latest
                       ["1.2.3"; "1.2.10"; "bogus"] "1.2.10" eq_refl)
                "1.2.11" "1.3.0" "2.0.0" eq_refl) as Hnew.
  split; [reflexivity|].
  destruct (Hnew "1.2.11" (or_introl eq_refl)) as [Hnot Hpatch].
  destruct (Hnew "2.0.0" (or_intror (or_intror (or_introl eq_refl))))
    as [_ Hmajor].
  split; [exact Hnot|]. split.
  - apply Hpatch. intros tag. simpl. intuition.
  - apply Hmajor. intros tag. simpl. intuition.
Defined.


(* ===================================================================== *)
(** * The terminal application *)

Section Terminal.
Context {W : Type}.
Variable tools : list string -> W -> popen_outcome * W.
Variable files : W -> Path -> stat_outcome.

Abbreviation ui := (AcrPushApp.host tools files).
Abbreviation UiState := (@State (AcrPushApp.host tools files)).
Abbreviation UiM := (@M (AcrPushApp.host tools files)).

(** ** The loading flag *)

Lemma with_azure_loading_run {A} (action : UiM A) (st : UiState) :
  AcrPushApp._with_azure_loading action st
  = let st1 := @mkState ui (world st) (AcrPushApp.set_loading true (heap st))
                 (spawned st) (calls st) in
    (fst (action st1),
     @mkState ui (world (snd (action st1)))
       (AcrPushApp.set_loading false (heap (snd (action st1))))
       (spawned (snd (action st1))) (calls (snd (action st1)))).
Proof.
  unfold AcrPushApp._with_azure_loading, AcrPushApp.try_finally,
    AcrPushApp.assign, bind. cbn [world heap spawned calls].
  destruct (action _) as [[a|e] st2]; reflexivity.
Qed.

Lemma fed_nothing (lines : list string) (h : @Heap ui) :
  fed None lines h = h.
Proof. unfold fed. induction lines as [|l lines IH]; [reflexivity|exact IH]. Qed.

(** [list_tags] without callbacks. *)
Lemma list_tags_silent (acr repository : string) (st : UiState) :
  azure.list_tags acr repository None None st
  = let args := show_tags_args acr repository in
    let st' := @mkState ui (snd (tools args (world st))) (heap st)
                 (spawned st ++ [args])%list
                 (calls st ++ [ListTags acr repository])%list in
    (match fst (tools args (world st)) with
     | SpawnFailed message => Raise (Exn OSError message)
     | SpawnRefused message => Raise (Exn ValueError message)
     | Spawned lines rc =>
         let stdout := Py.strip (Py.join subprocess_runner.newline lines) in
         if (rc =? 0)%Z
         then Ok (azure.first_columns
                    (azure._split_tsv_lines
                       (subprocess_runner.mkCommandResult stdout "" rc)))
         else Raise (Exn CommandError
                       (if Py.truthy stdout then stdout else "Command failed."))
     | Undecodable _ message => Raise (Exn ValueError message)
     end, st').
Proof.
  unfold azure.list_tags, azure._emit_command. cbv zeta.
  rewrite entered_then.
  change (Py.join " " (map shlex.quote ?a)) with (command_line a).
  rewrite (unguarded_quiet _ None None _ _ I I).
  cbn [world heap spawned calls given popen AcrPushApp.host].
  fold (show_tags_args acr repository).
  destruct (tools (show_tags_args acr repository) (world st))
    as [[message|message|lines rc|lines message] w];
    cbn [fst snd after_process]; try reflexivity;
    rewrite fed_nothing; cbn [world heap spawned calls];
    [destruct (rc =? 0)%Z|]; reflexivity.
Qed.

(** ** Labels *)

Lemma append_cancel_l (s t t' : string) : s ++ t = s ++ t' -> t = t'.
Proof.
  induction s as [|a s IH]; simpl; intros E; [exact E|].
  injection E as E. now apply IH.
Qed.

Lemma dotted_not_unknown (v : app.version) :
  app.dotted v <> "unknown".
Proof.
  destruct v as [[a b] c]. unfold app.dotted.
  pose proof (digits_of_truthy a) as Ht.
  pose proof (digits_of_decimal a) as Hd.
  destruct (Py.digits_of a) as [|ch s]; [discriminate Ht|].
  simpl in *. intros E. injection E as -> _. discriminate Hd.
Qed.

Lemma label_not_unknown (repository suffix : string) :
  suffix <> "unknown" ->
  Ok (repository ++ " - " ++ suffix) <> Ok (repository ++ " - unknown").
Proof.
  intros Hs E. injection E as E. apply append_cancel_l in E.
  apply (append_cancel_l " - ") in E. now elim Hs.
Qed.

Lemma label_of_not_unknown (repository : string) (tags : list string) :
  label_of repository tags <> Ok (repository ++ " - unknown").
Proof.
  unfold label_of.
  destruct (app._max_semver tags) as [[s|]|e] eqn:E; [| |discriminate].
  - destruct (max_semver_returns_version tags s E) as (a & b & c & -> & _).
    apply label_not_unknown, dotted_not_unknown.
  - apply label_not_unknown. discriminate.
Qed.

(** A run of [_repo_label], step by step. *)
Lemma repo_label_run (repository : string) (st : UiState) :
  AcrPushApp._repo_label repository st
  = let acr :=
      cli.or_empty (AcrPushApp.acr_name (AcrPushApp.selection (heap st))) in
    let args := show_tags_args acr repository in
    (match fst (tools args (world st)) with
     | SpawnFailed message => Raise (Exn OSError message)
     | SpawnRefused message => Raise (Exn ValueError message)
     | Undecodable _ message => Raise (Exn ValueError message)
     | Spawned lines rc =>
         let stdout := Py.strip (Py.join subprocess_runner.newline lines) in
         if (rc =? 0)%Z
         then label_of repository
                (azure.first_columns
                   (azure._split_tsv_lines
                      (subprocess_runner.mkCommandResult stdout "" rc)))
         else Raise (Exn CommandError
                       (if Py.truthy stdout then stdout else "Command failed."))
     end,
     @mkState ui (snd (tools args (world st)))
       (AcrPushApp.set_loading false (heap st))
       (spawned st ++ [args])%list
       (calls st ++ [ListTags acr repository])%list).
Proof.
  unfold AcrPushApp._repo_label, try_except, bind.
  rewrite with_azure_loading_run. cbv zeta.
  unfold AcrPushApp.self.
  cbn [heap AcrPushApp.set_loading AcrPushApp.selection].
  rewrite list_tags_silent. cbv zeta.
  cbn [fst snd world heap spawned calls AcrPushApp.set_loading
       AcrPushApp.selection].
  destruct (tools _ (world st))
    as [[message|message|lines rc|lines message] w]; cbn [fst snd];
    try reflexivity.
  - destruct (rc =? 0)%Z; [|reflexivity].
    unfold ret, lift, label_of.
    destruct (app._max_semver _) as [[s|]|e] eqn:E; try reflexivity.
    destruct (max_semver_returns_version _ s E) as (a & b & c & -> & _).
    rewrite dotted_truthy. reflexivity.
Qed.

(** X18.  [_repo_label] starts the one command [az acr repository
    show-tags] for the selected registry, without callbacks, so the log is
    left as it was, and resets the loading flag whatever happens.  It
    never returns the label [<repository> - unknown]: [list_tags] raises
    [CommandError], not the [AzureCliError] the method catches, so that a
    failing [az] makes the method raise.  When [az] succeeds, the label
    ends in what [_max_semver] returns for the tags, or in [no-tags]. *)
Theorem repo_label_never_unknown (repository : string) (st : UiState) :
  let acr :=
    cli.or_empty (AcrPushApp.acr_name (AcrPushApp.selection (heap st))) in
  let args := show_tags_args acr repository in
  let run := AcrPushApp._repo_label repository st in
  fst run <> Ok (repository ++ " - unknown")
  /\ spawned (snd run) = (spawned st ++ [args])%list
  /\ heap (snd run) = AcrPushApp.set_loading false (heap st)
  /\ match fst (tools args (world st)) with
     | SpawnFailed message => fst run = Raise (Exn OSError message)
     | SpawnRefused message => fst run = Raise (Exn ValueError message)
     | Spawned lines rc =>
         (rc <> 0%Z ->
          exists message,
            message <> "" /\ fst run = Raise (Exn CommandError message))
         /\ (rc = 0%Z ->
             (forall n, In n lines -> clean_field n = true) ->
             fst run = label_of repository lines)
     | Undecodable _ message => fst run = Raise (Exn ValueError message)
     end.
Proof.
  intros acr args run. unfold run. rewrite repo_label_run. cbv zeta.
  fold acr. fold args. cbn [fst snd heap spawned].
  split; [|split; [reflexivity|split; [reflexivity|]]].
  - destruct (tools args (world st))
      as [[message|message|lines rc|lines message] w]; cbn [fst];
      try discriminate.
    destruct (rc =? 0)%Z; [apply label_of_not_unknown|discriminate].
  - destruct (tools args (world st))
      as [[message|message|lines rc|lines message] w]; cbn [fst];
      try reflexivity.
    destruct (rc =? 0)%Z eqn:Erc; split.
    + intros Hrc. apply Z.eqb_eq in Erc. now elim Hrc.
    + intros _ Hall. destruct (names_table lines Hall) as [Htable Htext].
      rewrite <- Htext, (strip_tsv_text _ Htable),
        (split_tsv_lines_of_text (map (fun n => [n]) lines)
           (subprocess_runner.mkCommandResult
              (tsv_text (map (fun n => [n]) lines)) "" rc) Htable eq_refl).
      now rewrite first_columns_names.
    + intros _. eexists. split; [|reflexivity].
      destruct (Py.strip _); discriminate.
    + intros Hrc. apply Z.eqb_neq in Erc. now elim Erc.
Qed.

End Terminal.

Lemma repo_label_never_unknown_witness :
  fst (AcrPushApp._repo_label "api"
         (app_state tag_script small_fs (select_registry acr_one (fresh_app ci_settings))))
  = label_of "api" ["1.2.3"; "latest"; "1.10.0"]
  /\ exists message,
       message <> ""
       /\ fst (AcrPushApp._repo_label "gone"
                 (app_state tag_script small_fs
                    (select_registry acr_one (fresh_app ci_settings))))
          = Raise (Exn CommandError message).
Proof.
  split.
  - refine (proj2 (proj2 (proj2 (proj2
              (repo_label_never_unknown (scripted tag_script)
                 (on_disk small_fs) "api"
                 (app_state tag_script small_fs
                    (select_registry acr_one (fresh_app ci_settings)))))))
              eq_refl _).
    intros n [<-|[<-|[<-|[]]]]; vm_compute; reflexivity.
  - refine (proj1 (proj2 (proj2 (proj2
              (repo_label_never_unknown (scripted tag_script)
                 (on_disk small_fs) "gone"
                 (app_state tag_script small_fs
                    (select_registry acr_one (fresh_app ci_settings))))))) _).
    discriminate.
Defined.


(** ** The log pane *)

Section Log.
Context {W : Type}.
Variable tools : list string -> W -> popen_outcome * W.
Variable files : W -> Path -> stat_outcome.

Abbreviation ui := (AcrPushApp.host tools files).
Abbreviation UiState := (@State (AcrPushApp.host tools files)).
Abbreviation UiM := (@M (AcrPushApp.host tools files)).
Abbreviation append_log := (Some (@AcrPushApp._append_log _ tools files)).
Abbreviation append_command :=
  (Some (@AcrPushApp._append_command _ tools files)).
Abbreviation logs := (@logs_commands _ tools files _).

Lemma replay_app (w : W) (first rest : list (list string)) :
  replay tools w (first ++ rest)
  = ((fst (replay tools w first)
      ++ fst (replay tools (snd (replay tools w first)) rest))%list,
     snd (replay tools (snd (replay tools w first)) rest)).
Proof.
  revert w. induction first as [|args first IH]; intros w; simpl.
  - destruct (replay tools w rest); reflexivity.
  - destruct (tools args w) as [outcome w1]. rewrite IH.
    destruct (replay tools w1 first) as [log w2]. simpl.
    now rewrite app_assoc.
Qed.

Lemma logs_same_state {A} (m : UiM A) :
  (forall st, heap (snd (m st)) = heap st
              /\ world (snd (m st)) = world st
              /\ spawned (snd (m st)) = spawned st) ->
  logs m.
Proof.
  intros Hm st. destruct (Hm st) as (Hh & Hw & Hs). exists [].
  rewrite Hh, Hw, Hs, !app_nil_r. repeat split.
Qed.

Lemma logs_ret {A} (a : A) : logs (ret a).
Proof. apply logs_same_state. intros st. repeat split. Qed.

Lemma logs_raise {A} (e : exn) : logs (@raise ui A e).
Proof. apply logs_same_state. intros st. repeat split. Qed.

Lemma logs_self : logs (@AcrPushApp.self _ tools files).
Proof. apply logs_same_state. intros st. repeat split. Qed.

Lemma logs_entered (c : gateway_call) : logs (entered c).
Proof. apply logs_same_state. intros st. repeat split. Qed.

Lemma logs_assign (f : AcrPushApp.App -> AcrPushApp.App) :
  (forall app, AcrPushApp.log_widget (f app) = AcrPushApp.log_widget app
               /\ AcrPushApp.settings (f app) = AcrPushApp.settings app
               /\ AcrPushApp.selection (f app) = AcrPushApp.selection app) ->
  logs (@AcrPushApp.assign _ tools files f).
Proof.
  intros Hf st. destruct (Hf (heap st)) as (Hl & Hs & Hc). exists [].
  cbn [AcrPushApp.assign snd world heap spawned replay fst].
  rewrite Hl, Hs, Hc, !app_nil_r. repeat split.
Qed.

Lemma logs_bind {A B} (m : UiM A) (k : A -> UiM B) :
  logs m -> (forall a, logs (k a)) -> logs (bind m k).
Proof.
  intros Hm Hk st. rewrite bind_run.
  destruct (Hm st) as (c1 & Hs1 & Hw1 & Hl1 & Hg1 & Hc1).
  destruct (fst (m st)) as [a|e].
  - destruct (Hk a (snd (m st))) as (c2 & Hs2 & Hw2 & Hl2 & Hg2 & Hc2).
    exists (c1 ++ c2)%list. rewrite replay_app. cbn [fst snd].
    rewrite Hs2, Hw2, Hl2, Hg2, Hc2, Hs1, Hw1, Hl1, Hg1, Hc1, !app_assoc.
    repeat split.
  - exists c1. cbn [snd]. repeat split; assumption.
Qed.

Lemma logs_try_except {A} (body : UiM A) catches (handler : exn -> UiM A) :
  logs body -> (forall e, logs (handler e)) ->
  logs (try_except body catches handler).
Proof.
  intros Hb Hh st. unfold try_except.
  destruct (Hb st) as (c1 & Hs1 & Hw1 & Hl1 & Hg1 & Hc1).
  destruct (body st) as [[a|e] st1]; cbn [snd] in *.
  - exists c1. repeat split; assumption.
  - destruct (catches (exn_cls e)).
    + destruct (Hh e st1) as (c2 & Hs2 & Hw2 & Hl2 & Hg2 & Hc2).
      exists (c1 ++ c2)%list. rewrite replay_app. cbn [fst snd].
      rewrite Hs2, Hw2, Hl2, Hg2, Hc2, Hs1, Hw1, Hl1, Hg1, Hc1, !app_assoc.
      repeat split.
    + exists c1. cbn [snd]. repeat split; assumption.
Qed.

(** What the log holds after [_append_log] was given each of [lines]. *)
Lemma fed_append_log (lines : list string) (app : AcrPushApp.App) :
  fed append_log lines app
  = AcrPushApp.mkApp (AcrPushApp.settings app) (AcrPushApp.selection app)
      (AcrPushApp.log_widget app ++ filter Py.truthy lines)%list
      (AcrPushApp.loading app) (AcrPushApp.account_info app).
Proof.
  unfold fed. revert app. induction lines as [|l lines IH]; intros app.
  - simpl. rewrite app_nil_r. destruct app; reflexivity.
  - cbn [fold_left filter]. rewrite IH.
    unfold given, AcrPushApp._append_log. cbn [snd].
    destruct (Py.truthy l); [|reflexivity].
    unfold AcrPushApp.write. cbn. now rewrite <- app_assoc.
Qed.

Lemma append_log_returns :
  returns_normally (@AcrPushApp._append_log _ tools files).
Proof. intros x h. reflexivity. Qed.

(** The echo and the run of one command. *)
Lemma logs_echo_run (args : list string) (check : bool) :
  logs (call_if_given append_command (command_line args) ;;
        subprocess_runner.run_command args check append_log).
Proof.
  intros st. exists [args]. unfold bind.
  cbn [call_if_given invoke AcrPushApp._append_command fst snd].
  rewrite (run_command_quiet args check append_log _ append_log_returns).
  cbn [world heap spawned calls popen AcrPushApp.host replay].
  destruct (tools args (world st))
    as [[message|message|lines rc|lines message] w];
    cbn [fst snd after_process world heap spawned transcript];
    rewrite ?fed_append_log, app_nil_r;
    cbn [heap AcrPushApp.log_widget AcrPushApp.settings AcrPushApp.selection
         AcrPushApp.write];
    rewrite <- ?app_assoc; repeat split.
Qed.

Lemma logs_echo_run_then {A} (args : list string) (check : bool)
    (k : subprocess_runner.CommandResult -> UiM A) :
  (forall r, logs (k r)) ->
  logs (call_if_given append_command (command_line args) ;;
        r <- subprocess_runner.run_command args check append_log ;;
        k r).
Proof.
  intros Hk st.
  destruct (logs_bind _ k (logs_echo_run args check) Hk st)
    as (commands & Hrun).
  exists commands.
  replace ((call_if_given append_command (command_line args) ;;
            r <- subprocess_runner.run_command args check append_log ;;
            k r) st)
    with (bind (call_if_given append_command (command_line args) ;;
                subprocess_runner.run_command args check append_log) k st);
    [exact Hrun|].
  unfold bind.
  destruct (call_if_given append_command (command_line args) st)
    as [[[]|e] st1]; reflexivity.
Qed.

End Log.

Create HintDb logging.
#[local] Hint Resolve logs_ret logs_raise logs_entered : logging.

(** Steps through a computation made of [bind], [try_except], tests and
    echoed commands. *)
Ltac logging :=
  repeat first
    [ solve [auto with logging]
    | progress cbv zeta
    | match goal with
      | |- logs_commands
             (bind (call_if_given _ _)
                (fun _ => bind (subprocess_runner.run_command _ _ _) _)) =>
          apply logs_echo_run_then; intros ?
      | |- logs_commands
             (bind (call_if_given _ _)
                (fun _ => subprocess_runner.run_command _ _ _)) =>
          apply logs_echo_run
      | |- logs_commands (try_except _ _ _) =>
          apply logs_try_except; [|intros ?]
      | |- logs_commands (bind _ _) => apply logs_bind; [|intros ?]
      | |- logs_commands (if ?b then _ else _) => destruct b
      | |- logs_commands (match ?x with _ => _ end) => destruct x
      end ].

Section Loaders.
Context {W : Type}.
Variable tools : list string -> W -> popen_outcome * W.
Variable files : W -> Path -> stat_outcome.

Abbreviation append_log := (Some (@AcrPushApp._append_log _ tools files)).
Abbreviation append_command :=
  (Some (@AcrPushApp._append_command _ tools files)).

Lemma logs_ensure_logged_in :
  logs_commands (azure.ensure_logged_in append_log append_command).
Proof.
  unfold azure.ensure_logged_in, azure._emit_command.
  change (Py.join " " (map shlex.quote ?a)) with (command_line a). logging.
Qed.

Lemma logs_get_current_account :
  logs_commands (azure.get_current_account append_log append_command).
Proof.
  unfold azure.get_current_account, azure._emit_command.
  change (Py.join " " (map shlex.quote ?a)) with (command_line a). logging.
Qed.

Lemma logs_set_subscription (subscription : option string) :
  logs_commands
    (azure.set_subscription subscription append_log append_command).
Proof.
  unfold azure.set_subscription, azure._emit_command.
  change (Py.join " " (map shlex.quote ?a)) with (command_line a). logging.
Qed.

Lemma logs_list_registries :
  logs_commands (azure.list_registries append_log append_command).
Proof.
  unfold azure.list_registries, azure._emit_command.
  change (Py.join " " (map shlex.quote ?a)) with (command_line a). logging.
Qed.

Lemma logs_login_registry (acr : string) :
  logs_commands (azure.login_registry acr append_log append_command).
Proof.
  unfold azure.login_registry, azure._emit_command.
  change (Py.join " " (map shlex.quote ?a)) with (command_line a). logging.
Qed.

Lemma logs_list_repositories (acr : string) :
  logs_commands (azure.list_repositories acr append_log append_command).
Proof.
  unfold azure.list_repositories, azure._emit_command.
  change (Py.join " " (map shlex.quote ?a)) with (command_line a). logging.
Qed.

Lemma logs_list_tags (acr repository : string) :
  logs_commands (azure.list_tags acr repository append_log append_command).
Proof.
  unfold azure.list_tags, azure._emit_command.
  change (Py.join " " (map shlex.quote ?a)) with (command_line a). logging.
Qed.

(** X19.  The log pane is a transcript.  Whatever the tools do,
    [_fetch_registries], [_load_repositories] and [_load_tags] add to the
    log, for each command they start and in the order they start them, the
    line [$ <command line>] followed by the lines the command printed that
    are not empty; they add nothing else, remove nothing, and leave the
    settings and the selection as they are. *)
Theorem loaders_log_every_command :
  logs_commands (@AcrPushApp._fetch_registries _ tools files)
  /\ (forall acr,
        logs_commands (@AcrPushApp._load_repositories _ tools files acr))
  /\ (forall acr repository,
        logs_commands (@AcrPushApp._load_tags _ tools files acr repository)).
Proof.
  split; [|split].
  - unfold AcrPushApp._fetch_registries.
    apply logs_bind; [apply logs_ensure_logged_in|intros _].
    apply logs_bind; [apply logs_get_current_account|intros account].
    apply logs_bind; [apply logs_assign; intros app; repeat split|intros _].
    apply logs_bind; [apply logs_self|intros app].
    apply logs_bind; [apply logs_set_subscription|intros _].
    apply logs_list_registries.
  - intros acr. unfold AcrPushApp._load_repositories.
    apply logs_bind; [apply logs_login_registry|intros _].
    apply logs_list_repositories.
  - intros acr repository. apply logs_list_tags.
Qed.

End Loaders.


(** ** Loading the registries *)

Section AccountCalls.
Context {H : Host}.

Lemma get_current_account_enters oo oc :
  enters GetCurrentAccount (azure.get_current_account oo oc).
Proof. apply enters_entered_then. unfold azure._emit_command. keeps. Qed.

Lemma list_registries_enters oo oc :
  enters ListRegistries (azure.list_registries oo oc).
Proof. apply enters_entered_then. unfold azure._emit_command. keeps. Qed.

Lemma get_current_account_performs oo oc :
  quiet oc -> performs GetCurrentAccount (azure.get_current_account oo oc).
Proof.
  intros Hq. split; [apply get_current_account_enters|].
  unfold azure.get_current_account, azure._emit_command, commands_of.
  spawning.
Qed.

Lemma list_registries_performs oo oc :
  quiet oc -> performs ListRegistries (azure.list_registries oo oc).
Proof.
  intros Hq. split; [apply list_registries_enters|].
  unfold azure.list_registries, azure._emit_command, commands_of. spawning.
Qed.

End AccountCalls.

Section FetchRegistries.
Context {W : Type}.
Variable tools : list string -> W -> popen_outcome * W.
Variable files : W -> Path -> stat_outcome.

Abbreviation UiState := (@State (AcrPushApp.host tools files)).
Abbreviation append_log := (Some (@AcrPushApp._append_log _ tools files)).
Abbreviation append_command :=
  (Some (@AcrPushApp._append_command _ tools files)).

Lemma append_log_quiet : quiet append_log.
Proof. intros x h. reflexivity. Qed.

Lemma append_command_quiet : quiet append_command.
Proof. intros x h. reflexivity. Qed.

(** Once the account is read, the subscription is set from a state that
    differs in [account_info] only. *)
Lemma fetch_registries_tail (account : azure.AccountInfo) (st : UiState) :
  (AcrPushApp.assign (AcrPushApp.set_account_info account) ;;
   app <- @AcrPushApp.self _ tools files ;;
   azure.set_subscription (settings.subscription (AcrPushApp.settings app))
     append_log append_command ;;
   azure.list_registries append_log append_command) st
  = (azure.set_subscription
       (settings.subscription (AcrPushApp.settings (heap st)))
       append_log append_command ;;
     azure.list_registries append_log append_command)
      (mkState (world st) (AcrPushApp.set_account_info account (heap st))
         (spawned st) (calls st)).
Proof. reflexivity. Qed.

(** X20.  [_fetch_registries] enters [ensure_logged_in],
    [get_current_account], [set_subscription] with the subscription of the
    settings and [list_registries], in that order, and stops at the first
    that raises: a run enters an initial part of the sequence, never
    empty, and all of it when it returns.  The processes it starts are
    the [az] commands of the operations entered, in that order and no
    other.  What it raises is an [AzureCliError] (which
    [_load_registries] shows in the status line), the [OSError] of a tool
    that cannot be started, or the [ValueError] of an argument that is
    refused or of output that cannot be decoded. *)
Theorem fetch_registries_steps (st : UiState) :
  let run := AcrPushApp._fetch_registries st in
  let expected := fetch_calls (heap st) in
  (exists n, 1 <= n
             /\ calls (snd run) = (calls st ++ firstn n expected)%list
             /\ spawned (snd run)
                = (spawned st
                     ++ flat_map commands_of (firstn n expected))%list)
  /\ (forall registries,
        fst run = Ok registries ->
        calls (snd run) = (calls st ++ expected)%list
        /\ spawned (snd run)
           = (spawned st ++ flat_map commands_of expected)%list)
  /\ (forall e,
        fst run = Raise e ->
        either is_AzureCliError is_OSError_or_ValueError (exn_cls e) = true).
Proof.
  intros run expected.
  assert (Hcases :
    (exists n, 1 <= n
               /\ calls (snd run) = (calls st ++ firstn n expected)%list
               /\ spawned (snd run)
                  = (spawned st
                       ++ flat_map commands_of (firstn n expected))%list
               /\ exists e, fst run = Raise e)
    \/ (calls (snd run) = (calls st ++ expected)%list
        /\ spawned (snd run)
           = (spawned st ++ flat_map commands_of expected)%list)).
  { unfold run, expected, fetch_calls, AcrPushApp._fetch_registries.
    rewrite bind_run.
    destruct (ensure_logged_in_performs append_log append_command
                append_command_quiet) as [H1 S1].
    specialize (H1 st). specialize (S1 st).
    destruct (logs_ensure_logged_in tools files st) as (_ & _ & _ & _ & G1 & _).
    destruct (fst (azure.ensure_logged_in append_log append_command st))
      as [[]|e1].
    2:{ left. exists 1. cbn [fst snd firstn flat_map]. split; [lia|].
        rewrite app_nil_r. split; [exact H1|split; [exact S1|now exists e1]]. }
    set (st1 := snd (azure.ensure_logged_in append_log append_command st))
      in *.
    rewrite bind_run.
    destruct (get_current_account_performs append_log append_command
                append_command_quiet) as [H2 S2].
    specialize (H2 st1). specialize (S2 st1).
    destruct (logs_get_current_account tools files st1)
      as (_ & _ & _ & _ & G2 & _).
    destruct (fst (azure.get_current_account append_log append_command st1))
      as [account|e2].
    2:{ left. exists 2. cbn [fst snd firstn flat_map]. split; [lia|].
        rewrite app_nil_r.
        split; [|split; [|now exists e2]].
        - rewrite H2, H1, <- app_assoc. reflexivity.
        - rewrite S2, S1, <- app_assoc. reflexivity. }
    set (st2 := snd (azure.get_current_account append_log append_command st1))
      in *.
    cbv beta. rewrite fetch_registries_tail, G2, G1, bind_run.
    set (sub := settings.subscription (AcrPushApp.settings (heap st))).
    set (st3 := mkState (world st2) _ (spawned st2) (calls st2)).
    destruct (set_subscription_performs sub append_log append_command
                append_command_quiet) as [H3 S3].
    specialize (H3 st3). specialize (S3 st3).
    assert (H3' : calls (snd (azure.set_subscription sub append_log
                                append_command st3))
                  = (calls st ++ [EnsureLoggedIn; GetCurrentAccount;
                                  SetSubscription sub])%list).
    { rewrite H3. unfold st3. cbn [calls]. rewrite H2, H1, <- !app_assoc.
      reflexivity. }
    assert (S3' : spawned (snd (azure.set_subscription sub append_log
                                  append_command st3))
                  = (spawned st
                       ++ commands_of EnsureLoggedIn
                       ++ commands_of GetCurrentAccount
                       ++ commands_of (SetSubscription sub))%list).
    { rewrite S3. unfold st3. cbn [spawned]. rewrite S2, S1, <- !app_assoc.
      reflexivity. }
    destruct (fst (azure.set_subscription sub append_log append_command st3))
      as [[]|e3].
    2:{ left. exists 3. cbn [fst snd firstn flat_map]. split; [lia|].
        rewrite app_nil_r.
        split; [exact H3'|split; [exact S3'|now exists e3]]. }
    set (st4 := snd (azure.set_subscription sub append_log append_command
                       st3)) in *.
    destruct (list_registries_performs append_log append_command
                append_command_quiet) as [H4 S4].
    specialize (H4 st4). specialize (S4 st4).
    assert (H4' : calls (snd (azure.list_registries append_log append_command
                                st4))
                  = (calls st ++ [EnsureLoggedIn; GetCurrentAccount;
                                  SetSubscription sub; ListRegistries])%list).
    { rewrite H4, H3', <- app_assoc. reflexivity. }
    assert (S4' : spawned (snd (azure.list_registries append_log
                                  append_command st4))
                  = (spawned st
                       ++ flat_map commands_of
                            [EnsureLoggedIn; GetCurrentAccount;
                             SetSubscription sub; ListRegistries])%list).
    { rewrite S4, S3'. cbn [flat_map]. rewrite <- !app_assoc, app_nil_r.
      reflexivity. }
    destruct (fst (azure.list_registries append_log append_command st4))
      as [registries|e4] eqn:E4.
    - right. split; [exact H4'|exact S4'].
    - left. exists 4. split; [lia|].
      split; [exact H4'|split; [exact S4'|now exists e4]]. }
  split; [|split].
  - destruct Hcases as [(n & Hn & Hc & Hs & _)|[Hc Hs]].
    + exists n. now repeat split.
    + exists 4. split; [lia|split; [exact Hc|exact Hs]].
  - intros registries E.
    destruct Hcases as [(n & _ & _ & _ & e & He)|Hc]; [|exact Hc].
    rewrite E in He. discriminate He.
  - intros e. unfold run. clear. revert st e.
    change (raises_only
              (@AcrPushApp._fetch_registries _ tools files)
              (either is_AzureCliError is_OSError_or_ValueError)).
    unfold AcrPushApp._fetch_registries.
    apply ro_bind;
      [apply ro_ensure_logged_in;
       [apply append_log_quiet|apply append_command_quiet]|intros _].
    apply ro_bind;
      [apply ro_get_current_account;
       [apply append_log_quiet|apply append_command_quiet]|intros account].
    apply ro_bind; [intros s e; discriminate|intros _].
    apply ro_bind; [intros s e; discriminate|intros app].
    apply ro_bind;
      [apply ro_set_subscription;
       [apply append_log_quiet|apply append_command_quiet]|intros _].
    apply ro_list_registries;
      [apply append_log_quiet|apply append_command_quiet].
Qed.

End FetchRegistries.

(** A session in which [az] answers: the four operations, and the three
    commands they start (no subscription is configured). *)
Lemma fetch_registries_steps_witness :
  let run :=
    AcrPushApp._fetch_registries
      (app_state session_script small_fs (fresh_app ci_settings)) in
  fst run = Ok two_registries
  /\ calls (snd run)
     = [EnsureLoggedIn; GetCurrentAccount; SetSubscription None;
        ListRegistries]
  /\ spawned (snd run)
     = [["az"; "account"; "show"];
        ["az"; "account"; "show"; "--query";
         "{Tenant:tenantId,TenantName:tenantDisplayName,Account:name}";
         "-o"; "tsv"];
        ["az"; "acr"; "list"; "--query";
         "[].{Name:name,RG:resourceGroup,LS:loginServer}"; "-o"; "tsv"]].
Proof.
  assert (Hok : fst (AcrPushApp._fetch_registries
                       (app_state session_script small_fs
                          (fresh_app ci_settings)))
                = Ok two_registries) by (vm_compute; reflexivity).
  destruct (proj1 (proj2
              (fetch_registries_steps (scripted session_script)
                 (on_disk small_fs)
                 (app_state session_script small_fs (fresh_app ci_settings))))
              two_registries Hok) as [Hc Hs].
  split; [exact Hok|split; [exact Hc|exact Hs]].
Defined.


(** ** The plan of a build *)

Section BuildPlanOfSelection.
Context {W : Type}.
Variable tools : list string -> W -> popen_outcome * W.
Variable files : W -> Path -> stat_outcome.

Abbreviation UiState := (@State (AcrPushApp.host tools files)).

(** X21.  [_build_plan] changes nothing.  It returns a plan exactly when
    the selected Dockerfile is a regular file and the selected context a
    directory, the current directory standing for a path that was not
    selected; the plan is made of the selection, an empty string standing
    for a registry, repository or tag that was not selected, which are
    not checked.  What it raises is a [WorkflowError] when the two paths
    can be examined, and otherwise the [OSError] of the path that cannot:
    of the Dockerfile, or of the context when the Dockerfile is a regular
    file.  With no Dockerfile selected, and the current directory not
    being a regular file, the error is [Dockerfile not found: .]. *)
Theorem build_plan_outcomes (st : UiState) :
  let selection := AcrPushApp.selection (heap st) in
  let dockerfile := cli.or_cwd (AcrPushApp.dockerfile_path selection) in
  let context := cli.or_cwd (AcrPushApp.build_context selection) in
  let run := AcrPushApp._build_plan st in
  snd run = st
  /\ (forall e, fst run = Raise e ->
        either is_WorkflowError is_OSError (exn_cls e) = true)
  /\ (forall e kind kind',
        files (world st) dockerfile = Known kind ->
        files (world st) context = Known kind' ->
        fst run = Raise e -> exn_cls e = WorkflowError)
  /\ (forall message,
        files (world st) dockerfile = StatFailed message ->
        fst run = Raise (Exn OSError message))
  /\ (forall message,
        files (world st) dockerfile = Known (Some RegularFile) ->
        files (world st) context = StatFailed message ->
        fst run = Raise (Exn OSError message))
  /\ (forall plan,
        fst run = Ok plan
        <-> files (world st) dockerfile = Known (Some RegularFile)
            /\ files (world st) context = Known (Some Directory)
            /\ plan
               = mkBuildPlan
                   (cli.or_empty (AcrPushApp.registry_server selection))
                   (cli.or_empty (AcrPushApp.repository selection))
                   (cli.or_empty (AcrPushApp.tag selection))
                   dockerfile context
                   (settings.skip_latest (AcrPushApp.settings (heap st)))
                   (settings.platform (AcrPushApp.settings (heap st))))
  /\ (AcrPushApp.dockerfile_path selection = None ->
      forall kind,
        files (world st) pathlib.empty = Known kind ->
        kind <> Some RegularFile ->
        fst run = Raise (Exn WorkflowError "Dockerfile not found: .")).
Proof.
  intros selection dockerfile context run.
  assert (Hdot : AcrPushApp.dockerfile_path selection = None ->
                 dockerfile = pathlib.empty).
  { unfold dockerfile. now intros ->. }
  unfold run, AcrPushApp._build_plan, AcrPushApp.self,
    workflow.validate_docker_paths, workflow.is_file, workflow.is_dir,
    stat, bind, ret, raise.
  cbn [fst snd world heap path_kind AcrPushApp.host].
  fold selection. fold dockerfile. fold context.
  destruct (files (world st) dockerfile) as [[[| |]|]|m1] eqn:Ef; cbn;
    destruct (files (world st) context) as [[[| |]|]|m2] eqn:Ec; cbn;
    (split; [reflexivity|]);
    (split; [intros e E; try discriminate E; injection E as <-; reflexivity|]);
    (split;
     [intros e k k' E1 E2 E; try discriminate E1; try discriminate E2;
      try discriminate E; injection E as <-; reflexivity|]);
    (split; [intros m E; try discriminate E; injection E as <-; reflexivity|]);
    (split;
     [intros m E1 E2; try discriminate E1; try discriminate E2;
      injection E2 as <-; reflexivity|]);
    (split;
     [intros plan; split;
      [intros E; try discriminate E; injection E as <-; repeat split
      |intros (E1 & E2 & ->); try discriminate E1; try discriminate E2;
       reflexivity]
     |intros Hnone k Hk Hne; rewrite (Hdot Hnone) in Ef;
      rewrite Ef in Hk; try discriminate Hk; injection Hk as <-;
      try (now elim Hne); rewrite (Hdot Hnone); reflexivity]).
Qed.

End BuildPlanOfSelection.

(** Nothing is selected in a directory: the Dockerfile is not found.  The
    selected Dockerfile has a name too long: the [OSError] of [os.stat]
    is what is raised. *)
Lemma build_plan_outcomes_witness :
  fst (AcrPushApp._build_plan
         (app_state session_script small_fs (fresh_app ci_settings)))
  = Raise (Exn WorkflowError "Dockerfile not found: .")
  /\ fst (@AcrPushApp._build_plan _ (scripted session_script) long_name_files
            (long_name_state session_script
               (select_dockerfile (pathlib.of_str long_name)
                  (fresh_app ci_settings))))
     = Raise (Exn OSError
                ("[Errno 36] File name too long: '" ++ long_name ++ "'")).
Proof.
  split.
  - apply (proj2 (proj2 (proj2 (proj2 (proj2 (proj2
             (build_plan_outcomes (scripted session_script) (on_disk small_fs)
                (app_state session_script small_fs
                   (fresh_app ci_settings))))))))
             eq_refl (Some Directory));
      [reflexivity|discriminate].
  - apply (proj1 (proj2 (proj2 (proj2
             (build_plan_outcomes (scripted session_script) long_name_files
                (long_name_state session_script
                   (select_dockerfile (pathlib.of_str long_name)
                      (fresh_app ci_settings)))))))).
    reflexivity.
Defined.


(* ===================================================================== *)
(** * A plan whose tag is [latest] *)

Section LatestTag.
Context {H : Host}.

(** X22.  The versioned and the latest reference of a plan are the same
    exactly when its tag is [latest].  For such a plan, with
    [skip_latest] off, a run of [build_and_push] that returns has tagged
    the image with its own reference and pushed that one reference
    twice: these are the operations it entered and, when the echo
    callback returns, the [docker] commands it started. *)
Theorem latest_tag_is_pushed_twice (plan : BuildPlan)
    (on_output on_command : option callback) (st : State) :
  (versioned_ref plan = latest_ref plan <-> tag plan = "latest")
  /\ (tag plan = "latest" -> skip_latest plan = false ->
      fst (workflow.build_and_push plan on_output on_command st) = Ok tt ->
      calls (snd (workflow.build_and_push plan on_output on_command st))
      = (calls st
         ++ [EnsureAvailable;
             BuildImage (latest_ref plan) (dockerfile_path plan)
               (build_context plan) (platform plan);
             TagImage (latest_ref plan) (latest_ref plan);
             PushImage (latest_ref plan);
             PushImage (latest_ref plan)])%list
      /\ (quiet on_command ->
          spawned (snd (workflow.build_and_push plan on_output on_command st))
          = (spawned st
             ++ [["docker"; "info"];
                 build_args (latest_ref plan) (dockerfile_path plan)
                   (build_context plan) (platform plan);
                 ["docker"; "tag"; latest_ref plan; latest_ref plan];
                 ["docker"; "push"; latest_ref plan];
                 ["docker"; "push"; latest_ref plan]])%list)).
Proof.
  assert (Hrefs : versioned_ref plan = latest_ref plan
                  <-> tag plan = "latest").
  { unfold versioned_ref, latest_ref. split.
    - intros E. apply append_cancel_l in E.
      apply (append_cancel_l "/") in E. apply append_cancel_l in E.
      apply (append_cancel_l ":") in E. exact E.
    - now intros ->. }
  split; [exact Hrefs|]. intros Htag Hskip Hok. split.
  - destruct (build_and_push_calls plan on_output on_command st)
      as (k & _ & _ & Hall).
    rewrite (Hall Hok). unfold expected_calls.
    rewrite Hskip, (proj2 Hrefs Htag). reflexivity.
  - intros Hq.
    destruct (build_and_push_performs plan on_output on_command st Hq)
      as (k & _ & _ & Hs & Hall).
    rewrite Hs, (Hall Hok). unfold expected_calls.
    rewrite Hskip, (proj2 Hrefs Htag). reflexivity.
Qed.

End LatestTag.

Lemma latest_tag_is_pushed_twice_witness :
  let run :=
    @workflow.build_and_push (sim_host all_ok small_fs) latest_plan
      None None (sim_state all_ok small_fs) in
  calls (snd run)
  = [EnsureAvailable;
     BuildImage "reg.example.com/myrepo:latest" (pathlib.of_str "Dockerfile")
       (pathlib.of_str ".") None;
     TagImage "reg.example.com/myrepo:latest" "reg.example.com/myrepo:latest";
     PushImage "reg.example.com/myrepo:latest";
     PushImage "reg.example.com/myrepo:latest"]
  /\ spawned (snd run)
     = [["docker"; "info"];
        ["docker"; "build"; "-t"; "reg.example.com/myrepo:latest"; "-f";
         "Dockerfile"; "."];
        ["docker"; "tag"; "reg.example.com/myrepo:latest";
         "reg.example.com/myrepo:latest"];
        ["docker"; "push"; "reg.example.com/myrepo:latest"];
        ["docker"; "push"; "reg.example.com/myrepo:latest"]].
Proof.
  destruct (proj2 (@latest_tag_is_pushed_twice (sim_host all_ok small_fs)
                     latest_plan None None (sim_state all_ok small_fs))
              eq_refl eq_refl eq_refl) as [Hc Hs].
  split; [exact Hc|exact (Hs I)].
Defined.
